(** * Volunteer-tracking bot (src/bot.py): shallow embedding and properties

    The development follows the layout of [src/bot.py]:

    - [PyStr]: the string built-ins the bot calls ([int], [str.strip],
      [str.replace], [str.split], [in], [startswith], [str] of an integer);
    - the two tables of [init_db] and the SQL statements the bot sends;
    - the handlers, written in a small state-and-exception monad over the
      database, the principal's FSM context and the messages sent;
    - the interleaving model of concurrent [add_lateness] calls;
    - the properties.

    Conventions.  Integers are Python's unbounded integers ([Z]).  An id
    bound to a parameter of a statement is an int4 value or the call raises
    ([bind_int4]); the range of the two counters and of the two id sequences
    is not modelled.  Text is a Python str in its UTF-8 encoding; [PyStr.int]
    and [PyStr.strip] read the decimal digits and the white space of Unicode
    as the built-ins do.  A [Text] event is a message with text that reaches
    [handle_messages]; its text is text that PostgreSQL stores (no NUL
    character).  The [added] column of [blacklist] (DEFAULT NOW()) is
    never read by the bot and is left out.  A button is a record; the
    constructor call that gives the text by position is
    [InlineKeyboardButton_positional]. *)

From Stdlib Require Import ZArith String Ascii List Bool Lia DecimalString DecimalPos.
From stdpp Require Import base option list gmap strings.

Open Scope string_scope.
Open Scope Z_scope.

(** ** Python string built-ins *)

Module PyStr.

(** [s.startswith(p)] *)
Definition startswith (s p : string) : bool := String.prefix p s.

(** [sub in s] *)
Fixpoint contains (sub s : string) : bool :=
  String.prefix sub s ||
  match s with
  | EmptyString => false
  | String _ s' => contains sub s'
  end.

(** [s.replace(old, "")] for a non-empty [old]: the occurrences of [old] are
    found from the left, without overlap, and dropped.  [skip] counts the
    characters of the occurrence being dropped. *)
Fixpoint remove_go (old : string) (skip : nat) (s : string) : string :=
  match s with
  | EmptyString => EmptyString
  | String c s' =>
      match skip with
      | S k => remove_go old k s'
      | O => if String.prefix old s
             then remove_go old (Nat.pred (String.length old)) s'
             else String c (remove_go old O s')
      end
  end.

Definition remove (old s : string) : string := remove_go old O s.

(** [s.split(sep)] for a non-empty [sep]: the part being read, then the
    parts after it. *)
Fixpoint split_go (sep : string) (skip : nat) (s : string) : string * list string :=
  match s with
  | EmptyString => (EmptyString, [])
  | String c s' =>
      match skip with
      | S k => split_go sep k s'
      | O => if String.prefix sep s
             then (EmptyString,
                   let '(h, t) := split_go sep (Nat.pred (String.length sep)) s' in h :: t)
             else let '(h, t) := split_go sep O s' in (String c h, t)
      end
  end.

Definition split (sep s : string) : list string :=
  let '(h, t) := split_go sep O s in h :: t.

(** *** Text as code points

    A text is a Python str, held as its UTF-8 encoding.  [code_points] reads
    the code points back ([need] bytes of the sequence being read are still to
    come, [acc] is what was read of it, [low] the least code point a sequence
    of this length encodes); a byte string that is not the encoding of a str
    has none.  [encode] is the encoding. *)
Definition between (lo hi x : N) : bool := ((lo <=? x)%N && (x <=? hi)%N)%bool.

Fixpoint code_points_go (need : nat) (acc low : N) (s : string) : option (list N) :=
  match s with
  | EmptyString => match need with O => Some [] | S _ => None end
  | String c s' =>
      let b := N_of_ascii c in
      match need with
      | O =>
          if (b <? 0x80)%N then cons b <$> code_points_go O 0%N 0%N s'
          else if between 0xC2 0xDF b then code_points_go 1 (b - 0xC0)%N 0x80%N s'
          else if between 0xE0 0xEF b then code_points_go 2 (b - 0xE0)%N 0x800%N s'
          else if between 0xF0 0xF4 b then code_points_go 3 (b - 0xF0)%N 0x10000%N s'
          else None
      | S k =>
          if between 0x80 0xBF b then
            let acc' := (acc * 64 + (b - 0x80))%N in
            match k with
            | O =>
                if (between low 0x10FFFF acc' && negb (between 0xD800 0xDFFF acc'))%bool
                then cons acc' <$> code_points_go O 0%N 0%N s'
                else None
            | S _ => code_points_go k acc' low s'
            end
          else None
      end
  end.

Definition code_points (s : string) : option (list N) := code_points_go O 0%N 0%N s.

Definition encode_code_point (cp : N) : string :=
  if (cp <? 0x80)%N then String (ascii_of_N cp) ""
  else if (cp <? 0x800)%N then
    String (ascii_of_N (0xC0 + cp / 64)) (String (ascii_of_N (0x80 + cp mod 64)) "")
  else if (cp <? 0x10000)%N then
    String (ascii_of_N (0xE0 + cp / 4096))
      (String (ascii_of_N (0x80 + (cp / 64) mod 64)) (String (ascii_of_N (0x80 + cp mod 64)) ""))
  else
    String (ascii_of_N (0xF0 + cp / 262144))
      (String (ascii_of_N (0x80 + (cp / 4096) mod 64))
         (String (ascii_of_N (0x80 + (cp / 64) mod 64))
            (String (ascii_of_N (0x80 + cp mod 64)) ""))).

Definition encode (cps : list N) : string :=
  fold_right (fun cp s => encode_code_point cp +:+ s) "" cps.

(** [c.isspace()]: \t \n \v \f \r, the four separators \x1c to \x1f, space,
    and the white space outside ASCII (U+0085, U+00A0, U+1680, U+2000 to
    U+200A, U+2028, U+2029, U+202F, U+205F, U+3000). *)
Definition is_space (cp : N) : bool :=
  (between 0x09 0x0D cp || between 0x1C 0x20 cp
   || (cp =? 0x85)%N || (cp =? 0xA0)%N || (cp =? 0x1680)%N
   || between 0x2000 0x200A cp || (cp =? 0x2028)%N || (cp =? 0x2029)%N
   || (cp =? 0x202F)%N || (cp =? 0x205F)%N || (cp =? 0x3000)%N)%bool.

Fixpoint lstrip_code_points (cps : list N) : list N :=
  match cps with
  | [] => []
  | cp :: cps' => if is_space cp then lstrip_code_points cps' else cps
  end.

Definition rstrip_code_points (cps : list N) : list N :=
  rev (lstrip_code_points (rev cps)).

(** [s.strip()] *)
Definition strip (s : string) : string :=
  match code_points s with
  | Some cps => encode (rstrip_code_points (lstrip_code_points cps))
  | None => s
  end.

(** *** [int]

    The code points with the decimal property (general category Nd, Unicode
    14.0 as in CPython 3.11) come in runs of ten, the digits 0 to 9 in order;
    [decimal_zeros] lists the first code point of each run. *)
Definition decimal_zeros : list N :=
  [0x30; 0x660; 0x6f0; 0x7c0; 0x966; 0x9e6; 0xa66; 0xae6; 0xb66; 0xbe6; 0xc66;
   0xce6; 0xd66; 0xde6; 0xe50; 0xed0; 0xf20; 0x1040; 0x1090; 0x17e0; 0x1810;
   0x1946; 0x19d0; 0x1a80; 0x1a90; 0x1b50; 0x1bb0; 0x1c40; 0x1c50; 0xa620;
   0xa8d0; 0xa900; 0xa9d0; 0xa9f0; 0xaa50; 0xabf0; 0xff10; 0x104a0; 0x10d30;
   0x11066; 0x110f0; 0x11136; 0x111d0; 0x112f0; 0x11450; 0x114d0; 0x11650;
   0x116c0; 0x11730; 0x118e0; 0x11950; 0x11c50; 0x11d50; 0x11da0; 0x16a60;
   0x16ac0; 0x16b50; 0x1d7ce; 0x1d7d8; 0x1d7e2; 0x1d7ec; 0x1d7f6; 0x1e140;
   0x1e2f0; 0x1e950; 0x1fbf0]%N.

Definition decimal_of (cp : N) : option N :=
  (fun zero => (cp - zero)%N) <$> find (fun zero => between zero (zero + 9) cp) decimal_zeros.

(** [int] first turns the str into ASCII: a code point below 127 stays, white
    space outside ASCII becomes a space, a decimal digit becomes the ASCII
    digit of its value, and no other code point is accepted. *)
Definition to_ascii (cp : N) : option ascii :=
  if (cp <? 127)%N then Some (ascii_of_N cp)
  else if is_space cp then Some " "%char
  else (fun d => ascii_of_N (0x30 + d)) <$> decimal_of cp.

Fixpoint ascii_digits (cps : list N) : option string :=
  match cps with
  | [] => Some EmptyString
  | cp :: cps' => c ← to_ascii cp; s ← ascii_digits cps'; Some (String c s)
  end.

(** White space around the literal, for the ASCII text: \t \n \v \f \r and
    space. *)
Definition is_int_space (c : ascii) : bool :=
  let n := nat_of_ascii c in
  (Nat.eqb n 32 || (Nat.leb 9 n && Nat.leb n 13))%bool.

Fixpoint lstrip (sp : ascii -> bool) (s : string) : string :=
  match s with
  | EmptyString => EmptyString
  | String c s' => if sp c then lstrip sp s' else s
  end.

Fixpoint rstrip (sp : ascii -> bool) (s : string) : string :=
  match s with
  | EmptyString => EmptyString
  | String c s' =>
      match rstrip sp s' with
      | EmptyString => if sp c then EmptyString else String c EmptyString
      | r => String c r
      end
  end.

Definition digit_of (c : ascii) : option Z :=
  let n := nat_of_ascii c in
  if (Nat.leb 48 n && Nat.leb n 57)%bool then Some (Z.of_nat n - 48) else None.

(** The digits of a decimal literal; one underscore may stand between two
    digits. [seen] tells whether the previous character was a digit. *)
Fixpoint digits_go (acc : Z) (seen : bool) (s : string) : option Z :=
  match s with
  | EmptyString => if seen then Some acc else None
  | String c s' =>
      match digit_of c with
      | Some d => digits_go (10 * acc + d) true s'
      | None =>
          if (Ascii.eqb c "_" && seen)%bool then digits_go acc false s' else None
      end
  end.

(** The literal in ASCII: white space, a sign, digits, white space. *)
Definition int_ascii (s : string) : option Z :=
  match rstrip is_int_space (lstrip is_int_space s) with
  | String "+" r => digits_go 0 false r
  | String "-" r => Z.opp <$> digits_go 0 false r
  | t => digits_go 0 false t
  end.

(** [int(s)]: [None] stands for ValueError. *)
Definition int (s : string) : option Z :=
  cps ← code_points s; t ← ascii_digits cps; int_ascii t.

(** [str(n)], also the rendering of an integer in an f-string. *)
Definition str (n : Z) : string := NilZero.string_of_int (Z.to_int n).

End PyStr.

(** ** The tables of [init_db] *)

Record Volunteer := mkVolunteer {
  v_id : Z;
  v_full_name : string;
  v_contacts : string;
  v_status : string;
  v_lateness_count : Z;
  v_warnings_count : Z
}.

Record BlacklistEntry := mkBlacklistEntry {
  b_id : Z;
  b_full_name : string;
  b_reason : string
}.

(** The two tables in insertion order, which is the order of their SERIAL ids,
    and the next value of each id sequence. *)
Record DB := mkDB {
  volunteers : list Volunteer;
  blacklist : list BlacklistEntry;
  volunteers_id_seq : Z;
  blacklist_id_seq : Z
}.

Definition init_db : DB := mkDB [] [] 1 1.

Definition set_volunteers (vs : list Volunteer) (d : DB) : DB :=
  mkDB vs (blacklist d) (volunteers_id_seq d) (blacklist_id_seq d).

Definition with_status (s : string) (v : Volunteer) : Volunteer :=
  mkVolunteer (v_id v) (v_full_name v) (v_contacts v) s
              (v_lateness_count v) (v_warnings_count v).

Definition with_full_name (s : string) (v : Volunteer) : Volunteer :=
  mkVolunteer (v_id v) s (v_contacts v) (v_status v)
              (v_lateness_count v) (v_warnings_count v).

Definition with_contacts (s : string) (v : Volunteer) : Volunteer :=
  mkVolunteer (v_id v) (v_full_name v) s (v_status v)
              (v_lateness_count v) (v_warnings_count v).

Definition incr_lateness (v : Volunteer) : Volunteer :=
  mkVolunteer (v_id v) (v_full_name v) (v_contacts v) (v_status v)
              (v_lateness_count v + 1) (v_warnings_count v).

Definition incr_warnings (v : Volunteer) : Volunteer :=
  mkVolunteer (v_id v) (v_full_name v) (v_contacts v) (v_status v)
              (v_lateness_count v) (v_warnings_count v + 1).

(** ** The SQL statements *)

Module Sql.

(** SELECT ... FROM volunteers WHERE id = $1 (fetchrow) *)
Definition select_volunteer (i : Z) (d : DB) : option Volunteer :=
  find (fun v => v_id v =? i) (volunteers d).

(** UPDATE volunteers SET ... WHERE id = $1 *)
Definition update_where_id (f : Volunteer -> Volunteer) (i : Z) (d : DB) : DB :=
  set_volunteers (map (fun v => if v_id v =? i then f v else v) (volunteers d)) d.

(** SELECT id FROM volunteers WHERE full_name=$1 AND contacts=$2 (fetchrow) *)
Definition select_by_name_contacts (n c : string) (d : DB) : option Volunteer :=
  find (fun v => String.eqb (v_full_name v) n && String.eqb (v_contacts v) c)%bool
       (volunteers d).

(** INSERT INTO volunteers (full_name, contacts) VALUES ($1, $2): the other
    columns take their defaults. *)
Definition insert_volunteer (n c : string) (d : DB) : DB :=
  mkDB (volunteers d ++ [mkVolunteer (volunteers_id_seq d) n c "Active" 0 0])%list
       (blacklist d) (volunteers_id_seq d + 1) (blacklist_id_seq d).

Definition blacklisted_name (n : string) (d : DB) : bool :=
  existsb (fun b => String.eqb (b_full_name b) n) (blacklist d).

(** INSERT INTO blacklist (full_name, reason) VALUES ($1, $2)
    ON CONFLICT DO NOTHING, under UNIQUE(full_name).  The id is drawn from
    the sequence before the conflict is seen, so the sequence advances in
    both cases. *)
Definition insert_blacklist (n r : string) (d : DB) : DB :=
  mkDB (volunteers d)
       (if blacklisted_name n d then blacklist d
        else (blacklist d ++ [mkBlacklistEntry (blacklist_id_seq d) n r])%list)
       (volunteers_id_seq d) (blacklist_id_seq d + 1).

(** DELETE FROM volunteers WHERE id=$1; a NULL parameter matches no row. *)
Definition delete_volunteer (i : option Z) (d : DB) : DB :=
  match i with
  | None => d
  | Some i => set_volunteers (List.filter (fun v => negb (v_id v =? i)) (volunteers d)) d
  end.

(** The statement text of the edit flow, f"UPDATE volunteers SET {field}=$1 WHERE id=$2". *)
Definition edit_query (field : string) : string :=
  "UPDATE volunteers SET " +:+ field +:+ "=$1 WHERE id=$2".

End Sql.

(** What the bot leaves to the database engine: ILIKE, the order in which a
    SELECT without ORDER BY returns the rows it found, and the effect of a
    statement text other than the ones read here ([None]: the engine raised
    an error). *)
Class Postgres := {
  ilike : string -> string -> bool;
  row_order : DB -> list Volunteer -> list Volunteer;
  row_order_permutation : forall d rows, Permutation (row_order d rows) rows;
  execute_other : string -> string -> Z -> DB -> option DB
}.

(** [conn.execute(q, $1, $2)] for the statement built by the edit flow.  The
    three TEXT columns are read here; every other text is the engine's. *)
Definition execute_dynamic `{Postgres} (q : string) (p1 : string) (p2 : Z) (d : DB) : option DB :=
  if String.eqb q (Sql.edit_query "full_name") then Some (Sql.update_where_id (with_full_name p1) p2 d)
  else if String.eqb q (Sql.edit_query "contacts") then Some (Sql.update_where_id (with_contacts p1) p2 d)
  else if String.eqb q (Sql.edit_query "status") then Some (Sql.update_where_id (with_status p1) p2 d)
  else execute_other q p1 p2 d.

(** ** Messages, keyboards and the FSM context *)

Record InlineKeyboardButton := mkButton {
  text : string;
  callback_data : string
}.

Definition InlineKeyboardMarkup := list (list InlineKeyboardButton).

(** What a handler sends: [message.answer], [query.message.edit_text] and
    [query.answer], in the order of the calls. *)
Inductive Render :=
| Answer (body : string) (reply_markup : option InlineKeyboardMarkup)
| EditText (body : string) (reply_markup : option InlineKeyboardMarkup)
| AnswerCallback.

(** The states of the StatesGroup classes; the FSM's default state (no flow
    active, the spec's Idle) is [None]. *)
Inductive State :=
| Lateness_waiting_for_id
| AddVolunteer_waiting_for_full_name
| AddVolunteer_waiting_for_contact
| EditVolunteer_waiting_for_id
| EditVolunteer_waiting_for_field
| EditVolunteer_waiting_for_new_value
| SearchVolunteer_waiting_for_query
| DeleteVolunteer_waiting_for_id
| DeleteVolunteer_confirm_delete
| Warning_waiting_for_id
| BlacklistDirect_waiting_for_id
| BlacklistDirect_waiting_for_reason.

(** The FSM data dict.  The handlers write three keys, each with one type of
    value: [volunteer_id] (the result of [int]), [full_name] and [field]
    (text).  [None] is an absent key. *)
Record Data := mkData {
  data_volunteer_id : option Z;
  data_full_name : option string;
  data_field : option string
}.

Definition no_data : Data := mkData None None None.

(** One principal's FSMContext: the current state and the data dict. *)
Record FSMContext := mkFSM {
  fsm_state : option State;
  fsm_data : Data
}.

(** ** The handler monad *)

(** The exceptions that end a handler.  [DataError] is
    asyncpg.exceptions.DataError, raised before a statement is sent when an
    argument cannot be encoded for its parameter; it is not a ValueError, so
    [except ValueError] lets it through.  [PostgresError] stands for the
    other errors of the engine. *)
Inductive exn :=
| ValueError (msg : string)
| DataError
| KeyError (key : string)
| TypeError
| PostgresError.

Record World := mkWorld {
  db : DB;
  fsm : FSMContext;
  sent : list Render
}.

(** A handler body: it may raise, and what it did before raising stays done. *)
Definition M (A : Type) : Type := World -> (exn + A) * World.

Definition raise {A} (e : exn) : M A := fun w => (inl e, w).

#[global] Instance M_ret : MRet M := fun A a w => (inr a, w).

#[global] Instance M_bind : MBind M := fun A B k m w =>
  match m w with
  | (inl e, w') => (inl e, w')
  | (inr a, w') => k a w'
  end.

(** try: body / except ValueError as ve: handler ve *)
Definition try_except_ValueError {A} (body : M A) (handler : string -> M A) : M A :=
  fun w => match body w with
           | (inl (ValueError msg), w') => handler msg w'
           | r => r
           end.

(** try: body / finally: fin *)
Definition try_finally {A} (body : M A) (fin : M unit) : M A :=
  fun w => match body w with
           | (r, w') => match fin w' with
                        | (inl e, w'') => (inl e, w'')
                        | (inr _, w'') => (r, w'')
                        end
           end.

Definition exec {A} (m : M A) (w : World) : World := snd (m w).

(** [await conn.fetchrow(...)] / [await conn.fetch(...)] *)
Definition fetch {A} (q : DB -> A) : M A := fun w => (inr (q (db w)), w).

(** [await conn.execute(...)] *)
Definition execute (stmt : DB -> DB) : M unit :=
  fun w => (inr tt, mkWorld (stmt (db w)) (fsm w) (sent w)).

(** The range of int4, the type of the [id SERIAL] columns. *)
Definition in_int4 (i : Z) : bool := (-2147483648 <=? i) && (i <=? 2147483647).

(** The volunteers table has a row with the id. *)
Definition is_id (i : Z) (d : DB) : bool :=
  existsb (fun v => v_id v =? i) (volunteers d).

(** A Python integer given for a parameter of a statement that is compared
    with the [id] column.  asyncpg encodes the arguments before it sends the
    statement and raises DataError ("invalid input for query argument ...
    (value out of int32 range)") for an integer outside the range of int4
    ([encodes_int4] is false).  The ids of the rows are int4 values: an id
    that a row has is encoded without error. *)
Definition encodes_int4 (i : Z) (d : DB) : bool := (in_int4 i || is_id i d)%bool.

Definition bind_int4 (i : Z) : M unit :=
  fun w => if encodes_int4 i (db w) then (inr tt, w) else (inl DataError, w).

(** [await conn.fetchrow(q, volunteer_id)] and [await conn.execute(q, volunteer_id)],
    the statement having the one parameter [WHERE id = $1]. *)
Definition fetch_by_id {A} (volunteer_id : Z) (q : DB -> A) : M A :=
  bind_int4 volunteer_id ;; fetch q.

Definition execute_by_id (volunteer_id : Z) (stmt : DB -> DB) : M unit :=
  bind_int4 volunteer_id ;; execute stmt.

Definition send (r : Render) : M unit :=
  fun w => (inr tt, mkWorld (db w) (fsm w) (sent w ++ [r])%list).

(** [await message.answer(body)] and [await message.answer(body, reply_markup=kb)] *)
Definition answer (body : string) : M unit := send (Answer body None).
Definition answer_kb (body : string) (kb : InlineKeyboardMarkup) : M unit :=
  send (Answer body (Some kb)).

(** [await query.message.edit_text(body)] and with [reply_markup=kb] *)
Definition edit_text (body : string) : M unit := send (EditText body None).
Definition edit_text_kb (body : string) (kb : InlineKeyboardMarkup) : M unit :=
  send (EditText body (Some kb)).

(** [await state.get_state()], [state.set_state], [state.get_data],
    [state.update_data(k=v)], [state.clear()] *)
Definition get_state : M (option State) := fun w => (inr (fsm_state (fsm w)), w).

Definition set_state (s : State) : M unit :=
  fun w => (inr tt, mkWorld (db w) (mkFSM (Some s) (fsm_data (fsm w))) (sent w)).

Definition get_data : M Data := fun w => (inr (fsm_data (fsm w)), w).

Definition update_data (f : Data -> Data) : M unit :=
  fun w => (inr tt, mkWorld (db w) (mkFSM (fsm_state (fsm w)) (f (fsm_data (fsm w)))) (sent w)).

(** The keyword arguments of [state.update_data]. *)
Definition volunteer_id_is (n : Z) (d : Data) : Data :=
  mkData (Some n) (data_full_name d) (data_field d).
Definition full_name_is (s : string) (d : Data) : Data :=
  mkData (data_volunteer_id d) (Some s) (data_field d).
Definition field_is (s : string) (d : Data) : Data :=
  mkData (data_volunteer_id d) (data_full_name d) (Some s).

Definition clear : M unit :=
  fun w => (inr tt, mkWorld (db w) (mkFSM None no_data) (sent w)).

(** [data[key]]: KeyError when the key is absent. *)
Definition getitem {A} (key : string) (v : option A) : M A :=
  match v with
  | Some a => mret a
  | None => raise (KeyError key)
  end.

(** [int(message.text)].  The message of the ValueError is cut after the
    base: Python goes on with the quoted text, and no handler reads it (the
    one [except ValueError as ve] encloses [add_volunteer] only). *)
Definition py_int (s : string) : M Z :=
  match PyStr.int s with
  | Some n => mret n
  | None => raise (ValueError "invalid literal for int() with base 10")
  end.

(** ** Menus *)

Definition main_menu : InlineKeyboardMarkup :=
  [ [ mkButton "👥 Волонтёры" "menu_volunteers";
      mkButton "⏰ Опоздания" "menu_lateness" ];
    [ mkButton "⚠️ Замечание" "menu_warning";
      mkButton "🚫 ЧС (вручную)" "menu_blacklist_direct" ];
    [ mkButton "➕ Добавить" "menu_add_volunteer";
      mkButton "✏️ Редактировать" "menu_edit_volunteer" ];
    [ mkButton "🚫 Чёрный список" "menu_blacklist";
      mkButton "⚙ Управление" "menu_manage" ] ].

Definition manage_menu : InlineKeyboardMarkup :=
  [ [ mkButton "📊 Статистика" "menu_statistics";
      mkButton "🔍 Поиск" "menu_search" ];
    [ mkButton "🗑 Удалить волонтёра" "menu_delete_volunteer" ];
    [ mkButton "⬅ Назад" "menu_back" ] ].

(** ** Reading and recording *)

Definition get_volunteers : M (list Volunteer) := fetch volunteers.

Definition get_blacklist : M (list BlacklistEntry) := fetch blacklist.

Definition add_volunteer (full_name contacts : string) : M unit :=
  existing ← fetch (Sql.select_by_name_contacts full_name contacts);
  match existing with
  | Some _ => raise (ValueError "Такой волонтёр уже существует!")
  | None => execute (Sql.insert_volunteer full_name contacts)
  end.

(** [x or 0] on an integer. *)
Definition or0 (x : Z) : Z := if x =? 0 then 0 else x.

(** The reason written by the automatic promotion. *)
Definition violations_reason (total_violations : Z) : string :=
  PyStr.str total_violations +:+ " нарушений (опоздания + замечания)".

Definition check_and_blacklist (volunteer_id : Z) : M unit :=
  row ← fetch_by_id volunteer_id (Sql.select_volunteer volunteer_id);
  match row with
  | None => answer "❌ Волонтёр не найден"
  | Some row =>
      let total_violations := or0 (v_lateness_count row) + or0 (v_warnings_count row) in
      if ((3 <=? total_violations) && negb (String.eqb (v_status row) "Blacklisted"))%bool
      then
        execute_by_id volunteer_id
          (Sql.update_where_id (with_status "Blacklisted") volunteer_id) ;;
        execute (Sql.insert_blacklist (v_full_name row) (violations_reason total_violations)) ;;
        answer ("🚨 Волонтёр " +:+ v_full_name row +:+ " внесён в ЧС! ("
                +:+ PyStr.str total_violations +:+ " нарушений)")
      else
        answer ("⚠ Нарушение зафиксировано: " +:+ v_full_name row +:+ " "
                +:+ "(Опозданий: " +:+ PyStr.str (v_lateness_count row)
                +:+ ", Замечаний: " +:+ PyStr.str (v_warnings_count row)
                +:+ ", Всего: " +:+ PyStr.str total_violations +:+ ")")
  end.

Definition add_lateness (volunteer_id : Z) : M unit :=
  execute_by_id volunteer_id (Sql.update_where_id incr_lateness volunteer_id) ;;
  check_and_blacklist volunteer_id.

Definition add_warning (volunteer_id : Z) : M unit :=
  execute_by_id volunteer_id (Sql.update_where_id incr_warnings volunteer_id) ;;
  check_and_blacklist volunteer_id.

Definition add_direct_blacklist (volunteer_id : Z) (reason : string) : M unit :=
  row ← fetch_by_id volunteer_id (Sql.select_volunteer volunteer_id);
  match row with
  | None => answer "❌ Волонтёр не найден"
  | Some row =>
      execute_by_id volunteer_id
        (Sql.update_where_id (with_status "Blacklisted") volunteer_id) ;;
      execute (Sql.insert_blacklist (v_full_name row) reason) ;;
      answer ("🚫 Волонтёр " +:+ v_full_name row +:+ " внесён в ЧС. Причина: " +:+ reason)
  end.

(** [/start] *)
Definition start : M unit := answer_kb "📌 Главное меню:" main_menu.

(** ** Paginated lists *)

Definition PAGE_SIZE : Z := 5.

(** [InlineKeyboardButton(text, callback_data=...)], the text given by
    position.  The class is a pydantic model, whose constructor takes keyword
    arguments only: the call raises TypeError, after its arguments have been
    evaluated.  The menus give the text by keyword ([mkButton]). *)
Definition InlineKeyboardButton_positional (text callback_data : string)
  : M InlineKeyboardButton :=
  raise TypeError.

Definition pagination_markup (page total_pages : Z) (prefix : string) : M InlineKeyboardMarkup :=
  previous ← (if 0 <? page
              then b ← InlineKeyboardButton_positional
                         "⬅️ Назад" (prefix +:+ "_page_" +:+ PyStr.str (page - 1));
                   mret [b]
              else mret []);
  next ← (if page <? total_pages - 1
          then b ← InlineKeyboardButton_positional
                     "➡️ Вперёд" (prefix +:+ "_page_" +:+ PyStr.str (page + 1));
               mret [b]
          else mret []);
  let nav_buttons := (previous ++ next)%list in
  let buttons := match nav_buttons with [] => [] | _ => [nav_buttons] end in
  main ← InlineKeyboardButton_positional "Главное меню" "menu_main";
  mret (buttons ++ [[main]])%list.

(** A row of either table, as [show_records] receives it. *)
Inductive Row :=
| VolunteerRow (v : Volunteer)
| BlacklistRow (b : BlacklistEntry).

(** A slice bound of Python: negative bounds count from the end, and every
    bound is clamped to the list. *)
Definition slice_bound (len i : Z) : Z :=
  if i <? 0 then Z.max 0 (len + i) else Z.min i len.

(** [l[start:stop]] *)
Definition py_slice {A} (l : list A) (start stop : Z) : list A :=
  let len := Z.of_nat (length l) in
  let a := slice_bound len start in
  let b := slice_bound len stop in
  firstn (Z.to_nat (b - a)) (skipn (Z.to_nat a) l).

(** The line of a volunteer and the line of a blacklist entry. *)
Definition volunteer_line (v : Volunteer) : string :=
  PyStr.str (v_id v) +:+ ". " +:+ v_full_name v +:+ " | " +:+ v_status v
  +:+ " | " +:+ v_contacts v
  +:+ " | Опозданий: " +:+ PyStr.str (v_lateness_count v)
  +:+ " | Замечаний: " +:+ PyStr.str (v_warnings_count v) +:+ "
".

Definition blacklist_line (b : BlacklistEntry) : string :=
  PyStr.str (b_id b) +:+ ". " +:+ b_full_name b +:+ " | " +:+ b_reason b +:+ "
".

(** The line of one row; a row that lacks a column of the format named by
    [prefix] raises KeyError. *)
Definition format_row (prefix : string) (r : Row) : M string :=
  if String.eqb prefix "volunteers" then
    match r with
    | VolunteerRow v => mret (volunteer_line v)
    | BlacklistRow _ => raise (KeyError "status")
    end
  else if String.eqb prefix "blacklist" then
    match r with
    | BlacklistRow b => mret (blacklist_line b)
    | VolunteerRow _ => raise (KeyError "reason")
    end
  else mret "".

(** The loop of [show_records]: [body] grows by one line per row. *)
Fixpoint format_rows (prefix : string) (rows : list Row) (body : string) : M string :=
  match rows with
  | [] => mret body
  | r :: rows' => line ← format_row prefix r; format_rows prefix rows' (body +:+ line)
  end.

Definition show_records (rows : list Row) (page : Z) (prefix title : string) : M unit :=
  match rows with
  | [] => edit_text_kb (title +:+ " пуст.") main_menu
  | _ =>
      let total_pages := (Z.of_nat (length rows) + PAGE_SIZE - 1) / PAGE_SIZE in
      let start := page * PAGE_SIZE in
      let end_ := start + PAGE_SIZE in
      body ← format_rows prefix (py_slice rows start end_) (title +:+ ":
");
      reply_markup ← pagination_markup page total_pages prefix;
      edit_text_kb body reply_markup
  end.

(** ** Callback handlers *)

(** [await conn.execute("DELETE FROM volunteers WHERE id=$1", volunteer_id)]
    with the result of [data.get("volunteer_id")]: [None] is sent as NULL. *)
Definition delete_by_id (volunteer_id : option Z) : M unit :=
  match volunteer_id with
  | Some i => bind_int4 i
  | None => mret tt
  end ;;
  execute (Sql.delete_volunteer volunteer_id).

(** SUM(col) is NULL over no rows; [total or 0] turns NULL and 0 into 0. *)
Definition sum_or0 (col : Volunteer -> Z) (vs : list Volunteer) : Z :=
  match vs with
  | [] => 0
  | _ => or0 (fold_right Z.add 0 (map col vs))
  end.

Definition edit_field_keyboard : InlineKeyboardMarkup :=
  [ [ mkButton "✏️ ФИО" "edit_field_full_name";
      mkButton "📞 Контакт" "edit_field_contacts" ] ].

Definition confirm_delete_keyboard : InlineKeyboardMarkup :=
  [ [ mkButton "✅ Да, удалить" "confirm_delete_yes";
      mkButton "❌ Отмена" "confirm_delete_no" ] ].

Definition callbacks (query_data : string) : M unit :=
  if String.eqb query_data "menu_volunteers" then
    rows ← get_volunteers;
    show_records (map VolunteerRow rows) 0 "volunteers" "Список волонтёров"
  else if String.eqb query_data "menu_lateness" then
    edit_text "Введите ID волонтёра для фиксации опоздания:" ;;
    set_state Lateness_waiting_for_id
  else if String.eqb query_data "menu_warning" then
    edit_text "Введите ID волонтёра для фиксации замечания:" ;;
    set_state Warning_waiting_for_id
  else if String.eqb query_data "menu_blacklist" then
    rows ← get_blacklist;
    show_records (map BlacklistRow rows) 0 "blacklist" "Черный список"
  else if String.eqb query_data "menu_blacklist_direct" then
    edit_text "Введите ID волонтёра для добавления в ЧС:" ;;
    set_state BlacklistDirect_waiting_for_id
  else if String.eqb query_data "menu_add_volunteer" then
    edit_text "Введите ФИО нового волонтёра:" ;;
    set_state AddVolunteer_waiting_for_full_name
  else if String.eqb query_data "menu_edit_volunteer" then
    edit_text "Введите ID волонтёра для редактирования:" ;;
    set_state EditVolunteer_waiting_for_id
  else if String.eqb query_data "menu_manage" then
    edit_text_kb "⚙ Выберите действие:" manage_menu
  else if String.eqb query_data "menu_statistics" then
    vs ← fetch volunteers;
    let total := Z.of_nat (length vs) in
    let total_lates := sum_or0 v_lateness_count vs in
    let total_warnings := sum_or0 v_warnings_count vs in
    let blacklist_count :=
      Z.of_nat (length (List.filter (fun v => String.eqb (v_status v) "Blacklisted") vs)) in
    edit_text_kb ("📊 Статистика:
" +:+ "Всего волонтёров: " +:+ PyStr.str total +:+ "
" +:+ "Всего опозданий: " +:+ PyStr.str total_lates +:+ "
" +:+ "Всего замечаний: " +:+ PyStr.str total_warnings +:+ "
" +:+ "В ЧС: " +:+ PyStr.str blacklist_count) manage_menu
  else if String.eqb query_data "menu_search" then
    edit_text "Введите ФИО или телефон для поиска:" ;;
    set_state SearchVolunteer_waiting_for_query
  else if String.eqb query_data "menu_delete_volunteer" then
    edit_text "Введите ID волонтёра для удаления:" ;;
    set_state DeleteVolunteer_waiting_for_id
  else if String.eqb query_data "menu_back" then
    edit_text_kb "📌 Главное меню:" main_menu
  else if String.eqb query_data "confirm_delete_yes" then
    data ← get_data;
    let volunteer_id := data_volunteer_id data in
    delete_by_id volunteer_id ;;
    edit_text_kb "🗑 Волонтёр удалён." manage_menu ;;
    clear
  else if String.eqb query_data "confirm_delete_no" then
    edit_text_kb "❌ Удаление отменено." manage_menu ;;
    clear
  else if PyStr.startswith query_data "edit_field_" then
    let field := PyStr.remove "edit_field_" query_data in
    update_data (field_is field) ;;
    set_state EditVolunteer_waiting_for_new_value ;;
    answer ("Введите новое значение для " +:+ field +:+ ":") ;;
    send AnswerCallback
  else mret tt.

(** [parts[i]]: IndexError is not reachable below, [split] of a text that
    contains the separator has two parts at least. *)
Definition paginate_records (query_data : string) : M unit :=
  if negb (PyStr.contains "_page_" query_data) then mret tt
  else
    let parts := PyStr.split "_page_" query_data in
    let prefix := nth 0 parts "" in
    page ← py_int (nth 1 parts "");
    if String.eqb prefix "volunteers" then
      rows ← get_volunteers;
      show_records (map VolunteerRow rows) page "volunteers" "Список волонтёров"
    else if String.eqb prefix "blacklist" then
      rows ← get_blacklist;
      show_records (map BlacklistRow rows) page "blacklist" "Черный список"
    else mret tt.

(** ** The dispatcher's callback-query observer

    Both callback handlers are registered by a bare [@dp.callback_query()],
    [callbacks] first.  The observer offers an event to its handlers in the
    order of registration and the first handler whose filters pass handles it;
    the handlers after it are not called. *)
Record Handler := mkHandler {
  filters : string -> bool;
  handler_body : string -> M unit
}.

Definition callback_query_handlers : list Handler :=
  [ mkHandler (fun _ => true) callbacks;
    mkHandler (fun _ => true) paginate_records ].

Fixpoint trigger (handlers : list Handler) (event : string) : M unit :=
  match handlers with
  | [] => mret tt
  | h :: handlers' =>
      if filters h event then handler_body h event else trigger handlers' event
  end.

Definition feed_callback_query (query_data : string) : M unit :=
  trigger callback_query_handlers query_data.

(** ** The message handler *)

(** The statement texts in which $2 is compared with the [id] column: the
    ones [execute_dynamic] reads. *)
Definition id_parameter (q : string) : bool :=
  (String.eqb q (Sql.edit_query "full_name") || String.eqb q (Sql.edit_query "contacts")
   || String.eqb q (Sql.edit_query "status"))%bool.

(** [await conn.execute(q, p1, p2)] for a statement text built at run time. *)
Definition execute_text `{Postgres} (q p1 : string) (p2 : Z) : M unit :=
  (if id_parameter q then bind_int4 p2 else mret tt) ;;
  ((fun w => match execute_dynamic q p1 p2 (db w) with
             | Some d => (inr tt, mkWorld d (fsm w) (sent w))
             | None => (inl PostgresError, w)
             end) : M unit).

(** The rows that match the pattern, in table order. *)
Definition matching `{Postgres} (pattern : string) (d : DB) : list Volunteer :=
  List.filter (fun v => ilike (v_full_name v) pattern || ilike (v_contacts v) pattern)%bool
              (volunteers d).

(** SELECT ... FROM volunteers WHERE full_name ILIKE $1 OR contacts ILIKE $1:
    the rows that match, in the order the engine returns them. *)
Definition search_volunteers `{Postgres} (pattern : string) (d : DB) : list Volunteer :=
  row_order d (matching pattern d).

Definition main_menu_prompt : M unit := answer_kb "📌 Главное меню:" main_menu.

Definition handle_messages `{Postgres} (message_text : string) : M unit :=
  current_state ← get_state;
  match current_state with
  | Some Lateness_waiting_for_id =>
      try_finally
        (try_except_ValueError
           (volunteer_id ← py_int message_text; add_lateness volunteer_id)
           (fun _ => answer "⚠ Введите число (ID)."))
        (clear ;; main_menu_prompt)
  | Some Warning_waiting_for_id =>
      try_finally
        (try_except_ValueError
           (volunteer_id ← py_int message_text; add_warning volunteer_id)
           (fun _ => answer "⚠ Введите число (ID)."))
        (clear ;; main_menu_prompt)
  | Some BlacklistDirect_waiting_for_id =>
      try_except_ValueError
        (volunteer_id ← py_int message_text;
         update_data (volunteer_id_is volunteer_id) ;;
         answer "Введите причину внесения в ЧС:" ;;
         set_state BlacklistDirect_waiting_for_reason)
        (fun _ => answer "⚠ Введите число (ID).")
  | Some BlacklistDirect_waiting_for_reason =>
      data ← get_data;
      volunteer_id ← getitem "volunteer_id" (data_volunteer_id data);
      let reason := message_text in
      add_direct_blacklist volunteer_id reason ;;
      clear ;;
      main_menu_prompt
  | Some AddVolunteer_waiting_for_full_name =>
      update_data (full_name_is message_text) ;;
      answer "Введите номер телефона:" ;;
      set_state AddVolunteer_waiting_for_contact
  | Some AddVolunteer_waiting_for_contact =>
      data ← get_data;
      let contacts := message_text in
      try_finally
        (try_except_ValueError
           (match data_full_name data with
            | Some full_name =>
                add_volunteer full_name contacts ;;
                answer ("✅ Волонтёр " +:+ full_name +:+ " добавлен.")
            | None => raise PostgresError    (* full_name is NOT NULL *)
            end)
           (fun ve => answer ("⚠ " +:+ ve)))
        (clear ;; main_menu_prompt)
  | Some EditVolunteer_waiting_for_id =>
      try_except_ValueError
        (volunteer_id ← py_int message_text;
         update_data (volunteer_id_is volunteer_id) ;;
         answer_kb "Выберите поле для редактирования:" edit_field_keyboard ;;
         set_state EditVolunteer_waiting_for_field)
        (fun _ => answer "⚠ Введите число (ID).")
  | Some EditVolunteer_waiting_for_new_value =>
      data ← get_data;
      volunteer_id ← getitem "volunteer_id" (data_volunteer_id data);
      field ← getitem "field" (data_field data);
      let new_value := message_text in
      execute_text (Sql.edit_query field) new_value volunteer_id ;;
      answer ("✅ " +:+ field +:+ " обновлено: " +:+ new_value) ;;
      clear ;;
      main_menu_prompt
  | Some SearchVolunteer_waiting_for_query =>
      let query_text := PyStr.strip message_text in
      rows ← fetch (search_volunteers ("%" +:+ query_text +:+ "%"));
      body ← match rows with
             | [] => mret "❌ Ничего не найдено."
             | _ => format_rows "volunteers" (map VolunteerRow rows) "🔍 Результаты поиска:
"
             end;
      answer_kb body manage_menu ;;
      clear
  | Some DeleteVolunteer_waiting_for_id =>
      try_except_ValueError
        (volunteer_id ← py_int message_text;
         row ← fetch_by_id volunteer_id (Sql.select_volunteer volunteer_id);
         match row with
         | None =>
             answer_kb "❌ Волонтёр не найден." manage_menu ;;
             clear
         | Some row =>
             update_data (volunteer_id_is volunteer_id) ;;
             answer_kb ("Вы уверены, что хотите удалить " +:+ v_full_name row +:+ "?")
                       confirm_delete_keyboard ;;
             set_state DeleteVolunteer_confirm_delete
         end)
        (fun _ => answer "⚠ Введите число (ID).")
  | Some EditVolunteer_waiting_for_field
  | Some DeleteVolunteer_confirm_delete
  | None => mret tt
  end.

(** ** Events *)

(** The two kinds of event a principal sends.  [start], registered before
    [handle_messages] with the filter Command("start"), takes the /start
    command; [Text] is a text message that this filter lets through. *)
Inductive Event :=
| Callback (query_data : string)
| Text (message_text : string).

Definition handle `{Postgres} (e : Event) : M unit :=
  match e with
  | Callback query_data => feed_callback_query query_data
  | Text message_text => handle_messages message_text
  end.

(** The events of one principal, one after the other; an exception ends the
    handling of its event only. *)
Definition feed `{Postgres} (events : list Event) (w : World) : World :=
  fold_left (fun w e => exec (handle e) w) events w.

Definition new_world : World := mkWorld init_db (mkFSM None no_data) [].

(** An engine for running examples: it rejects every statement text that
    [execute_dynamic] does not read, and ILIKE '%q%' is read as "contains q"
    (exact on patterns without wild cards and texts without letters). *)
Definition sample_engine : Postgres :=
  {| ilike := fun t p =>
       PyStr.contains (String.substring 1 (String.length p - 2) p) t;
     row_order := fun _ rows => rows;
     row_order_permutation := fun _ rows => Permutation_refl rows;
     execute_other := fun _ _ _ _ => None |}.

(** The promotion check as one function on the database: what
    [check_and_blacklist] does to it (lemma [check_and_blacklist_db]). *)
Definition promote_if_due (i : Z) (d : DB) : DB :=
  match Sql.select_volunteer i d with
  | None => d
  | Some row =>
      let total := v_lateness_count row + v_warnings_count row in
      if ((3 <=? total) && negb (String.eqb (v_status row) "Blacklisted"))%bool
      then Sql.insert_blacklist (v_full_name row) (violations_reason total)
             (Sql.update_where_id (with_status "Blacklisted") i d)
      else d
  end.

(** ** The core operations, with the record of manual blacklisting

    The operations of the ledger and of the edit and delete flows, as the
    handlers run them, on a world paired with the set of the volunteer ids on
    which a manual blacklisting was carried out. *)

Inductive Op :=
| OpAdd (full_name contacts : string)
| OpRecordLateness (volunteer_id : Z)
| OpRecordWarning (volunteer_id : Z)
| OpManualBlacklist (volunteer_id : Z) (reason : string)
| OpEdit (volunteer_id : Z) (field new_value : string)
| OpDelete (volunteer_id : Z).

Definition run_op `{Postgres} (o : Op) (s : World * gset Z) : World * gset Z :=
  let (w, manual) := s in
  match o with
  | OpAdd n c => (exec (add_volunteer n c) w, manual)
  | OpRecordLateness i => (exec (add_lateness i) w, manual)
  | OpRecordWarning i => (exec (add_warning i) w, manual)
  | OpManualBlacklist i r =>
      (exec (add_direct_blacklist i r) w,
       match Sql.select_volunteer i (db w) with
       | Some _ => {[ i ]} ∪ manual
       | None => manual
       end)
  | OpEdit i f v => (exec (execute_text (Sql.edit_query f) v i) w, manual)
  | OpDelete i => (exec (delete_by_id (Some i)) w, manual)
  end.

Definition run_ops `{Postgres} (ops : list Op) (s : World * gset Z) : World * gset Z :=
  fold_left (fun s o => run_op o s) ops s.

Definition total_violations_of (v : Volunteer) : Z :=
  v_lateness_count v + v_warnings_count v.

(** status = Blacklisted iff three violations or a manual blacklisting. *)
Definition blacklist_invariant (s : World * gset Z) : Prop :=
  forall v, In v (volunteers (db (fst s))) ->
    v_status v = "Blacklisted" <-> (3 <= total_violations_of v \/ v_id v ∈ snd s).

(** The fields the edit keyboard offers. *)
Definition offered_field (f : string) : Prop := f = "full_name" \/ f = "contacts".

Definition offered_op (o : Op) : Prop :=
  match o with
  | OpEdit _ f _ => offered_field f
  | _ => True
  end.

(** A violation recording, and a run of recordings against one volunteer. *)
Inductive Recording := Lateness | Warning.

Definition record (volunteer_id : Z) (r : Recording) : M unit :=
  match r with
  | Lateness => add_lateness volunteer_id
  | Warning => add_warning volunteer_id
  end.

Definition record_all (volunteer_id : Z) (rs : list Recording) (w : World) : World :=
  fold_left (fun w r => exec (record volunteer_id r) w) rs w.

(** The number of blacklist rows with a given full_name. *)
Definition entries_for (n : string) (d : DB) : nat :=
  length (List.filter (fun b => String.eqb (b_full_name b) n) (blacklist d)).

(** UNIQUE(full_name) *)
Definition unique_full_name (d : DB) : Prop := NoDup (map b_full_name (blacklist d)).

(** ** Concurrent calls of [add_lateness]

    A call runs on the event loop as a coroutine; another coroutine can run
    at each [await], so between two statements of one call.  A statement is
    one step.  [Task] is what is left of a call: the statement it is about to
    send and the local variables it holds. *)

Module Concurrent.

Inductive Task :=
| Increment (volunteer_id : Z)
| Select (volunteer_id : Z)
| SetStatus (volunteer_id : Z) (row : Volunteer) (total_violations : Z)
| InsertBlacklist (row : Volunteer) (total_violations : Z)
| Done.

Definition start_add_lateness (volunteer_id : Z) : Task := Increment volunteer_id.

(** One statement of the call, with the answer that follows the last one. *)
Definition step (t : Task) : M Task :=
  match t with
  | Increment i =>
      execute_by_id i (Sql.update_where_id incr_lateness i) ;; mret (Select i)
  | Select i =>
      row ← fetch_by_id i (Sql.select_volunteer i);
      match row with
      | None => answer "❌ Волонтёр не найден" ;; mret Done
      | Some row =>
          let total_violations := or0 (v_lateness_count row) + or0 (v_warnings_count row) in
          if ((3 <=? total_violations) && negb (String.eqb (v_status row) "Blacklisted"))%bool
          then mret (SetStatus i row total_violations)
          else
            answer ("⚠ Нарушение зафиксировано: " +:+ v_full_name row +:+ " "
                    +:+ "(Опозданий: " +:+ PyStr.str (v_lateness_count row)
                    +:+ ", Замечаний: " +:+ PyStr.str (v_warnings_count row)
                    +:+ ", Всего: " +:+ PyStr.str total_violations +:+ ")") ;;
            mret Done
      end
  | SetStatus i row total_violations =>
      execute_by_id i (Sql.update_where_id (with_status "Blacklisted") i) ;;
      mret (InsertBlacklist row total_violations)
  | InsertBlacklist row total_violations =>
      execute (Sql.insert_blacklist (v_full_name row) (violations_reason total_violations)) ;;
      answer ("🚨 Волонтёр " +:+ v_full_name row +:+ " внесён в ЧС! ("
              +:+ PyStr.str total_violations +:+ " нарушений)") ;;
      mret Done
  | Done => mret Done
  end.

(** The tasks in flight and the world they share. *)
Definition Pool : Type := list Task * World.

(** The event loop resumes task [k] for one step; an exception ends the call. *)
Definition resume (k : nat) (p : Pool) : Pool :=
  let (tasks, w) := p in
  match tasks !! k with
  | None => p
  | Some t =>
      match step t w with
      | (inr t', w') => (<[k := t']> tasks, w')
      | (inl _, w') => (<[k := Done]> tasks, w')
      end
  end.

(** A schedule names the task resumed at each step. *)
Definition run (schedule : list nat) (p : Pool) : Pool :=
  fold_left (fun p k => resume k p) schedule p.

Definition is_done (t : Task) : bool :=
  match t with Done => true | _ => false end.

Definition all_done (p : Pool) : bool := forallb is_done (fst p).

(** [n] concurrent calls on one volunteer id. *)
Definition calls (n : nat) (volunteer_id : Z) (w : World) : Pool :=
  (repeat (start_add_lateness volunteer_id) n, w).

(** Each call in turn, from its first statement to its last. *)
Fixpoint serial (n : nat) : list nat :=
  match n with
  | O => []
  | S k => (serial k ++ [k; k; k; k])%list
  end.

Definition lateness_of (volunteer_id : Z) (w : World) : option Z :=
  v_lateness_count <$> Sql.select_volunteer volunteer_id (db w).

(** A call has sent its UPDATE ... lateness_count + 1. *)
Definition incremented (t : Task) : bool :=
  match t with Increment _ => false | _ => true end.

Fixpoint incremented_count (tasks : list Task) : Z :=
  match tasks with
  | [] => 0
  | t :: tasks' => (if incremented t then 1 else 0) + incremented_count tasks'
  end.

(** The most steps a call still takes. *)
Definition steps_left (t : Task) : nat :=
  match t with
  | Increment _ => 4
  | Select _ => 3
  | SetStatus _ _ _ => 2
  | InsertBlacklist _ _ => 1
  | Done => 0
  end.

(** A call against the volunteer [i], at any of its steps. *)
Definition call_on (i : Z) (t : Task) : Prop :=
  match t with Increment j => j = i | _ => True end.

(** The pools that [n] calls against [i] go through: the counter of the
    volunteer is ahead of its first value by the number of calls that have
    sent their UPDATE. *)
Definition counted (i l0 : Z) (p : Pool) : Prop :=
  Forall (call_on i) (fst p)
  /\ lateness_of i (snd p) = Some (l0 + incremented_count (fst p)).

End Concurrent.

(** ** Sample data *)

(** One volunteer, Ann, with id 1. *)
Definition ann_world (lateness : Z) (status : string) : World :=
  mkWorld (mkDB [mkVolunteer 1 "Ann" "+1" status lateness 0] [] 2 1)
          (mkFSM None no_data) [].

(** The row after a recording. *)
Definition bump (r : Recording) (v : Volunteer) : Volunteer :=
  match r with
  | Lateness => incr_lateness v
  | Warning => incr_warnings v
  end.

(** Ann's world with the FSM context in a given state. *)
Definition ann_world_in (lateness : Z) (status : string) (st : option State) (d : Data) : World :=
  mkWorld (db (ann_world lateness status)) (mkFSM st d) [].

(** Twelve volunteers, ids 1 to 12. *)
Definition twelve_volunteers : list Volunteer :=
  map (fun i => mkVolunteer i ("V" +:+ PyStr.str i) "+1" "Active" 0 0)
      [1; 2; 3; 4; 5; 6; 7; 8; 9; 10; 11; 12].

Definition twelve_world : World :=
  mkWorld (mkDB twelve_volunteers [] 13 1) (mkFSM None no_data) [].

(** Bob, blacklisted by hand after his row was deleted: one blacklist entry. *)
Definition bob_listed_world : World :=
  mkWorld (mkDB [] [mkBlacklistEntry 1 "Bob" "no show"] 2 2) (mkFSM None no_data) [].

(** ** Reading a rendered page *)

(** The table a row comes from, named as [show_records] names it. *)
Definition kind_of (r : Row) : string :=
  match r with
  | VolunteerRow _ => "volunteers"
  | BlacklistRow _ => "blacklist"
  end.

Definition line_of (r : Row) : string :=
  match r with
  | VolunteerRow v => volunteer_line v
  | BlacklistRow b => blacklist_line b
  end.

Definition lines_of (rows : list Row) : string :=
  fold_right (fun r acc => line_of r +:+ acc) "" rows.

(** A keyboard has a button with the given label. *)
Definition has_control (label : string) (kb : InlineKeyboardMarkup) : bool :=
  existsb (existsb (fun b => String.eqb (text b) label)) kb.

Definition previous_label : string := "⬅️ Назад".
Definition next_label : string := "➡️ Вперёд".

(** The buttons of a keyboard that carry a pagination token. *)
Definition page_buttons (kb : InlineKeyboardMarkup) : list InlineKeyboardButton :=
  List.filter (fun b => PyStr.contains "_page_" (callback_data b)) (concat kb).

(** total_pages as [show_records] computes it. *)
Definition total_pages_of (rows : list Row) : Z :=
  (Z.of_nat (length rows) + PAGE_SIZE - 1) / PAGE_SIZE.

(** ** Well-formed ledger states *)

(** The invariant on one row, given the manually blacklisted ids. *)
Definition row_ok (manual : gset Z) (v : Volunteer) : Prop :=
  v_status v = "Blacklisted" <-> (3 <= total_violations_of v \/ v_id v ∈ manual).

(** What the SERIAL primary key gives: the ids in use are distinct and below
    the next value of the sequence; a manual blacklisting was carried out on
    ids that were in use. *)
Definition well_formed (s : World * gset Z) : Prop :=
  let d := db (fst s) in
  Forall (fun v => v_id v < volunteers_id_seq d) (volunteers d)
  /\ (forall i, i ∈ snd s -> i < volunteers_id_seq d)
  /\ NoDup (map v_id (volunteers d))
  /\ Forall (row_ok (snd s)) (volunteers d).

(** ** The row after a recording and its check *)

(** The row of the volunteer after one recording: the counter is
    incremented, and the status is set when the check finds three violations
    on a row that is not blacklisted. *)
Definition recorded (r : Recording) (v : Volunteer) : Volunteer :=
  let v' := bump r v in
  if ((3 <=? total_violations_of v') && negb (String.eqb (v_status v') "Blacklisted"))%bool
  then with_status "Blacklisted" v'
  else v'.

(** The number of recordings of each kind in a run. *)
Definition latenesses (rs : list Recording) : Z :=
  Z.of_nat (length (List.filter (fun r => match r with Lateness => true | Warning => false end) rs)).

Definition warnings (rs : list Recording) : Z :=
  Z.of_nat (length (List.filter (fun r => match r with Warning => true | Lateness => false end) rs)).

(** ** Reading decimal text *)




(** ** Sessions whose state has what it needs *)

(** The keys a step reads are in the data when the context is in that step:
    [volunteer_id] in the reason step, in the field step and in the
    confirmation step, [full_name] in the contact step. *)
Definition consistent (f : FSMContext) : Prop :=
  match fsm_state f with
  | Some BlacklistDirect_waiting_for_reason
  | Some EditVolunteer_waiting_for_field
  | Some DeleteVolunteer_confirm_delete => data_volunteer_id (fsm_data f) <> None
  | Some AddVolunteer_waiting_for_contact => data_full_name (fsm_data f) <> None
  | _ => True
  end.

(** ** Calls in flight *)

(** A call against the volunteer [i], at any of its steps. *)
Definition targets (i : Z) (t : Concurrent.Task) : Prop :=
  match t with
  | Concurrent.Increment j | Concurrent.Select j | Concurrent.SetStatus j _ _ => j = i
  | _ => True
  end.

(** A call that has its check, or the status update the check decided on,
    still to run. *)
Definition check_pending (t : Concurrent.Task) : bool :=
  match t with
  | Concurrent.Increment _ | Concurrent.Select _ | Concurrent.SetStatus _ _ _ => true
  | _ => false
  end.

(** A volunteer with three violations or more is blacklisted, or a call in
    flight is still to see to it. *)
Definition promotion_on_its_way (i : Z) (p : Concurrent.Pool) : Prop :=
  Forall (targets i) (fst p)
  /\ exists v, Sql.select_volunteer i (db (snd p)) = Some v
               /\ (v_status v = "Blacklisted" \/ total_violations_of v < 3
                   \/ existsb check_pending (fst p) = true).

(** * Properties *)

(** ** Statements and the monad *)

Ltac run_m :=
  unfold exec, add_lateness, add_warning, add_direct_blacklist, check_and_blacklist,
         add_volunteer, main_menu_prompt, py_int, getitem,
         fetch_by_id, execute_by_id, delete_by_id, bind_int4,
         answer, answer_kb, edit_text, edit_text_kb, send, execute, fetch,
         get_state, set_state, get_data, update_data, clear, raise,
         try_finally, try_except_ValueError,
         mbind, M_bind, mret, M_ret in *;
  cbn [fst snd db fsm sent fsm_state fsm_data] in *.

(** The next step of a handler whose first statement has returned. *)
Ltac step_m := cbv beta iota; cbn [fst snd db fsm sent fsm_state fsm_data].

Lemma or0_id (x : Z) : or0 x = x.
Proof. unfold or0. destruct (Z.eqb_spec x 0); congruence. Qed.

(** *** Binding an id *)

Lemma is_id_select (i : Z) (d : DB) :
  is_id i d = match Sql.select_volunteer i d with Some _ => true | None => false end.
Proof.
  unfold is_id, Sql.select_volunteer.
  induction (volunteers d) as [|v vs IH]; [reflexivity|].
  cbn [existsb find]. destruct (v_id v =? i); [reflexivity | exact IH].
Qed.

Lemma encodes_present (i : Z) (d : DB) (v : Volunteer) :
  Sql.select_volunteer i d = Some v -> encodes_int4 i d = true.
Proof. intros Hv. unfold encodes_int4. rewrite is_id_select, Hv. apply orb_true_r. Qed.

Lemma encodes_in_range (i : Z) (d : DB) : in_int4 i = true -> encodes_int4 i d = true.
Proof. intros Hr. unfold encodes_int4. rewrite Hr. reflexivity. Qed.

Lemma not_encoded (i : Z) (d : DB) :
  encodes_int4 i d = false -> in_int4 i = false /\ Sql.select_volunteer i d = None.
Proof.
  unfold encodes_int4. rewrite is_id_select. intros Hb.
  apply orb_false_iff in Hb as [Hr Hi]. split; [exact Hr|].
  destruct (Sql.select_volunteer i d); [discriminate | reflexivity].
Qed.

Lemma absent_encodes (i : Z) (d : DB) :
  Sql.select_volunteer i d = None -> encodes_int4 i d = in_int4 i.
Proof. intros Hn. unfold encodes_int4. rewrite is_id_select, Hn. apply orb_false_r. Qed.

Lemma encodes_same_ids (i : Z) (d d' : DB) :
  map v_id (volunteers d') = map v_id (volunteers d) -> encodes_int4 i d' = encodes_int4 i d.
Proof.
  intros Hids. unfold encodes_int4, is_id. f_equal.
  assert (Hm : forall l, existsb (fun v => v_id v =? i) l = existsb (fun x => x =? i) (map v_id l)).
  { induction l as [|a l IH]; [reflexivity|]. cbn [map existsb]. rewrite IH. reflexivity. }
  rewrite !Hm, Hids. reflexivity.
Qed.

Lemma select_update (f : Volunteer -> Volunteer) (i : Z) (d : DB) :
  (forall v, v_id (f v) = v_id v) ->
  Sql.select_volunteer i (Sql.update_where_id f i d) = f <$> Sql.select_volunteer i d.
Proof.
  intros Hid. unfold Sql.select_volunteer, Sql.update_where_id. cbn [volunteers set_volunteers].
  induction (volunteers d) as [|v vs IH]; [reflexivity|].
  cbn [map find]. destruct (Z.eqb_spec (v_id v) i) as [E|E].
  - rewrite Hid. destruct (Z.eqb_spec (v_id v) i); [reflexivity | contradiction].
  - destruct (Z.eqb_spec (v_id v) i); [contradiction | exact IH].
Qed.

Lemma select_update_other (f : Volunteer -> Volunteer) (i j : Z) (d : DB) :
  (forall v, v_id (f v) = v_id v) -> i <> j ->
  Sql.select_volunteer j (Sql.update_where_id f i d) = Sql.select_volunteer j d.
Proof.
  intros Hid Hne. unfold Sql.select_volunteer, Sql.update_where_id. cbn [volunteers set_volunteers].
  induction (volunteers d) as [|v vs IH]; [reflexivity|].
  cbn [map find]. destruct (Z.eqb_spec (v_id v) i) as [E|E].
  - rewrite Hid. destruct (Z.eqb_spec (v_id v) j); [lia | exact IH].
  - destruct (Z.eqb_spec (v_id v) j); [reflexivity | exact IH].
Qed.

Lemma update_absent (f : Volunteer -> Volunteer) (i : Z) (d : DB) :
  Sql.select_volunteer i d = None -> Sql.update_where_id f i d = d.
Proof.
  intros Hn. unfold Sql.update_where_id, set_volunteers.
  assert (Hm : map (fun v => if v_id v =? i then f v else v) (volunteers d) = volunteers d).
  { unfold Sql.select_volunteer in Hn.
    induction (volunteers d) as [|a l IH]; [reflexivity|].
    cbn [find] in Hn. cbn [map]. destruct (v_id a =? i); [discriminate|].
    rewrite IH by exact Hn. reflexivity. }
  rewrite Hm. destruct d; reflexivity.
Qed.

Lemma update_ids (f : Volunteer -> Volunteer) (i : Z) (d : DB) :
  (forall v, v_id (f v) = v_id v) ->
  map v_id (volunteers (Sql.update_where_id f i d)) = map v_id (volunteers d).
Proof.
  intros Hf. unfold Sql.update_where_id. cbn [volunteers set_volunteers].
  rewrite map_map. apply map_ext. intros v. destruct (v_id v =? i); auto.
Qed.

Lemma encodes_update (f : Volunteer -> Volunteer) (i j : Z) (d : DB) :
  (forall v, v_id (f v) = v_id v) ->
  encodes_int4 j (Sql.update_where_id f i d) = encodes_int4 j d.
Proof. intros Hf. apply encodes_same_ids, update_ids, Hf. Qed.

Lemma select_insert_blacklist (i : Z) (n r : string) (d : DB) :
  Sql.select_volunteer i (Sql.insert_blacklist n r d) = Sql.select_volunteer i d.
Proof. reflexivity. Qed.

Lemma blacklist_update (f : Volunteer -> Volunteer) (i : Z) (d : DB) :
  blacklist (Sql.update_where_id f i d) = blacklist d.
Proof. reflexivity. Qed.

Lemma blacklisted_name_update (f : Volunteer -> Volunteer) (i : Z) (n : string) (d : DB) :
  Sql.blacklisted_name n (Sql.update_where_id f i d) = Sql.blacklisted_name n d.
Proof. reflexivity. Qed.

(** What [add_direct_blacklist] does to the database, in one equation. *)
Lemma add_direct_blacklist_db (i : Z) (reason : string) (w : World) :
  db (exec (add_direct_blacklist i reason) w) =
  match Sql.select_volunteer i (db w) with
  | None => db w
  | Some v => Sql.insert_blacklist (v_full_name v) reason
                (Sql.update_where_id (with_status "Blacklisted") i (db w))
  end.
Proof.
  run_m. destruct (encodes_int4 i (db w)) eqn:Hb.
  - destruct (Sql.select_volunteer i (db w)); [|reflexivity].
    step_m. rewrite Hb. reflexivity.
  - apply not_encoded in Hb as [_ ->]. reflexivity.
Qed.

Lemma check_and_blacklist_db (i : Z) (w : World) :
  db (exec (check_and_blacklist i) w) = promote_if_due i (db w).
Proof.
  unfold promote_if_due. run_m. destruct (encodes_int4 i (db w)) eqn:Hb.
  - destruct (Sql.select_volunteer i (db w)) as [row|]; [|reflexivity].
    rewrite !or0_id.
    destruct ((3 <=? _) && _)%bool; [|reflexivity].
    step_m. rewrite Hb. reflexivity.
  - apply not_encoded in Hb as [_ ->]. reflexivity.
Qed.

(** A statement with the id bound, then the rest of the call. *)
Lemma execute_by_id_then {A} (i : Z) (stmt : DB -> DB) (k : M A) (w : World) :
  (execute_by_id i stmt ;; k) w
  = if encodes_int4 i (db w) then k (mkWorld (stmt (db w)) (fsm w) (sent w))
    else (inl DataError, w).
Proof. run_m. destruct (encodes_int4 i (db w)); reflexivity. Qed.

Lemma promote_if_due_absent (i : Z) (d : DB) :
  Sql.select_volunteer i d = None -> promote_if_due i d = d.
Proof. intros Hn. unfold promote_if_due. rewrite Hn. reflexivity. Qed.

Lemma increment_then_check_db (f : Volunteer -> Volunteer) (i : Z) (w : World) :
  db (exec (execute_by_id i (Sql.update_where_id f i) ;; check_and_blacklist i) w)
  = promote_if_due i (Sql.update_where_id f i (db w)).
Proof.
  unfold exec. rewrite execute_by_id_then.
  destruct (encodes_int4 i (db w)) eqn:Hb.
  - apply check_and_blacklist_db.
  - apply not_encoded in Hb as [_ Hn]. cbn [snd].
    rewrite update_absent by exact Hn. rewrite promote_if_due_absent by exact Hn. reflexivity.
Qed.

Lemma add_lateness_db (i : Z) (w : World) :
  db (exec (add_lateness i) w) = promote_if_due i (Sql.update_where_id incr_lateness i (db w)).
Proof. apply increment_then_check_db. Qed.

Lemma add_warning_db (i : Z) (w : World) :
  db (exec (add_warning i) w) = promote_if_due i (Sql.update_where_id incr_warnings i (db w)).
Proof. apply increment_then_check_db. Qed.

(** The ledger never touches the FSM context. *)
Lemma check_and_blacklist_fsm (i : Z) (w : World) :
  fsm (exec (check_and_blacklist i) w) = fsm w.
Proof.
  run_m. destruct (encodes_int4 i (db w)) eqn:Hb; [|reflexivity].
  destruct (Sql.select_volunteer i (db w)) as [row|]; [|reflexivity].
  destruct ((3 <=? _) && _)%bool; [|reflexivity].
  step_m. rewrite Hb. reflexivity.
Qed.

(** ** Manual blacklisting *)

(** C6, as the code has it. [add_direct_blacklist] on an existing volunteer
    leaves its row with the status "Blacklisted" and every other column as it
    was; with no blacklist row for the volunteer's full_name it adds one row,
    whose reason is the reason given; with such a row present the blacklist
    table is left as it is (no second row, no reason overwritten). On an id
    within the range of int4 that no volunteer has, it answers "not found"
    and changes neither the database nor the FSM context. On an id outside
    that range, which no volunteer has, it raises DataError before any
    statement is sent: nothing is answered and nothing changes. *)
Theorem manual_blacklist_spec (w : World) (volunteer_id : Z) (reason : string) :
  let w' := exec (add_direct_blacklist volunteer_id reason) w in
  (forall v, Sql.select_volunteer volunteer_id (db w) = Some v ->
     Sql.select_volunteer volunteer_id (db w')
     = Some (mkVolunteer (v_id v) (v_full_name v) (v_contacts v) "Blacklisted"
                         (v_lateness_count v) (v_warnings_count v))
     /\ (Sql.blacklisted_name (v_full_name v) (db w) = false ->
         blacklist (db w') =
         (blacklist (db w)
          ++ [mkBlacklistEntry (blacklist_id_seq (db w)) (v_full_name v) reason])%list)
     /\ (Sql.blacklisted_name (v_full_name v) (db w) = true ->
         blacklist (db w') = blacklist (db w)))
  /\ (Sql.select_volunteer volunteer_id (db w) = None ->
      (in_int4 volunteer_id = true ->
       add_direct_blacklist volunteer_id reason w
       = (inr tt, mkWorld (db w) (fsm w)
                    (sent w ++ [Answer "❌ Волонтёр не найден" None])%list))
      /\ (in_int4 volunteer_id = false ->
          add_direct_blacklist volunteer_id reason w = (inl DataError, w))).
Proof.
  intros w'. split.
  - intros v Hv. subst w'. rewrite add_direct_blacklist_db, Hv.
    rewrite select_insert_blacklist, select_update by reflexivity.
    rewrite Hv. split; [reflexivity|].
    unfold Sql.insert_blacklist. cbn [blacklist].
    rewrite blacklisted_name_update, blacklist_update.
    split; intros ->; reflexivity.
  - intros Hv. pose proof (absent_encodes _ _ Hv) as Hb.
    split; intros Hr; rewrite Hr in Hb; run_m; rewrite Hb; [rewrite Hv|]; reflexivity.
Qed.

Lemma manual_blacklist_spec_witness :
  Sql.select_volunteer 1 (db (ann_world 0 "Active"))
    = Some (mkVolunteer 1 "Ann" "+1" "Active" 0 0)
  /\ Sql.blacklisted_name "Ann" (db (ann_world 0 "Active")) = false
  /\ Sql.select_volunteer 7 (db (ann_world 0 "Active")) = None
  /\ in_int4 7 = true
  /\ Sql.select_volunteer 1 (db (exec (add_direct_blacklist 1 "policy violation")
                                      (ann_world 0 "Active")))
     = Some (mkVolunteer 1 "Ann" "+1" "Blacklisted" 0 0)
  /\ blacklist (db (exec (add_direct_blacklist 1 "policy violation") (ann_world 0 "Active")))
     = [mkBlacklistEntry 1 "Ann" "policy violation"]
  /\ add_direct_blacklist 7 "policy violation" (ann_world 0 "Active")
     = (inr tt, mkWorld (db (ann_world 0 "Active")) (mkFSM None no_data)
                  [Answer "❌ Волонтёр не найден" None]).
Proof.
  split; [reflexivity|]. split; [reflexivity|]. split; [reflexivity|]. split; [reflexivity|].
  pose proof (proj1 (manual_blacklist_spec (ann_world 0 "Active") 1 "policy violation")
                    _ eq_refl) as (Hrow & Hnew & _).
  split; [exact Hrow|]. split; [exact (Hnew eq_refl)|].
  exact (proj1 (proj2 (manual_blacklist_spec (ann_world 0 "Active") 7 "policy violation")
                      eq_refl) eq_refl).
Defined.

(** C6, the id that does not exist. The id 99999999999 is outside the range
    of int4 and no volunteer has it. [add_direct_blacklist] does not answer
    "not found": the lookup raises DataError while its argument is encoded,
    and the world is as before. The manual-blacklist flow passes such an id
    on: the id step stores any integer. The range ends at 2147483647 and at
    -2147483648: the ids next to them raise as well. *)
Lemma manual_blacklist_out_of_range :
  Sql.select_volunteer 99999999999 (db (ann_world 0 "Active")) = None
  /\ add_direct_blacklist 99999999999 "policy violation" (ann_world 0 "Active")
     = (inl DataError, ann_world 0 "Active")
  /\ sent (exec (add_direct_blacklist 99999999999 "policy violation") (ann_world 0 "Active"))
     = []
  /\ sent (exec (add_direct_blacklist 7 "policy violation") (ann_world 0 "Active"))
     = [Answer "❌ Волонтёр не найден" None]
  /\ add_direct_blacklist 2147483648 "policy violation" (ann_world 0 "Active")
     = (inl DataError, ann_world 0 "Active")
  /\ add_direct_blacklist (-2147483649) "policy violation" (ann_world 0 "Active")
     = (inl DataError, ann_world 0 "Active")
  /\ sent (exec (add_direct_blacklist 2147483647 "policy violation") (ann_world 0 "Active"))
     = [Answer "❌ Волонтёр не найден" None]
  /\ sent (exec (add_direct_blacklist (-2147483648) "policy violation") (ann_world 0 "Active"))
     = [Answer "❌ Волонтёр не найден" None].
Proof. repeat split. Qed.

(** ** Recording a violation *)

Lemma statuses_update (f : Volunteer -> Volunteer) (i : Z) (d : DB) :
  (forall v, v_status (f v) = v_status v) ->
  map v_status (volunteers (Sql.update_where_id f i d)) = map v_status (volunteers d).
Proof.
  intros Hf. unfold Sql.update_where_id. cbn [volunteers set_volunteers].
  rewrite map_map. apply map_ext. intros v. destruct (v_id v =? i); auto.
Qed.

Lemma record_db (i : Z) (r : Recording) (w : World) :
  db (exec (record i r) w) = promote_if_due i (Sql.update_where_id (bump r) i (db w)).
Proof. destruct r; [apply add_lateness_db | apply add_warning_db]. Qed.

Lemma bump_id (r : Recording) (v : Volunteer) : v_id (bump r v) = v_id v.
Proof. destruct r; reflexivity. Qed.

Lemma bump_status (r : Recording) (v : Volunteer) : v_status (bump r v) = v_status v.
Proof. destruct r; reflexivity. Qed.

Lemma bump_full_name (r : Recording) (v : Volunteer) : v_full_name (bump r v) = v_full_name v.
Proof. destruct r; reflexivity. Qed.

Lemma bump_total (r : Recording) (v : Volunteer) :
  total_violations_of (bump r v) = total_violations_of v + 1.
Proof. destruct r; unfold total_violations_of; cbn; lia. Qed.

(** C2, as the code has it. After [add_lateness] or [add_warning] has
    incremented the counter of an existing volunteer, the promotion check
    reads the incremented row. With a total of 3 or more and a status other
    than Blacklisted, the status becomes Blacklisted and a blacklist row for
    the full_name is inserted unless one exists, its reason being the total
    followed by " нарушений (опоздания + замечания)". Otherwise every status
    and the blacklist table stay as they were. *)
Theorem recording_promotion_check (w : World) (volunteer_id : Z) (r : Recording) (v : Volunteer) :
  Sql.select_volunteer volunteer_id (db w) = Some v ->
  let total := total_violations_of (bump r v) in
  let w' := exec (record volunteer_id r) w in
  (3 <= total /\ v_status v <> "Blacklisted" ->
     Sql.select_volunteer volunteer_id (db w') = Some (with_status "Blacklisted" (bump r v))
     /\ blacklist (db w') =
        if Sql.blacklisted_name (v_full_name v) (db w) then blacklist (db w)
        else (blacklist (db w)
              ++ [mkBlacklistEntry (blacklist_id_seq (db w)) (v_full_name v)
                    (PyStr.str total +:+ " нарушений (опоздания + замечания)")])%list)
  /\ (~ (3 <= total /\ v_status v <> "Blacklisted") ->
      Sql.select_volunteer volunteer_id (db w') = Some (bump r v)
      /\ map v_status (volunteers (db w')) = map v_status (volunteers (db w))
      /\ blacklist (db w') = blacklist (db w)).
Proof.
  intros Hv total w'. subst w'. rewrite record_db.
  pose proof (select_update (bump r) volunteer_id (db w) (bump_id r)) as Hsel.
  rewrite Hv in Hsel. cbn [fmap option_fmap option_map] in Hsel.
  unfold promote_if_due. rewrite Hsel.
  fold (total_violations_of (bump r v)). fold total.
  rewrite bump_status, bump_full_name.
  destruct (Z.leb_spec 3 total) as [Hge|Hlt];
    destruct (String.eqb_spec (v_status v) "Blacklisted") as [Hs|Hs]; cbn [andb negb].
  - split; [intros [_ H]; contradiction|]. intros _.
    rewrite Hsel. split; [reflexivity|]. split; [|reflexivity].
    apply statuses_update. intros; apply bump_status.
  - split; [|intros H; exfalso; apply H; auto]. intros _.
    rewrite select_insert_blacklist, select_update by reflexivity.
    rewrite Hsel. split; [reflexivity|].
    unfold Sql.insert_blacklist. cbn [blacklist].
    rewrite !blacklisted_name_update, !blacklist_update. reflexivity.
  - split; [intros [H _]; lia|]. intros _.
    rewrite Hsel. split; [reflexivity|]. split; [|reflexivity].
    apply statuses_update. intros; apply bump_status.
  - split; [intros [H _]; lia|]. intros _.
    rewrite Hsel. split; [reflexivity|]. split; [|reflexivity].
    apply statuses_update. intros; apply bump_status.
Qed.

Lemma recording_promotion_check_witness :
  Sql.select_volunteer 1 (db (ann_world 2 "Active")) = Some (mkVolunteer 1 "Ann" "+1" "Active" 2 0)
  /\ (3 <= 3 /\ "Active" <> "Blacklisted")
  /\ Sql.select_volunteer 1 (db (exec (add_lateness 1) (ann_world 2 "Active")))
     = Some (mkVolunteer 1 "Ann" "+1" "Blacklisted" 3 0)
  /\ blacklist (db (exec (add_lateness 1) (ann_world 2 "Active")))
     = [mkBlacklistEntry 1 "Ann" "3 нарушений (опоздания + замечания)"].
Proof.
  assert (H : 3 <= 3 /\ "Active" <> "Blacklisted") by (split; [lia | discriminate]).
  split; [reflexivity|]. split; [exact H|].
  exact (proj1 (recording_promotion_check (ann_world 2 "Active") 1 Lateness _ eq_refl) H).
Defined.

(** C2, the reason in English. Ann has two latenesses and a third is
    recorded: she is promoted, and the reason of the inserted row is
    "3 нарушений (опоздания + замечания)", not the text
    "3 violations (lateness+warnings)". *)
Lemma promotion_reason_is_not_english :
  let w' := exec (add_lateness 1) (ann_world 2 "Active") in
  Sql.select_volunteer 1 (db w') = Some (mkVolunteer 1 "Ann" "+1" "Blacklisted" 3 0)
  /\ map b_reason (blacklist (db w')) = ["3 нарушений (опоздания + замечания)"]
  /\ ~ In "3 violations (lateness+warnings)" (map b_reason (blacklist (db w'))).
Proof.
  split; [reflexivity|]. split; [reflexivity|].
  intros [H|[]]. discriminate H.
Qed.

(** ** One blacklist row per full_name *)

Lemma blacklisted_name_spec (n : string) (d : DB) :
  Sql.blacklisted_name n d = true <-> n ∈ map b_full_name (blacklist d).
Proof.
  unfold Sql.blacklisted_name. rewrite existsb_exists, list_elem_of_In, in_map_iff.
  split; intros [b [H1 H2]]; exists b.
  - apply String.eqb_eq in H2. auto.
  - split; [tauto|]. apply String.eqb_eq. tauto.
Qed.

Lemma insert_blacklist_unique (n r : string) (d : DB) :
  unique_full_name d -> unique_full_name (Sql.insert_blacklist n r d).
Proof.
  unfold unique_full_name, Sql.insert_blacklist. cbn [blacklist]. intros Hd.
  destruct (Sql.blacklisted_name n d) eqn:E; [exact Hd|].
  rewrite map_app. cbn [map]. apply NoDup_app. split; [exact Hd|]. split.
  - intros x Hx Hin. apply list_elem_of_singleton in Hin. subst x.
    apply (proj2 (blacklisted_name_spec n d)) in Hx. congruence.
  - apply NoDup_singleton.
Qed.

Lemma promote_if_due_unique (i : Z) (d : DB) :
  unique_full_name d -> unique_full_name (promote_if_due i d).
Proof.
  intros Hd. unfold promote_if_due.
  destruct (Sql.select_volunteer i d) as [row|]; [|exact Hd].
  destruct ((3 <=? _) && _)%bool; [|exact Hd].
  apply insert_blacklist_unique. exact Hd.
Qed.

Lemma record_unique (i : Z) (r : Recording) (w : World) :
  unique_full_name (db w) -> unique_full_name (db (exec (record i r) w)).
Proof. intros Hd. rewrite record_db. apply promote_if_due_unique. exact Hd. Qed.

Lemma record_all_unique (i : Z) (rs : list Recording) (w : World) :
  unique_full_name (db w) -> unique_full_name (db (record_all i rs w)).
Proof.
  revert w. induction rs as [|r rs IH]; intros w Hd; [exact Hd|].
  cbn [record_all fold_left]. apply IH, record_unique, Hd.
Qed.

Lemma unique_entries_for (n : string) (d : DB) :
  unique_full_name d -> (entries_for n d <= 1)%nat.
Proof.
  unfold unique_full_name, entries_for.
  induction (blacklist d) as [|b bs IH]; cbn [map List.filter length]; [lia|].
  intros Hnd. apply NoDup_cons in Hnd as [Hb Hbs].
  destruct (String.eqb_spec (b_full_name b) n) as [E|E]; [|auto].
  cbn [length]. enough (List.filter (fun b0 => String.eqb (b_full_name b0) n) bs = []) as ->
    by (cbn; lia).
  clear IH Hbs. induction bs as [|c cs IHc]; [reflexivity|].
  cbn [List.filter]. destruct (String.eqb_spec (b_full_name c) n) as [Ec|Ec].
  - exfalso. apply Hb. cbn [map]. rewrite E, <- Ec. apply list_elem_of_here.
  - apply IHc. intros Hin. apply Hb. cbn [map]. apply list_elem_of_further, Hin.
Qed.

Lemma record_keeps_blacklist (i : Z) (r : Recording) (w : World) (v : Volunteer) :
  Sql.select_volunteer i (db w) = Some v ->
  v_status v = "Blacklisted" ->
  blacklist (db (exec (record i r) w)) = blacklist (db w).
Proof.
  intros Hv Hs. rewrite record_db. unfold promote_if_due.
  rewrite (select_update (bump r) i (db w) (bump_id r)), Hv.
  cbn [fmap option_fmap option_map]. rewrite bump_status, Hs.
  rewrite String.eqb_refl, andb_false_r. reflexivity.
Qed.

(** C8. Under UNIQUE(full_name), after any run of lateness and warning
    recordings against a volunteer the blacklist holds at most one row for
    each full_name, the volunteer's among them; and a recording against a
    volunteer whose status is Blacklisted leaves the blacklist table as it
    is. *)
Theorem at_most_one_entry (w : World) (volunteer_id : Z) (rs : list Recording) :
  unique_full_name (db w) ->
  let w' := record_all volunteer_id rs w in
  (forall n, (entries_for n (db w') <= 1)%nat)
  /\ (forall v r, Sql.select_volunteer volunteer_id (db w') = Some v ->
        v_status v = "Blacklisted" ->
        blacklist (db (exec (record volunteer_id r) w')) = blacklist (db w')).
Proof.
  intros Hd w'. split.
  - intros n. apply unique_entries_for, record_all_unique, Hd.
  - intros v r Hv Hs. apply (record_keeps_blacklist volunteer_id r w' v Hv Hs).
Qed.

Lemma at_most_one_entry_witness :
  unique_full_name (db (ann_world 2 "Active"))
  /\ entries_for "Ann" (db (record_all 1 [Lateness; Warning; Lateness] (ann_world 2 "Active")))
     = 1%nat
  /\ (entries_for "Ann" (db (record_all 1 [Lateness; Warning; Lateness] (ann_world 2 "Active")))
      <= 1)%nat.
Proof.
  assert (H : unique_full_name (db (ann_world 2 "Active"))) by apply NoDup_nil_2.
  split; [exact H|]. split; [reflexivity|].
  exact (proj1 (at_most_one_entry (ann_world 2 "Active") 1 [Lateness; Warning; Lateness] H) "Ann").
Defined.

(** ** The delete confirmation *)

Lemma select_delete_same (i : Z) (d : DB) :
  Sql.select_volunteer i (Sql.delete_volunteer (Some i) d) = None.
Proof.
  unfold Sql.select_volunteer, Sql.delete_volunteer. cbn [volunteers set_volunteers].
  induction (volunteers d) as [|v vs IH]; [reflexivity|].
  cbn [List.filter]. destruct (Z.eqb_spec (v_id v) i) as [E|E]; cbn [negb]; [exact IH|].
  cbn [find]. destruct (Z.eqb_spec (v_id v) i); [contradiction | exact IH].
Qed.

Lemma select_delete_other (i j : Z) (d : DB) :
  i <> j ->
  Sql.select_volunteer j (Sql.delete_volunteer (Some i) d) = Sql.select_volunteer j d.
Proof.
  intros Hne. unfold Sql.select_volunteer, Sql.delete_volunteer. cbn [volunteers set_volunteers].
  induction (volunteers d) as [|v vs IH]; [reflexivity|].
  cbn [List.filter find]. destruct (Z.eqb_spec (v_id v) i) as [E|E]; cbn [negb].
  - destruct (Z.eqb_spec (v_id v) j); [lia | exact IH].
  - cbn [find]. destruct (Z.eqb_spec (v_id v) j); [reflexivity | exact IH].
Qed.

Lemma delete_absent (i : Z) (d : DB) :
  Sql.select_volunteer i d = None -> Sql.delete_volunteer (Some i) d = d.
Proof.
  intros Hn. unfold Sql.delete_volunteer, set_volunteers.
  assert (Hf : List.filter (fun v => negb (v_id v =? i)) (volunteers d) = volunteers d).
  { unfold Sql.select_volunteer in Hn.
    induction (volunteers d) as [|a l IH]; [reflexivity|].
    cbn [find] in Hn. cbn [List.filter]. destruct (v_id a =? i); [discriminate|].
    cbn [negb]. rewrite IH by exact Hn. reflexivity. }
  rewrite Hf. destruct d; reflexivity.
Qed.

(** What the DELETE does to the database: where the id cannot be bound no
    volunteer has it, and the statement would have deleted no row. *)
Lemma delete_by_id_db (volunteer_id : option Z) (w : World) :
  db (exec (delete_by_id volunteer_id) w) = Sql.delete_volunteer volunteer_id (db w).
Proof.
  run_m. destruct volunteer_id as [i|]; [|reflexivity].
  destruct (encodes_int4 i (db w)) eqn:Hb; [reflexivity|].
  apply not_encoded in Hb as [_ Hn]. cbn [snd]. rewrite delete_absent by exact Hn. reflexivity.
Qed.

Lemma confirm_delete_yes_result (w : World) :
  feed_callback_query "confirm_delete_yes" w =
  match data_volunteer_id (fsm_data (fsm w)) with
  | Some i =>
      if encodes_int4 i (db w)
      then (inr tt, mkWorld (Sql.delete_volunteer (Some i) (db w)) (mkFSM None no_data)
                      (sent w ++ [EditText "🗑 Волонтёр удалён." (Some manage_menu)])%list)
      else (inl DataError, w)
  | None => (inr tt, mkWorld (db w) (mkFSM None no_data)
                       (sent w ++ [EditText "🗑 Волонтёр удалён." (Some manage_menu)])%list)
  end.
Proof.
  unfold feed_callback_query, callback_query_handlers, trigger. cbn [filters handler_body].
  unfold callbacks. cbn [String.eqb Ascii.eqb Bool.eqb]. cbv iota. run_m.
  destruct (data_volunteer_id (fsm_data (fsm w))) as [i|]; [|reflexivity].
  destruct (encodes_int4 i (db w)); reflexivity.
Qed.

(** The id flows store the parsed id under [volunteer_id]. *)
Lemma edit_id_stores_id `{Postgres} (w : World) (t : string) (i : Z) :
  fsm_state (fsm w) = Some EditVolunteer_waiting_for_id ->
  PyStr.int t = Some i ->
  fsm (exec (handle_messages t) w)
  = mkFSM (Some EditVolunteer_waiting_for_field) (volunteer_id_is i (fsm_data (fsm w)))
  /\ db (exec (handle_messages t) w) = db w.
Proof.
  intros Hs Ht. unfold handle_messages. run_m. rewrite Hs, Ht. cbn. auto.
Qed.

Lemma blacklist_id_stores_id `{Postgres} (w : World) (t : string) (i : Z) :
  fsm_state (fsm w) = Some BlacklistDirect_waiting_for_id ->
  PyStr.int t = Some i ->
  fsm (exec (handle_messages t) w)
  = mkFSM (Some BlacklistDirect_waiting_for_reason) (volunteer_id_is i (fsm_data (fsm w)))
  /\ db (exec (handle_messages t) w) = db w.
Proof.
  intros Hs Ht. unfold handle_messages. run_m. rewrite Hs, Ht. cbn. auto.
Qed.

(** C10, as the code has it. The callback "confirm_delete_yes" is handled
    the same way in every state of the FSM. With an id stored under
    [volunteer_id] that can be bound (an int4 value), it deletes the volunteer
    with that id and no other, sends the confirmation and clears the context;
    with no such key it deletes no row, sends the confirmation and clears the
    context. With a stored id outside the range of int4 the DELETE raises
    DataError: nothing is deleted or sent and the context stays as it is. The
    id may have been stored by the edit flow or by the manual-blacklist flow,
    which store any integer. *)
Theorem confirm_delete_yes_any_state `{Postgres} (w : World) :
  let w' := exec (feed_callback_query "confirm_delete_yes") w in
  (forall i, data_volunteer_id (fsm_data (fsm w)) = Some i ->
     encodes_int4 i (db w) = true ->
     Sql.select_volunteer i (db w') = None
     /\ (forall j, j <> i -> Sql.select_volunteer j (db w') = Sql.select_volunteer j (db w))
     /\ blacklist (db w') = blacklist (db w)
     /\ fsm w' = mkFSM None no_data
     /\ sent w' = (sent w ++ [EditText "🗑 Волонтёр удалён." (Some manage_menu)])%list)
  /\ (data_volunteer_id (fsm_data (fsm w)) = None ->
      db w' = db w
      /\ fsm w' = mkFSM None no_data
      /\ sent w' = (sent w ++ [EditText "🗑 Волонтёр удалён." (Some manage_menu)])%list)
  /\ (forall i, data_volunteer_id (fsm_data (fsm w)) = Some i ->
        encodes_int4 i (db w) = false ->
        feed_callback_query "confirm_delete_yes" w = (inl DataError, w))
  /\ (forall t i,
        fsm_state (fsm w) = Some EditVolunteer_waiting_for_id
        \/ fsm_state (fsm w) = Some BlacklistDirect_waiting_for_id ->
        PyStr.int t = Some i ->
        let w1 := exec (handle_messages t) w in
        data_volunteer_id (fsm_data (fsm w1)) = Some i
        /\ db w1 = db w
        /\ (encodes_int4 i (db w) = true ->
            let w2 := exec (feed_callback_query "confirm_delete_yes") w1 in
            Sql.select_volunteer i (db w2) = None /\ fsm w2 = mkFSM None no_data)).
Proof.
  intros w'. subst w'. split; [|split; [|split]].
  - intros i Hi Hb. unfold exec. rewrite confirm_delete_yes_result, Hi, Hb.
    cbn [snd db fsm sent].
    split; [apply select_delete_same|]. split; [|repeat split].
    intros j Hj. apply select_delete_other. congruence.
  - intros Hi. unfold exec. rewrite confirm_delete_yes_result, Hi. repeat split.
  - intros i Hi Hb. rewrite confirm_delete_yes_result, Hi, Hb. reflexivity.
  - intros t i Hs Ht w1.
    assert (Hw1 : data_volunteer_id (fsm_data (fsm w1)) = Some i /\ db w1 = db w).
    { subst w1. destruct Hs as [Hs|Hs].
      - destruct (edit_id_stores_id w t i Hs Ht) as [-> ->]. split; reflexivity.
      - destruct (blacklist_id_stores_id w t i Hs Ht) as [-> ->]. split; reflexivity. }
    destruct Hw1 as [Hid Hdb]. split; [exact Hid|]. split; [exact Hdb|].
    intros Hb w2. subst w2. unfold exec at 1 2.
    rewrite confirm_delete_yes_result, Hid, Hdb, Hb. cbn [snd db fsm].
    split; [apply select_delete_same | reflexivity].
Qed.

Lemma confirm_delete_yes_any_state_witness :
  let w := ann_world_in 0 "Active" (Some EditVolunteer_waiting_for_id) no_data in
  (fsm_state (fsm w) = Some EditVolunteer_waiting_for_id
   \/ fsm_state (fsm w) = Some BlacklistDirect_waiting_for_id)
  /\ PyStr.int "1" = Some 1
  /\ encodes_int4 1 (db w) = true
  /\ data_volunteer_id (fsm_data (fsm w)) = None
  /\ exec (feed_callback_query "confirm_delete_yes") w
     = mkWorld (db w) (mkFSM None no_data) [EditText "🗑 Волонтёр удалён." (Some manage_menu)]
  /\ Sql.select_volunteer 1
       (db (exec (feed_callback_query "confirm_delete_yes")
                 (exec (@handle_messages sample_engine "1") w))) = None
  /\ volunteers (db (exec (feed_callback_query "confirm_delete_yes")
                          (exec (@handle_messages sample_engine "1") w))) = [].
Proof.
  intros w.
  pose proof (@confirm_delete_yes_any_state sample_engine w) as (_ & Hnone & _ & Hflow).
  split; [left; reflexivity|]. split; [reflexivity|]. split; [reflexivity|].
  split; [reflexivity|].
  destruct (Hnone eq_refl) as (Hdb & Hfsm & Hsent).
  split.
  - destruct (exec (feed_callback_query "confirm_delete_yes") w) as [d f s].
    cbn [db fsm sent] in *. rewrite Hdb, Hfsm, Hsent. reflexivity.
  - split; [|reflexivity].
    exact (proj1 (proj2 (proj2 (Hflow "1" 1 (or_introl eq_refl) eq_refl)) eq_refl)).
Defined.

(** C10, the session that is not cleared. In the id step of the edit flow
    the text "99999999999" is an integer, so it is stored under
    [volunteer_id]; no volunteer has this id and it is outside the range of
    int4. "confirm_delete_yes" then raises DataError in the DELETE: nothing is
    sent and the context is still in the edit flow with the id stored, not
    cleared. The same happens after the id step of the manual-blacklist
    flow, and with 2147483648, the first integer above the range; with
    2147483647 the DELETE runs and the context is cleared. *)
Lemma confirm_delete_out_of_range :
  let w := ann_world_in 0 "Active" (Some EditVolunteer_waiting_for_id) no_data in
  let w1 := exec (@handle_messages sample_engine "99999999999") w in
  let b := ann_world_in 0 "Active" (Some BlacklistDirect_waiting_for_id) no_data in
  let b1 := exec (@handle_messages sample_engine "99999999999") b in
  fsm w1 = mkFSM (Some EditVolunteer_waiting_for_field) (mkData (Some 99999999999) None None)
  /\ feed_callback_query "confirm_delete_yes" w1
     = (inl DataError, w1)
  /\ fsm (exec (feed_callback_query "confirm_delete_yes") w1) <> mkFSM None no_data
  /\ fsm b1 = mkFSM (Some BlacklistDirect_waiting_for_reason)
                    (mkData (Some 99999999999) None None)
  /\ fsm (exec (feed_callback_query "confirm_delete_yes") b1)
     = mkFSM (Some BlacklistDirect_waiting_for_reason) (mkData (Some 99999999999) None None)
  /\ fsm (exec (feed_callback_query "confirm_delete_yes")
             (exec (@handle_messages sample_engine "2147483648") w))
     = mkFSM (Some EditVolunteer_waiting_for_field) (mkData (Some 2147483648) None None)
  /\ fsm (exec (feed_callback_query "confirm_delete_yes")
             (exec (@handle_messages sample_engine "2147483647") w))
     = mkFSM None no_data.
Proof.
  split; [reflexivity|]. split; [reflexivity|]. split; [discriminate|].
  split; [reflexivity|]. split; [reflexivity|]. split; reflexivity.
Qed.

(** ** Text that is not a number, where an id is awaited *)

(** X7. In the id step of the manual-blacklist, edit and delete flows, a text
    that [int] rejects is answered with the request for a number and nothing
    else happens: the database, the state and the data are as before, so the
    next text is read in the same step. *)
Lemma invalid_id_reprompts_in_place `{Postgres} (w : World) (t : string) :
  fsm_state (fsm w) = Some BlacklistDirect_waiting_for_id
  \/ fsm_state (fsm w) = Some EditVolunteer_waiting_for_id
  \/ fsm_state (fsm w) = Some DeleteVolunteer_waiting_for_id ->
  PyStr.int t = None ->
  handle_messages t w
  = (inr tt, mkWorld (db w) (fsm w) (sent w ++ [Answer "⚠ Введите число (ID)." None])%list).
Proof.
  intros Hs Ht. unfold handle_messages. run_m.
  destruct Hs as [Hs|[Hs|Hs]]; rewrite Hs, Ht; reflexivity.
Qed.

(** The lateness and warning flows answer, then clear the context. *)
Lemma invalid_id_clears_context `{Postgres} (w : World) (t : string) :
  fsm_state (fsm w) = Some Lateness_waiting_for_id
  \/ fsm_state (fsm w) = Some Warning_waiting_for_id ->
  PyStr.int t = None ->
  exec (handle_messages t) w
  = mkWorld (db w) (mkFSM None no_data)
            (sent w ++ [Answer "⚠ Введите число (ID)." None;
                        Answer "📌 Главное меню:" (Some main_menu)])%list.
Proof.
  intros Hs Ht. unfold handle_messages. run_m.
  destruct Hs as [Hs|Hs]; rewrite Hs, Ht; cbn; rewrite <- app_assoc; reflexivity.
Qed.

(** C3, at the failing input. A principal enters the edit flow, gives the id
    1, then opens the lateness flow: the context is in
    [Lateness_waiting_for_id] and holds [volunteer_id] = 1. The text "abc" is
    not an integer; handling it leaves the default state and empty data. The
    same holds in [Warning_waiting_for_id]. *)
Theorem lateness_invalid_id_resets `{Postgres} :
  let w := feed [Callback "menu_edit_volunteer"; Text "1"; Callback "menu_lateness"]
                (ann_world 0 "Active") in
  let w2 := feed [Callback "menu_edit_volunteer"; Text "1"; Callback "menu_warning"]
                 (ann_world 0 "Active") in
  PyStr.int "abc" = None
  /\ fsm w = mkFSM (Some Lateness_waiting_for_id) (mkData (Some 1) None None)
  /\ fsm (exec (handle_messages "abc") w) = mkFSM None no_data
  /\ fsm w2 = mkFSM (Some Warning_waiting_for_id) (mkData (Some 1) None None)
  /\ fsm (exec (handle_messages "abc") w2) = mkFSM None no_data.
Proof. repeat split. Qed.

(** ** Pagination tokens *)

(** [paginate_records], called on its own, reads the list and the page that
    the token names. *)
Lemma paginate_records_reads_token :
  paginate_records "volunteers_page_2" twelve_world
  = (rows ← get_volunteers;
     show_records (map VolunteerRow rows) 2 "volunteers" "Список волонтёров") twelve_world.
Proof. reflexivity. Qed.

(** [callbacks] has no branch for a pagination token. *)
Lemma callbacks_ignores_page_token (w : World) (n : string) :
  exec (callbacks ("volunteers_page_" +:+ n)) w = w
  /\ exec (callbacks ("blacklist_page_" +:+ n)) w = w.
Proof. split; reflexivity. Qed.

(** C4, at the failing input. A callback whose token is "volunteers_page_<n>"
    or "blacklist_page_<n>" goes to [callbacks], the first handler of the
    observer, which matches it against the menu tokens and finds no branch;
    [paginate_records] is not called. Nothing is sent and the world is as
    before, in every state, while [paginate_records] itself reads the token
    as page 2 of the volunteers and goes on to [show_records]. *)
Theorem page_token_not_handled (w : World) (n : string) :
  exec (feed_callback_query ("volunteers_page_" +:+ n)) w = w
  /\ exec (feed_callback_query ("blacklist_page_" +:+ n)) w = w
  /\ sent (exec (feed_callback_query "volunteers_page_2") twelve_world) = []
  /\ paginate_records "volunteers_page_2" twelve_world
     = (rows ← get_volunteers;
        show_records (map VolunteerRow rows) 2 "volunteers" "Список волонтёров") twelve_world.
Proof.
  split; [reflexivity|]. split; [reflexivity|]. split; [reflexivity|].
  apply paginate_records_reads_token.
Qed.

(** ** The edit flow *)

Lemma prefix_app (p s : string) : String.prefix p (p +:+ s) = true.
Proof.
  induction p as [|c p IH]; [destruct s; reflexivity|].
  change (String c p +:+ s) with (String c (p +:+ s)).
  change (String.prefix (String c p) (String c (p +:+ s)))
    with (if ascii_dec c c then String.prefix p (p +:+ s) else false).
  destruct (ascii_dec c c); [exact IH | contradiction].
Qed.

(** The callback stores whatever follows "edit_field_". *)
Lemma edit_field_callback_stores (w : World) (s : string) :
  fsm (exec (feed_callback_query ("edit_field_" +:+ s)) w)
  = mkFSM (Some EditVolunteer_waiting_for_new_value)
          (field_is (PyStr.remove "edit_field_" ("edit_field_" +:+ s)) (fsm_data (fsm w))).
Proof.
  unfold feed_callback_query, callback_query_handlers, trigger. cbn [filters handler_body].
  unfold callbacks.
  replace (PyStr.startswith ("edit_field_" +:+ s) "edit_field_") with true
    by (symmetry; apply prefix_app).
  reflexivity.
Qed.

(** What [execute_text] does to the database: where the id cannot be bound
    no volunteer has it, and the statement would have changed no row. *)
Lemma execute_text_db `{Postgres} (q p1 : string) (p2 : Z) (w : World) :
  db (exec (execute_text q p1 p2) w)
  = match execute_dynamic q p1 p2 (db w) with
    | Some d => d
    | None => db w
    end.
Proof.
  unfold execute_text. run_m. destruct (id_parameter q) eqn:Hq.
  - destruct (encodes_int4 p2 (db w)) eqn:Hb.
    + destruct (execute_dynamic q p1 p2 (db w)); reflexivity.
    + apply not_encoded in Hb as [_ Hn]. cbn [snd]. unfold execute_dynamic.
      unfold id_parameter in Hq.
      destruct (String.eqb q (Sql.edit_query "full_name"));
        [rewrite update_absent by exact Hn; reflexivity|].
      destruct (String.eqb q (Sql.edit_query "contacts"));
        [rewrite update_absent by exact Hn; reflexivity|].
      destruct (String.eqb q (Sql.edit_query "status"));
        [rewrite update_absent by exact Hn; reflexivity | discriminate Hq].
  - destruct (execute_dynamic q p1 p2 (db w)); reflexivity.
Qed.

Lemma execute_text_frame `{Postgres} (q p1 : string) (p2 : Z) (w : World) :
  fsm (exec (execute_text q p1 p2) w) = fsm w
  /\ sent (exec (execute_text q p1 p2) w) = sent w.
Proof.
  unfold execute_text. run_m.
  destruct (id_parameter q); [destruct (encodes_int4 p2 (db w))|];
    step_m; try (split; reflexivity);
    destruct (execute_dynamic q p1 p2 (db w)); split; reflexivity.
Qed.

(** The text of the statement is built from the stored field. *)
Lemma edit_value_executes `{Postgres} (w : World) (t f : string) (i : Z) :
  fsm_state (fsm w) = Some EditVolunteer_waiting_for_new_value ->
  data_volunteer_id (fsm_data (fsm w)) = Some i ->
  data_field (fsm_data (fsm w)) = Some f ->
  db (exec (handle_messages t) w)
  = match execute_dynamic ("UPDATE volunteers SET " +:+ f +:+ "=$1 WHERE id=$2") t i (db w) with
    | Some d => d
    | None => db w
    end.
Proof.
  intros Hs Hi Hf. fold (Sql.edit_query f).
  rewrite <- execute_text_db. unfold handle_messages. run_m. rewrite Hs, Hi, Hf. step_m.
  destruct (execute_text (Sql.edit_query f) t i w) as [[e|[]] w1]; reflexivity.
Qed.

(** C5, at the failing input. The token "edit_field_status" is not one of the
    two tokens of the edit keyboard. The callback stores "status" as the
    field, the edit flow puts it into the statement text, and the status of a
    blacklisted volunteer becomes the text the principal sends. *)
Theorem edit_forwards_any_field `{Postgres} :
  let w := feed [Callback "menu_edit_volunteer"; Text "1"; Callback "edit_field_status"]
                (ann_world 3 "Blacklisted") in
  ~ offered_field "status"
  /\ fsm w = mkFSM (Some EditVolunteer_waiting_for_new_value)
                   (mkData (Some 1) None (Some "status"))
  /\ Sql.edit_query "status" = "UPDATE volunteers SET status=$1 WHERE id=$2"
  /\ volunteers (db (exec (handle_messages "Active") w))
     = [mkVolunteer 1 "Ann" "+1" "Active" 3 0].
Proof.
  split; [intros [E|E]; discriminate E|]. repeat split.
Qed.

(** ** Paginated rendering *)

Section Pages.

Variable prefix : string.
Variable rows : list Row.
Hypothesis rows_of_kind : Forall (fun r => kind_of r = prefix) rows.

Let count : Z := Z.of_nat (length rows).

(** total_pages is the ceiling of count / 5. *)
Lemma total_pages_ceiling :
  5 * (total_pages_of rows - 1) < count <= 5 * total_pages_of rows.
Proof.
  unfold count, total_pages_of, PAGE_SIZE.
  Z.to_euclidean_division_equations. lia.
Qed.

Lemma page_in_range (page : Z) :
  0 <= page < total_pages_of rows <-> 0 <= page /\ page * 5 < count.
Proof. pose proof total_pages_ceiling. unfold count in *. lia. Qed.

(** On a page of the list, the slice is five rows from position page*5,
    or the rows that are left. *)
Lemma page_slice (page : Z) :
  0 <= page ->
  py_slice rows (page * PAGE_SIZE) (page * PAGE_SIZE + PAGE_SIZE)
  = take 5 (drop (Z.to_nat (page * 5)) rows).
Proof.
  intros Hp. unfold py_slice, slice_bound, PAGE_SIZE. fold count.
  destruct (Z.ltb_spec (page * 5) 0); [lia|].
  destruct (Z.ltb_spec (page * 5 + 5) 0); [lia|].
  destruct (Z.le_gt_cases count (page * 5)) as [Hout|Hin].
  - rewrite !Z.min_r by lia. rewrite Z.sub_diag.
    rewrite (drop_ge rows (Z.to_nat (page * 5))) by lia.
    cbn [Z.to_nat take firstn]. rewrite drop_ge by lia. reflexivity.
  - rewrite (Z.min_l (page * 5)) by lia.
    destruct (Z.le_gt_cases (page * 5 + 5) count).
    + rewrite Z.min_l by lia. f_equal. lia.
    + rewrite Z.min_r by lia.
      rewrite !take_ge; [reflexivity | |]; rewrite length_drop; unfold count in *; lia.
Qed.

End Pages.

Lemma format_rows_lines (prefix : string) (rows : list Row) (body : string) (w : World) :
  Forall (fun r => kind_of r = prefix) rows ->
  format_rows prefix rows body w = (inr (body +:+ lines_of rows), w).
Proof.
  intros Hk. revert body. induction Hk as [|r rs Hr _ IH]; intros body.
  - cbn [format_rows lines_of fold_right]. unfold mret, M_ret.
    f_equal. f_equal. clear. induction body as [|c b IHb]; [reflexivity|].
    change (String c b +:+ "") with (String c (b +:+ "")). rewrite <- IHb. reflexivity.
  - cbn [format_rows]. unfold mbind, M_bind.
    assert (Hrow : format_row prefix r w = (inr (line_of r), w)).
    { subst prefix. destruct r; reflexivity. }
    rewrite Hrow, IH. cbn [lines_of fold_right]. fold (lines_of rs).
    f_equal. f_equal. clear. induction body as [|c b IHb]; [reflexivity|].
    change (String c b +:+ line_of r) with (String c (b +:+ line_of r)).
    change (String c (b +:+ line_of r) +:+ lines_of rs)
      with (String c ((b +:+ line_of r) +:+ lines_of rs)).
    rewrite IHb. reflexivity.
Qed.

Lemma show_records_nonempty (rows : list Row) (page : Z) (prefix title : string) :
  rows <> [] ->
  show_records rows page prefix title
  = (body ← format_rows prefix (py_slice rows (page * PAGE_SIZE) (page * PAGE_SIZE + PAGE_SIZE))
                        (title +:+ ":
");
     reply_markup ← pagination_markup page (total_pages_of rows) prefix;
     edit_text_kb body reply_markup).
Proof. destruct rows; [contradiction | reflexivity]. Qed.

(** Every path through [pagination_markup] calls the button constructor with
    the text by position: the "previous" button when page > 0, else the
    "next" button when page < total_pages - 1, else the main-menu button. *)
Lemma pagination_markup_raises (page total_pages : Z) (prefix : string) (w : World) :
  pagination_markup page total_pages prefix w = (inl TypeError, w).
Proof.
  unfold pagination_markup, InlineKeyboardButton_positional. run_m.
  destruct (0 <? page); [reflexivity|].
  destruct (page <? total_pages - 1); reflexivity.
Qed.

(** For a list that is not empty, [show_records] formats the rows of the
    slice and then raises in [pagination_markup], before [edit_text]. *)
Lemma show_records_raises (rows : list Row) (page : Z) (prefix title : string) (w : World) :
  Forall (fun r => kind_of r = prefix) rows ->
  rows <> [] ->
  show_records rows page prefix title w = (inl TypeError, w).
Proof.
  intros Hk Hne. rewrite show_records_nonempty by exact Hne.
  unfold mbind, M_bind.
  rewrite format_rows_lines; [rewrite pagination_markup_raises; reflexivity|].
  unfold py_slice. apply Forall_take, Forall_drop, Hk.
Qed.

(** C7, at the failing input. Twelve volunteers are stored and the principal
    opens the list ("menu_volunteers", page 0). total_pages is 3 and the
    slices of the pages 0, 1 and 2 have 5, 5 and 2 rows, as the claim says,
    and the text of a page is one line per row of its slice; but
    [pagination_markup] gives the text of each button by position, which
    the button's constructor refuses with TypeError. So on every page
    [show_records] raises before it sends anything: no page is rendered and
    no "previous" or "next" control is shown. The same holds for the
    blacklist with its one entry. Only the empty list is rendered, as the
    "empty" message with the main menu, which has no pagination button. *)
Theorem show_records_raises_on_every_page :
  let rows := map VolunteerRow twelve_volunteers in
  let title := "Список волонтёров" in
  total_pages_of rows = 3
  /\ map (fun p => length (py_slice rows (p * PAGE_SIZE) (p * PAGE_SIZE + PAGE_SIZE))) [0; 1; 2]
     = [5; 5; 2]%nat
  /\ feed_callback_query "menu_volunteers" twelve_world = (inl TypeError, twelve_world)
  /\ sent (exec (feed_callback_query "menu_volunteers") twelve_world) = []
  /\ show_records rows 0 "volunteers" title twelve_world = (inl TypeError, twelve_world)
  /\ show_records rows 1 "volunteers" title twelve_world = (inl TypeError, twelve_world)
  /\ show_records rows 2 "volunteers" title twelve_world = (inl TypeError, twelve_world)
  /\ pagination_markup 0 3 "volunteers" twelve_world = (inl TypeError, twelve_world)
  /\ format_rows "volunteers" (py_slice rows (2 * PAGE_SIZE) (2 * PAGE_SIZE + PAGE_SIZE))
                 "Список волонтёров:
" twelve_world
     = (inr "Список волонтёров:
11. V11 | Active | +1 | Опозданий: 0 | Замечаний: 0
12. V12 | Active | +1 | Опозданий: 0 | Замечаний: 0
", twelve_world)
  /\ format_rows "blacklist" (map BlacklistRow (blacklist (db bob_listed_world)))
                 "Черный список:
" bob_listed_world
     = (inr "Черный список:
1. Bob | no show
", bob_listed_world)
  /\ feed_callback_query "menu_blacklist" bob_listed_world = (inl TypeError, bob_listed_world)
  /\ show_records [] 0 "volunteers" title twelve_world
     = (inr tt, mkWorld (db twelve_world) (fsm twelve_world)
                  [EditText "Список волонтёров пуст." (Some main_menu)])
  /\ page_buttons main_menu = []
  /\ has_control previous_label main_menu = false
  /\ has_control next_label main_menu = false.
Proof. repeat split. Qed.

(** ** Concurrent recordings *)

Module ConcurrentFacts.
Import Concurrent.

Lemma step_increment (i : Z) (w : World) :
  step (Increment i) w
  = if encodes_int4 i (db w)
    then (inr (Select i),
          mkWorld (Sql.update_where_id incr_lateness i (db w)) (fsm w) (sent w))
    else (inl DataError, w).
Proof. cbn [step]. run_m. destruct (encodes_int4 i (db w)); reflexivity. Qed.

Lemma step_set_status (i : Z) (row : Volunteer) (total_violations : Z) (w : World) :
  step (SetStatus i row total_violations) w
  = if encodes_int4 i (db w)
    then (inr (InsertBlacklist row total_violations),
          mkWorld (Sql.update_where_id (with_status "Blacklisted") i (db w)) (fsm w) (sent w))
    else (inl DataError, w).
Proof. cbn [step]. run_m. destruct (encodes_int4 i (db w)); reflexivity. Qed.

Lemma step_select_unbound (i : Z) (w : World) :
  encodes_int4 i (db w) = false -> step (Select i) w = (inl DataError, w).
Proof. intros Hb. cbn [step]. run_m. rewrite Hb. reflexivity. Qed.

(** A call that runs without another in between does what [add_lateness]
    does. *)
Lemma call_alone (i : Z) (w : World) :
  run [0; 0; 0; 0]%nat ([start_add_lateness i], w) = ([Done], exec (add_lateness i) w).
Proof.
  unfold run, start_add_lateness, add_lateness, exec. cbn [fold_left].
  rewrite execute_by_id_then.
  unfold resume at 4. cbn [lookup list_lookup]. rewrite step_increment.
  destruct (encodes_int4 i (db w)) eqn:Hb; [|reflexivity].
  cbn [list_insert insert].
  unfold resume at 3. cbn [lookup list_lookup step]. run_m.
  rewrite encodes_update, Hb by reflexivity. step_m.
  destruct (Sql.select_volunteer i (Sql.update_where_id incr_lateness i (db w))) as [row|];
    [|reflexivity].
  rewrite !or0_id.
  destruct ((3 <=? _) && _)%bool; [|reflexivity].
  step_m. cbn [list_insert insert].
  unfold resume at 2. cbn [lookup list_lookup]. rewrite step_set_status. cbn [db].
  rewrite !encodes_update, Hb by reflexivity. reflexivity.
Qed.

End ConcurrentFacts.

Module ConcurrentCount.
Import Concurrent ConcurrentFacts.

Lemma incremented_count_insert (tasks : list Task) (k : nat) (t t' : Task) :
  tasks !! k = Some t ->
  incremented_count (<[k := t']> tasks)
  = incremented_count tasks - (if incremented t then 1 else 0)
    + (if incremented t' then 1 else 0).
Proof.
  revert k. induction tasks as [|a tasks IH]; intros k Hk; [discriminate|].
  destruct k as [|k].
  - injection Hk as ->. cbn [insert list_insert incremented_count]. lia.
  - cbn [lookup list_lookup] in Hk. specialize (IH k Hk).
    change (<[S k := t']> (a :: tasks)) with (a :: <[k := t']> tasks).
    cbn [incremented_count]. lia.
Qed.

Lemma incremented_count_all (tasks : list Task) :
  forallb is_done tasks = true -> incremented_count tasks = Z.of_nat (length tasks).
Proof.
  induction tasks as [|a tasks IH]; [reflexivity|].
  cbn [forallb incremented_count length]. intros H.
  apply andb_true_iff in H as [Ha Ht]. specialize (IH Ht).
  destruct a; try discriminate. cbn [incremented]. lia.
Qed.

Lemma incremented_count_repeat (n : nat) (i : Z) :
  incremented_count (repeat (start_add_lateness i) n) = 0.
Proof. induction n as [|n IH]; [reflexivity|]. cbn. exact IH. Qed.

Lemma lateness_update_status (i j : Z) (w : World) (s : string) :
  lateness_of i (mkWorld (Sql.update_where_id (with_status s) j (db w)) (fsm w) (sent w))
  = lateness_of i w.
Proof.
  unfold lateness_of. cbn [db].
  destruct (Z.eq_dec j i) as [->|Hne].
  - rewrite select_update by reflexivity.
    destruct (Sql.select_volunteer i (db w)); reflexivity.
  - rewrite select_update_other by (reflexivity || exact Hne). reflexivity.
Qed.

Lemma resume_counted (i l0 : Z) (k : nat) (p : Pool) :
  counted i l0 p -> counted i l0 (resume k p).
Proof.
  destruct p as [tasks w]. intros [Hon Hl]. cbn [fst snd] in *.
  unfold resume. destruct (tasks !! k) as [t|] eqn:Hk; [|split; assumption].
  assert (Ht : call_on i t).
  { apply (proj1 (Forall_forall _ _) Hon). eapply list_elem_of_lookup_2, Hk. }
  assert (Hins : forall t', call_on i t' -> Forall (call_on i) (<[k := t']> tasks)).
  { intros t' Ht'. apply Forall_insert; assumption. }
  assert (Hend : forall t0, tasks !! k = Some t0 -> incremented t0 = true ->
            counted i l0 (<[k := Done]> tasks, w)).
  { intros t0 Hk0 Ht0. split; [apply Hins; exact I|]. cbn [fst snd].
    rewrite (incremented_count_insert tasks k t0) by exact Hk0.
    rewrite Ht0. cbn [incremented]. rewrite Hl. f_equal. lia. }
  destruct t as [j|j|j row tv|row tv|]; cbn [call_on] in *.
  - subst j. rewrite step_increment.
    assert (Hb : encodes_int4 i (db w) = true).
    { unfold lateness_of in Hl.
      destruct (Sql.select_volunteer i (db w)) as [v|] eqn:Hv; [|discriminate].
      eapply encodes_present, Hv. }
    rewrite Hb. split; [apply Hins; exact I|]. cbn [fst snd].
    rewrite (incremented_count_insert tasks k (Increment i)) by exact Hk.
    cbn [incremented]. unfold lateness_of in *. cbn [db].
    rewrite select_update by reflexivity.
    destruct (Sql.select_volunteer i (db w)) as [v|]; [|discriminate].
    cbn in *. injection Hl as Hl. f_equal. lia.
  - destruct (encodes_int4 j (db w)) eqn:Hb;
      [|rewrite step_select_unbound by exact Hb; apply (Hend _ Hk); reflexivity].
    cbn [step]. run_m. rewrite Hb. step_m.
    destruct (Sql.select_volunteer j (db w)) as [row|].
    + destruct ((3 <=? _) && _)%bool; cbn [fst snd].
      * split; [apply Hins; exact I|]. cbn [fst snd].
        rewrite (incremented_count_insert tasks k (Select j)) by exact Hk.
        cbn [incremented]. rewrite Hl. f_equal. lia.
      * split; [apply Hins; exact I|]. cbn [fst snd].
        rewrite (incremented_count_insert tasks k (Select j)) by exact Hk.
        cbn [incremented]. unfold lateness_of in *. cbn [db]. rewrite Hl. f_equal. lia.
    + split; [apply Hins; exact I|]. cbn [fst snd].
      rewrite (incremented_count_insert tasks k (Select j)) by exact Hk.
      cbn [incremented]. unfold lateness_of in *. cbn [db]. rewrite Hl. f_equal. lia.
  - rewrite step_set_status.
    destruct (encodes_int4 j (db w)); [|apply (Hend _ Hk); reflexivity].
    split; [apply Hins; exact I|]. cbn [fst snd].
    rewrite (incremented_count_insert tasks k (SetStatus j row tv)) by exact Hk.
    cbn [incremented]. rewrite lateness_update_status, Hl. f_equal. lia.
  - cbn [step]. run_m. split; [apply Hins; exact I|]. cbn [fst snd].
    rewrite (incremented_count_insert tasks k (InsertBlacklist row tv)) by exact Hk.
    cbn [incremented]. unfold lateness_of in *. cbn [db].
    rewrite select_insert_blacklist, Hl. f_equal. lia.
  - cbn [step]. run_m. split; [apply Hins; exact I|]. cbn [fst snd].
    rewrite (incremented_count_insert tasks k Done) by exact Hk.
    cbn [incremented]. rewrite Hl. f_equal. lia.
Qed.

Lemma run_counted (i l0 : Z) (schedule : list nat) (p : Pool) :
  counted i l0 p -> counted i l0 (run schedule p).
Proof.
  revert p. induction schedule as [|k ks IH]; intros p Hp; [exact Hp|].
  cbn [run fold_left]. apply IH, resume_counted, Hp.
Qed.

Lemma resume_length (k : nat) (p : Pool) : length (fst (resume k p)) = length (fst p).
Proof.
  destruct p as [tasks w]. unfold resume.
  destruct (tasks !! k); [|reflexivity].
  destruct (step t w) as [[e|t'] w']; cbn [fst]; apply length_insert.
Qed.

Lemma run_length (schedule : list nat) (p : Pool) :
  length (fst (run schedule p)) = length (fst p).
Proof.
  revert p. induction schedule as [|k ks IH]; intros p; [reflexivity|].
  cbn [run fold_left]. fold (run ks (resume k p)). rewrite IH. apply resume_length.
Qed.

End ConcurrentCount.

Module ConcurrentProgress.
Import Concurrent ConcurrentFacts.
Local Open Scope list_scope.

Lemma resume_at (tasks : list Task) (k : nat) (t : Task) (w : World) :
  tasks !! k = Some t ->
  exists t' w', resume k (tasks, w) = (<[k := t']> tasks, w')
                /\ (steps_left t' <= Nat.pred (steps_left t))%nat.
Proof.
  intros Hk. unfold resume. rewrite Hk.
  destruct t as [j|j|j row tv|row tv|].
  - rewrite step_increment.
    destruct (encodes_int4 j (db w)); eexists _, _; (split; [reflexivity | cbn; lia]).
  - destruct (encodes_int4 j (db w)) eqn:Hb.
    + cbn [step]. run_m. rewrite Hb. step_m.
      destruct (Sql.select_volunteer j (db w)) as [row|].
      * destruct ((3 <=? _) && _)%bool; eexists _, _; (split; [reflexivity | cbn; lia]).
      * eexists _, _. split; [reflexivity | cbn; lia].
    + rewrite step_select_unbound by exact Hb.
      eexists _, _. split; [reflexivity | cbn; lia].
  - rewrite step_set_status.
    destruct (encodes_int4 j (db w)); eexists _, _; (split; [reflexivity | cbn; lia]).
  - cbn [step]. run_m. eexists _, _. split; [reflexivity | cbn; lia].
  - cbn [step]. run_m. eexists _, _. split; [reflexivity | cbn; lia].
Qed.

Lemma resume_times (m : nat) (tasks : list Task) (k : nat) (t : Task) (w : World) :
  tasks !! k = Some t ->
  (steps_left t <= m)%nat ->
  exists w', run (repeat k m) (tasks, w) = (<[k := Done]> tasks, w').
Proof.
  revert tasks t w. induction m as [|m IH]; intros tasks t w Hk Hm.
  - exists w. cbn [repeat run fold_left]. f_equal.
    destruct t; cbn in Hm; try lia. symmetry. apply list_insert_id, Hk.
  - destruct (resume_at tasks k t w Hk) as (t' & w' & Hr & Hle).
    cbn [repeat run fold_left]. rewrite Hr.
    assert (Hlt : (k < length tasks)%nat) by (eapply lookup_lt_Some, Hk).
    destruct (IH (<[k := t']> tasks) t' w') as [w'' Hw''].
    + apply list_lookup_insert_eq, Hlt.
    + lia.
    + exists w''. unfold run in Hw''. rewrite Hw''.
      rewrite list_insert_insert_eq. reflexivity.
Qed.

Lemma run_app (s1 s2 : list nat) (p : Pool) : run (s1 ++ s2) p = run s2 (run s1 p).
Proof. unfold run. apply fold_left_app. Qed.

Lemma repeat_shift {A} (x : A) (n : nat) (rest : list A) :
  repeat x n ++ x :: rest = repeat x (S n) ++ rest.
Proof. induction n as [|n IH]; [reflexivity|]. cbn [repeat app] in *. rewrite IH. reflexivity. Qed.

Lemma serial_completes (i : Z) (n : nat) (rest : list Task) (w : World) :
  exists w', run (serial n) (repeat (start_add_lateness i) n ++ rest, w)
             = (repeat Done n ++ rest, w').
Proof.
  revert rest w. induction n as [|n IH]; intros rest w; [exists w; reflexivity|].
  cbn [serial]. rewrite run_app.
  replace (repeat (start_add_lateness i) (S n) ++ rest)
    with (repeat (start_add_lateness i) n ++ start_add_lateness i :: rest)
    by apply repeat_shift.
  destruct (IH (start_add_lateness i :: rest) w) as [w' ->].
  destruct (resume_times 4 (repeat Done n ++ start_add_lateness i :: rest) n
                         (start_add_lateness i) w') as [w'' Hw''].
  - rewrite lookup_app_r by (rewrite repeat_length; lia).
    rewrite repeat_length, Nat.sub_diag. reflexivity.
  - cbn. lia.
  - exists w''. change [n; n; n; n] with (repeat n 4). rewrite Hw''. f_equal.
    rewrite insert_app_r_alt by (rewrite repeat_length; lia).
    rewrite repeat_length, Nat.sub_diag. cbn [insert list_insert].
    apply repeat_shift.
Qed.

Lemma serial_all_done (i : Z) (n : nat) (w : World) :
  all_done (run (serial n) (calls n i w)) = true.
Proof.
  unfold calls. destruct (serial_completes i n [] w) as [w' Hw'].
  rewrite app_nil_r in Hw'. rewrite Hw'. unfold all_done. cbn [fst].
  rewrite app_nil_r. clear. induction n as [|n IH]; [reflexivity | exact IH].
Qed.

End ConcurrentProgress.

(** C9, as the code has it. Take any number [n] of concurrent [add_lateness]
    calls against one existing volunteer and any interleaving of their
    statements that runs every call to its end: lateness_count ends exactly
    [n] above its first value, each call's increment being the single
    statement UPDATE ... lateness_count + 1. Such interleavings exist: the
    calls one after the other are one. *)
Theorem concurrent_lateness_exact (n : nat) (volunteer_id : Z) (w : World)
        (v : Volunteer) (schedule : list nat) :
  Sql.select_volunteer volunteer_id (db w) = Some v ->
  Concurrent.all_done (Concurrent.run schedule (Concurrent.calls n volunteer_id w)) = true ->
  Concurrent.lateness_of volunteer_id
    (snd (Concurrent.run schedule (Concurrent.calls n volunteer_id w)))
  = Some (v_lateness_count v + Z.of_nat n)
  /\ Concurrent.all_done
       (Concurrent.run (Concurrent.serial n) (Concurrent.calls n volunteer_id w)) = true.
Proof.
  intros Hv Hdone. split; [|apply ConcurrentProgress.serial_all_done].
  assert (H0 : Concurrent.counted volunteer_id (v_lateness_count v)
                 (Concurrent.calls n volunteer_id w)).
  { split; cbn [fst snd Concurrent.calls].
    - apply Forall_forall. intros t Ht. apply list_elem_of_In, repeat_spec in Ht.
      subst t. reflexivity.
    - rewrite ConcurrentCount.incremented_count_repeat.
      unfold Concurrent.lateness_of. rewrite Hv. cbn. f_equal. lia. }
  destruct (ConcurrentCount.run_counted _ _ schedule _ H0) as [_ Hl].
  rewrite Hl. f_equal. f_equal.
  rewrite ConcurrentCount.incremented_count_all by exact Hdone.
  rewrite ConcurrentCount.run_length. cbn [fst Concurrent.calls].
  rewrite repeat_length. reflexivity.
Qed.

Lemma concurrent_lateness_exact_witness :
  let w := ann_world 0 "Active" in
  let schedule := [0; 1; 2; 0; 0; 0; 1; 2]%nat in
  Sql.select_volunteer 1 (db w) = Some (mkVolunteer 1 "Ann" "+1" "Active" 0 0)
  /\ Concurrent.all_done (Concurrent.run schedule (Concurrent.calls 3 1 w)) = true
  /\ Concurrent.lateness_of 1 (snd (Concurrent.run schedule (Concurrent.calls 3 1 w)))
     = Some (0 + 3).
Proof.
  intros w schedule.
  split; [reflexivity|]. split; [reflexivity|].
  exact (proj1 (concurrent_lateness_exact 3 1 w _ schedule eq_refl eq_refl)).
Defined.

(** C9, the statements of a call as one atomic unit. Two calls against Ann,
    who has two latenesses: both increments run before the first check. The
    check then reads 4 and writes the reason "4 нарушений ..."; the two calls
    run one after the other, in either order, write "3 нарушений ...". The
    outcome of the interleaving is the outcome of no serial order, so the
    statements of a call are not one atomic unit. *)
Lemma lateness_call_not_atomic :
  let w := ann_world 2 "Active" in
  let p := Concurrent.run [0; 1; 0; 0; 0; 1]%nat (Concurrent.calls 2 1 w) in
  let serial := exec (add_lateness 1) (exec (add_lateness 1) w) in
  Concurrent.all_done p = true
  /\ map b_reason (blacklist (db (snd p))) = ["4 нарушений (опоздания + замечания)"]
  /\ map b_reason (blacklist (db serial)) = ["3 нарушений (опоздания + замечания)"]
  /\ db (snd p) <> db serial.
Proof.
  split; [reflexivity|]. split; [reflexivity|]. split; [reflexivity|].
  intros H. apply (f_equal (fun d => map b_reason (blacklist d))) in H.
  discriminate H.
Qed.

(** ** The blacklist invariant *)

Section Invariant.

Context `{Postgres}.

Lemma select_Some_in (i : Z) (d : DB) (v : Volunteer) :
  Sql.select_volunteer i d = Some v -> v ∈ volunteers d /\ v_id v = i.
Proof.
  unfold Sql.select_volunteer. intros Hf. apply find_some in Hf as [Hin Hid].
  split; [apply list_elem_of_In, Hin | lia].
Qed.

Lemma select_None_not_in (i : Z) (d : DB) (v : Volunteer) :
  Sql.select_volunteer i d = None -> v ∈ volunteers d -> v_id v <> i.
Proof.
  unfold Sql.select_volunteer. intros Hf Hin Hid.
  apply list_elem_of_In in Hin.
  pose proof (find_none _ _ Hf v Hin) as Hn. cbn in Hn. lia.
Qed.

(** Under distinct ids, the row that SELECT finds is the only row with the id. *)
Lemma select_unique (i : Z) (d : DB) (v0 v : Volunteer) :
  NoDup (map v_id (volunteers d)) ->
  Sql.select_volunteer i d = Some v0 ->
  v ∈ volunteers d -> v_id v = i -> v = v0.
Proof.
  intros Hnd Hsel Hin Hid. apply select_Some_in in Hsel as [Hin0 Hid0].
  revert Hnd Hin Hin0. generalize (volunteers d). intros l.
  induction l as [|a l IH]; intros Hnd Hin Hin0; [inversion Hin|].
  cbn [map] in Hnd. apply NoDup_cons in Hnd as [Ha Hl].
  apply elem_of_cons in Hin as [->|Hin]; apply elem_of_cons in Hin0 as [->|Hin0].
  - reflexivity.
  - exfalso. apply Ha. rewrite Hid, <- Hid0.
    apply list_elem_of_In, in_map, list_elem_of_In, Hin0.
  - exfalso. apply Ha. rewrite Hid0, <- Hid.
    apply list_elem_of_In, in_map, list_elem_of_In, Hin.
  - apply IH; assumption.
Qed.

(** A pointwise change of the rows that keeps the ids keeps the state well
    formed, as soon as every changed row satisfies the invariant. *)
Lemma well_formed_update (f : Volunteer -> Volunteer) (i : Z) (w w' : World) (m m' : gset Z) :
  (forall v, v_id (f v) = v_id v) ->
  volunteers (db w') = volunteers (Sql.update_where_id f i (db w)) ->
  volunteers_id_seq (db w') = volunteers_id_seq (db w) ->
  (forall j, j ∈ m' -> j < volunteers_id_seq (db w)) ->
  (forall v, v ∈ volunteers (db w) -> row_ok m v ->
     row_ok m' (if v_id v =? i then f v else v)) ->
  well_formed (w, m) -> well_formed (w', m').
Proof.
  intros Hf Hvols Hseq Hm Hrow (Hlt & _ & Hnd & Hok).
  unfold well_formed in *. cbn [fst snd] in *. rewrite Hvols, Hseq.
  split; [|split; [exact Hm|split]].
  - unfold Sql.update_where_id. cbn [volunteers set_volunteers].
    apply Forall_forall. intros x Hx. apply list_elem_of_In, in_map_iff in Hx as (v & <- & Hv).
    apply list_elem_of_In in Hv.
    pose proof (proj1 (Forall_forall _ _) Hlt v Hv) as Hv'. cbn in Hv'.
    destruct (v_id v =? i); [rewrite Hf|]; exact Hv'.
  - rewrite update_ids by exact Hf. exact Hnd.
  - unfold Sql.update_where_id. cbn [volunteers set_volunteers].
    apply Forall_forall. intros x Hx. apply list_elem_of_In, in_map_iff in Hx as (v & <- & Hv).
    apply list_elem_of_In in Hv. apply Hrow; [exact Hv|].
    exact (proj1 (Forall_forall _ _) Hok v Hv).
Qed.

End Invariant.

Section Preservation.

Context `{Postgres}.

Lemma update_twice (f g : Volunteer -> Volunteer) (i : Z) (d : DB) :
  (forall v, v_id (f v) = v_id v) ->
  volunteers (Sql.update_where_id g i (Sql.update_where_id f i d))
  = volunteers (Sql.update_where_id (fun v => g (f v)) i d).
Proof.
  intros Hf. unfold Sql.update_where_id. cbn [volunteers set_volunteers].
  rewrite map_map. apply map_ext. intros v.
  destruct (Z.eqb_spec (v_id v) i) as [E|E].
  - rewrite Hf. destruct (Z.eqb_spec (v_id v) i); [reflexivity | contradiction].
  - destruct (Z.eqb_spec (v_id v) i); [contradiction | reflexivity].
Qed.

Lemma well_formed_record (i : Z) (r : Recording) (w : World) (m : gset Z) :
  well_formed (w, m) -> well_formed (exec (record i r) w, m).
Proof.
  intros Hwf. pose proof Hwf as (Hlt & Hm & Hnd & Hok). cbn [fst snd] in *.
  pose proof (record_db i r w) as Hdb.
  pose proof (select_update (bump r) i (db w) (bump_id r)) as Hsel.
  unfold promote_if_due in Hdb. rewrite Hsel in Hdb.
  destruct (Sql.select_volunteer i (db w)) as [v0|] eqn:Hv0;
    cbn [fmap option_fmap option_map] in Hdb.
  - fold (total_violations_of (bump r v0)) in Hdb.
    rewrite bump_total, bump_status in Hdb.
    destruct ((3 <=? total_violations_of v0 + 1)
              && negb (String.eqb (v_status v0) "Blacklisted"))%bool eqn:Hc.
    + apply andb_true_iff in Hc as [Hge Hs]. apply Z.leb_le in Hge.
      eapply (well_formed_update (fun v => with_status "Blacklisted" (bump r v)) i w);
        [intros; apply bump_id | | | exact Hm | | exact Hwf].
      * rewrite Hdb. cbn [volunteers Sql.insert_blacklist].
        apply update_twice, bump_id.
      * rewrite Hdb. reflexivity.
      * intros v Hv Hrow. destruct (Z.eqb_spec (v_id v) i) as [E|E]; [|exact Hrow].
        rewrite (select_unique i (db w) v0 v Hnd Hv0 Hv E).
        unfold row_ok. cbn [v_status with_status v_id].
        split; [intros _; left|reflexivity].
        change (total_violations_of (with_status "Blacklisted" (bump r v0)))
          with (total_violations_of (bump r v0)).
        rewrite bump_total. exact Hge.
    + eapply (well_formed_update (bump r) i w);
        [apply bump_id | rewrite Hdb; reflexivity | rewrite Hdb; reflexivity
        | exact Hm | | exact Hwf].
      intros v Hv Hrow. destruct (Z.eqb_spec (v_id v) i) as [E|E]; [|exact Hrow].
      pose proof (select_unique i (db w) v0 v Hnd Hv0 Hv E) as ->.
      unfold row_ok in *. rewrite bump_status, bump_total, bump_id.
      apply andb_false_iff in Hc as [Hc|Hc].
      * apply Z.leb_gt in Hc. split.
        -- intros Hs. apply Hrow in Hs as [Hs|Hs]; [lia | right; exact Hs].
        -- intros [Hs|Hs]; [lia|]. apply Hrow. right. exact Hs.
      * apply negb_false_iff, String.eqb_eq in Hc. split; [|intros _; exact Hc].
        intros Hs. apply Hrow in Hs as [Hs|Hs]; [left; lia | right; exact Hs].
  - eapply (well_formed_update (bump r) i w);
      [apply bump_id | rewrite Hdb; reflexivity | rewrite Hdb; reflexivity
      | exact Hm | | exact Hwf].
    intros v Hv Hrow. pose proof (select_None_not_in i (db w) v Hv0 Hv) as Hne.
    destruct (Z.eqb_spec (v_id v) i); [contradiction | exact Hrow].
Qed.

Lemma well_formed_manual (i : Z) (reason : string) (w : World) (m : gset Z) :
  well_formed (w, m) -> well_formed (run_op (OpManualBlacklist i reason) (w, m)).
Proof.
  intros Hwf. pose proof Hwf as (Hlt & Hm & Hnd & Hok). cbn [fst snd] in *.
  cbn [run_op]. pose proof (add_direct_blacklist_db i reason w) as Hdb.
  destruct (Sql.select_volunteer i (db w)) as [v0|] eqn:Hv0.
  - apply select_Some_in in Hv0 as [Hin0 Hid0].
    eapply (well_formed_update (with_status "Blacklisted") i w);
      [reflexivity | rewrite Hdb; reflexivity | rewrite Hdb; reflexivity | | | exact Hwf].
    + intros j Hj. apply elem_of_union in Hj as [Hj|Hj]; [|apply Hm, Hj].
      apply elem_of_singleton in Hj. subst j. rewrite <- Hid0.
      exact (proj1 (Forall_forall _ _) Hlt v0 Hin0).
    + intros v Hv Hrow. unfold row_ok in *.
      destruct (Z.eqb_spec (v_id v) i) as [E|E].
      * cbn [v_status with_status v_id]. split; [intros _; right|reflexivity].
        apply elem_of_union. left. apply elem_of_singleton, E.
      * rewrite Hrow. split; intros [Hs|Hs]; auto.
        -- right. apply elem_of_union. right. exact Hs.
        -- apply elem_of_union in Hs as [Hs|Hs]; [|right; exact Hs].
           apply elem_of_singleton in Hs. contradiction.
  - unfold well_formed. cbn [fst snd]. rewrite Hdb. repeat split; assumption.
Qed.

Lemma well_formed_add (n c : string) (w : World) (m : gset Z) :
  well_formed (w, m) -> well_formed (exec (add_volunteer n c) w, m).
Proof.
  intros Hwf. pose proof Hwf as (Hlt & Hm & Hnd & Hok). cbn [fst snd] in *.
  run_m. destruct (Sql.select_by_name_contacts n c (db w)); [exact Hwf|].
  unfold well_formed. cbn [fst snd db Sql.insert_volunteer volunteers volunteers_id_seq].
  split; [|split; [|split]].
  - apply Forall_app. split.
    + eapply Forall_impl; [exact Hlt|]. cbn. intros; lia.
    + apply Forall_singleton. cbn. lia.
  - intros i Hi. apply Hm in Hi. lia.
  - rewrite map_app. cbn [map v_id]. apply NoDup_app. split; [exact Hnd|]. split.
    + intros x Hx Hx'. apply list_elem_of_singleton in Hx'. subst x.
      apply list_elem_of_In, in_map_iff in Hx as (v & Hid & Hv).
      apply list_elem_of_In in Hv.
      pose proof (proj1 (Forall_forall _ _) Hlt v Hv) as Hv'. cbn in Hv'. lia.
    + apply NoDup_singleton.
  - apply Forall_app. split; [exact Hok|]. apply Forall_singleton.
    unfold row_ok, total_violations_of. cbn [v_status v_id v_lateness_count v_warnings_count].
    split; [discriminate|]. intros [Hs|Hs]; [lia|]. apply Hm in Hs. lia.
Qed.

Lemma well_formed_edit (i : Z) (f value : string) (w : World) (m : gset Z) :
  offered_field f ->
  well_formed (w, m) -> well_formed (exec (execute_text (Sql.edit_query f) value i) w, m).
Proof.
  intros Hoff Hwf. pose proof Hwf as (Hlt & Hm & Hnd & Hok). cbn [fst snd] in *.
  destruct Hoff as [-> | ->].
  - eapply (well_formed_update (with_full_name value) i w);
      [reflexivity | rewrite execute_text_db; reflexivity
      | rewrite execute_text_db; reflexivity | exact Hm | | exact Hwf].
    intros v Hv Hrow. destruct (v_id v =? i); exact Hrow.
  - eapply (well_formed_update (with_contacts value) i w);
      [reflexivity | rewrite execute_text_db; reflexivity
      | rewrite execute_text_db; reflexivity | exact Hm | | exact Hwf].
    intros v Hv Hrow. destruct (v_id v =? i); exact Hrow.
Qed.

Lemma well_formed_delete (i : Z) (w : World) (m : gset Z) :
  well_formed (w, m) -> well_formed (exec (delete_by_id (Some i)) w, m).
Proof.
  intros (Hlt & Hm & Hnd & Hok). cbn [fst snd] in *.
  unfold well_formed. cbn [fst snd]. rewrite delete_by_id_db.
  cbn [fst snd db Sql.delete_volunteer set_volunteers volunteers volunteers_id_seq].
  assert (Hsub : forall (P : Volunteer -> Prop), Forall P (volunteers (db w)) ->
            Forall P (List.filter (fun v => negb (v_id v =? i)) (volunteers (db w)))).
  { intros P HP. apply Forall_forall. intros x Hx.
    apply list_elem_of_In, filter_In in Hx as [Hx _].
    apply (proj1 (Forall_forall _ _) HP), list_elem_of_In, Hx. }
  split; [apply Hsub, Hlt|]. split; [exact Hm|]. split; [|apply Hsub, Hok].
  clear - Hnd. induction (volunteers (db w)) as [|a l IH]; [exact Hnd|].
  cbn [map] in Hnd. apply NoDup_cons in Hnd as [Ha Hl].
  cbn [List.filter]. destruct (negb (v_id a =? i)); [|apply IH, Hl].
  cbn [map]. apply NoDup_cons. split; [|apply IH, Hl].
  intros Hin. apply Ha.
  apply list_elem_of_In, in_map_iff in Hin as (v & Hid & Hv).
  apply filter_In in Hv as [Hv _].
  apply list_elem_of_In, in_map_iff. exists v. auto.
Qed.

Lemma well_formed_op (o : Op) (s : World * gset Z) :
  offered_op o -> well_formed s -> well_formed (run_op o s).
Proof.
  destruct s as [w m]. destruct o; intros Hoff Hwf.
  - apply well_formed_add, Hwf.
  - apply (well_formed_record volunteer_id Lateness), Hwf.
  - apply (well_formed_record volunteer_id Warning), Hwf.
  - apply well_formed_manual, Hwf.
  - apply well_formed_edit; [exact Hoff | exact Hwf].
  - apply well_formed_delete, Hwf.
Qed.

(** X21. From the empty database, every sequence of the core operations
    (add, lateness, warning, manual blacklisting, edit, delete) whose edits
    name a field of the edit keyboard, full_name or contacts, reaches a state
    in which each volunteer is Blacklisted exactly when it has three
    violations or more or was blacklisted by hand. *)
Lemma invariant_with_offered_fields (ops : list Op) :
  Forall offered_op ops -> blacklist_invariant (run_ops ops (new_world, ∅)).
Proof.
  intros Hoff.
  assert (Hwf : well_formed (run_ops ops (new_world, ∅))).
  { assert (H0 : well_formed (new_world, ∅)).
    { unfold well_formed. cbn. repeat split; try constructor. intros i Hi.
      apply elem_of_empty in Hi. contradiction. }
    revert H0. generalize (new_world, (∅ : gset Z)).
    induction Hoff as [|o ops Ho _ IH]; intros s Hs; [exact Hs|].
    cbn [run_ops fold_left]. apply IH, well_formed_op; assumption. }
  destruct Hwf as (_ & _ & _ & Hok). intros v Hv.
  apply list_elem_of_In in Hv. exact (proj1 (Forall_forall _ _) Hok v Hv).
Qed.

End Preservation.

(** C1, at the failing input. Ann is added and blacklisted by hand; the edit
    flow is then completed with the field "status", which the callback
    accepts although the edit keyboard does not offer it, and the value
    "Active". Ann's row is Active with a manual blacklisting on record: the
    invariant does not hold in the state reached. The same database is
    reached by the events of a principal. *)
Theorem invariant_broken_by_status_edit `{Postgres} :
  let ops := [OpAdd "Ann" "+1"; OpManualBlacklist 1 "policy violation";
              OpEdit 1 "status" "Active"] in
  let s := run_ops ops (new_world, ∅) in
  volunteers (db (fst s)) = [mkVolunteer 1 "Ann" "+1" "Active" 0 0]
  /\ 1 ∈ snd s
  /\ ~ blacklist_invariant s
  /\ db (feed [Callback "menu_add_volunteer"; Text "Ann"; Text "+1";
               Callback "menu_blacklist_direct"; Text "1"; Text "policy violation";
               Callback "menu_edit_volunteer"; Text "1";
               Callback "edit_field_status"; Text "Active"] new_world)
     = db (fst s).
Proof.
  intros ops s.
  assert (Hv : volunteers (db (fst s)) = [mkVolunteer 1 "Ann" "+1" "Active" 0 0])
    by reflexivity.
  assert (Hm : 1 ∈ snd s).
  { change (snd s) with ({[ 1 ]} ∪ (∅ : gset Z)). apply elem_of_union. left.
    apply elem_of_singleton. reflexivity. }
  split; [exact Hv|]. split; [exact Hm|]. split; [|reflexivity].
  intros Hinv. specialize (Hinv (mkVolunteer 1 "Ann" "+1" "Active" 0 0)).
  rewrite Hv in Hinv. specialize (Hinv (or_introl eq_refl)).
  cbn [v_status v_id] in Hinv.
  assert (Hs : "Active" = "Blacklisted") by (apply Hinv; right; exact Hm).
  discriminate Hs.
Qed.

(** * Further properties of the ledger *)

(** ** Adding a volunteer *)

Lemma find_app_last {A} (f : A -> bool) (l : list A) (x : A) :
  f x = true -> exists y, find f (l ++ [x])%list = Some y.
Proof.
  intros Hx. induction l as [|a l IH]; cbn [app find].
  - rewrite Hx. eauto.
  - destruct (f a); eauto.
Qed.

Lemma find_app_found {A} (f : A -> bool) (l k : list A) (y : A) :
  find f l = Some y -> find f (l ++ k)%list = Some y.
Proof.
  induction l as [|a l IH]; cbn [app find]; [discriminate|].
  destruct (f a); auto.
Qed.

Lemma find_app_fresh {A} (f : A -> bool) (l : list A) (x : A) :
  (forall a, In a l -> f a = false) -> f x = true -> find f (l ++ [x])%list = Some x.
Proof.
  intros Hl Hx. induction l as [|a l IH]; cbn [app find].
  - rewrite Hx. reflexivity.
  - rewrite (Hl a (or_introl eq_refl)). apply IH. intros b Hb. apply Hl. right. exact Hb.
Qed.

(** X1. [add_volunteer] with a (full_name, contacts) pair that no row has
    appends one row, with the next id of the sequence, status Active and both
    counters 0, and advances the sequence; with a pair that a row has it
    raises ValueError and changes nothing. In both cases a second call with
    the same pair raises ValueError and changes nothing. *)
Theorem add_volunteer_once (w : World) (full_name contacts : string) :
  let w1 := exec (add_volunteer full_name contacts) w in
  (Sql.select_by_name_contacts full_name contacts (db w) = None ->
     db w1 = mkDB (volunteers (db w)
                   ++ [mkVolunteer (volunteers_id_seq (db w)) full_name contacts "Active" 0 0])%list
                  (blacklist (db w)) (volunteers_id_seq (db w) + 1) (blacklist_id_seq (db w)))
  /\ (Sql.select_by_name_contacts full_name contacts (db w) <> None ->
      add_volunteer full_name contacts w
      = (inl (ValueError "Такой волонтёр уже существует!"), w))
  /\ add_volunteer full_name contacts w1
     = (inl (ValueError "Такой волонтёр уже существует!"), w1).
Proof.
  intros w1. subst w1. run_m.
  destruct (Sql.select_by_name_contacts full_name contacts (db w)) as [v|] eqn:E.
  - split; [discriminate|]. split; [reflexivity|]. cbn [snd]. rewrite E. reflexivity.
  - split; [reflexivity|]. split; [intros Hne; contradiction|]. cbn [snd db].
    unfold Sql.select_by_name_contacts, Sql.insert_volunteer. cbn [volunteers].
    destruct (find_app_last
                (fun v => String.eqb (v_full_name v) full_name
                          && String.eqb (v_contacts v) contacts)%bool
                (volunteers (db w))
                (mkVolunteer (volunteers_id_seq (db w)) full_name contacts "Active" 0 0))
      as [y Hy].
    + cbn. rewrite !String.eqb_refl. reflexivity.
    + rewrite Hy. reflexivity.
Qed.

Lemma add_volunteer_once_witness :
  Sql.select_by_name_contacts "Bob" "+2" (db (ann_world 0 "Active")) = None
  /\ Sql.select_by_name_contacts "Ann" "+1" (db (ann_world 0 "Active")) <> None
  /\ volunteers (db (exec (add_volunteer "Bob" "+2") (ann_world 0 "Active")))
     = [mkVolunteer 1 "Ann" "+1" "Active" 0 0; mkVolunteer 2 "Bob" "+2" "Active" 0 0]
  /\ add_volunteer "Ann" "+1" (ann_world 0 "Active")
     = (inl (ValueError "Такой волонтёр уже существует!"), ann_world 0 "Active").
Proof.
  assert (Hann : Sql.select_by_name_contacts "Ann" "+1" (db (ann_world 0 "Active")) <> None)
    by discriminate.
  split; [reflexivity|]. split; [exact Hann|]. split.
  - exact (f_equal volunteers
             (proj1 (add_volunteer_once (ann_world 0 "Active") "Bob" "+2") eq_refl)).
  - exact (proj1 (proj2 (add_volunteer_once (ann_world 0 "Active") "Ann" "+1")) Hann).
Defined.

(** X2. Insert, then look up. When the ids in use are below the next value
    of the sequence, the volunteer that [add_volunteer] inserts is found
    under its new id, and every volunteer found before is found as before. *)
Theorem add_volunteer_lookup (w : World) (full_name contacts : string) :
  Forall (fun v => v_id v < volunteers_id_seq (db w)) (volunteers (db w)) ->
  Sql.select_by_name_contacts full_name contacts (db w) = None ->
  let w1 := exec (add_volunteer full_name contacts) w in
  Sql.select_volunteer (volunteers_id_seq (db w)) (db w1)
  = Some (mkVolunteer (volunteers_id_seq (db w)) full_name contacts "Active" 0 0)
  /\ (forall j v, Sql.select_volunteer j (db w) = Some v ->
        Sql.select_volunteer j (db w1) = Some v).
Proof.
  intros Hlt Hnew w1. subst w1. run_m. rewrite Hnew. cbn [snd db].
  unfold Sql.select_volunteer, Sql.insert_volunteer. cbn [volunteers]. split.
  - apply find_app_fresh; [|cbn; apply Z.eqb_refl].
    intros a Ha. apply list_elem_of_In in Ha.
    pose proof (proj1 (Forall_forall _ _) Hlt a Ha) as Hlt'. cbn in Hlt'.
    apply Z.eqb_neq. lia.
  - intros j v Hv. apply find_app_found, Hv.
Qed.

Lemma add_volunteer_lookup_witness :
  Forall (fun v => v_id v < volunteers_id_seq (db (ann_world 0 "Active")))
         (volunteers (db (ann_world 0 "Active")))
  /\ Sql.select_by_name_contacts "Bob" "+2" (db (ann_world 0 "Active")) = None
  /\ Sql.select_volunteer 2 (db (exec (add_volunteer "Bob" "+2") (ann_world 0 "Active")))
     = Some (mkVolunteer 2 "Bob" "+2" "Active" 0 0).
Proof.
  assert (H : Forall (fun v => v_id v < volunteers_id_seq (db (ann_world 0 "Active")))
                     (volunteers (db (ann_world 0 "Active"))))
    by (repeat constructor).
  split; [exact H|]. split; [reflexivity|].
  exact (proj1 (add_volunteer_lookup (ann_world 0 "Active") "Bob" "+2" H eq_refl)).
Defined.

(** ** Recordings: unknown ids, other volunteers, the threshold *)

(** X3. A lateness or a warning recorded against an id that no volunteer
    has. For an id within the range of int4, nothing changes in the database
    or in the FSM context and the only effect is the answer "not found". For
    an id outside that range, the UPDATE raises DataError: nothing changes
    and nothing is answered. *)
Theorem record_unknown_id (w : World) (volunteer_id : Z) (r : Recording) :
  Sql.select_volunteer volunteer_id (db w) = None ->
  (in_int4 volunteer_id = true ->
   record volunteer_id r w
   = (inr tt, mkWorld (db w) (fsm w) (sent w ++ [Answer "❌ Волонтёр не найден" None])%list))
  /\ (in_int4 volunteer_id = false ->
      record volunteer_id r w = (inl DataError, w)).
Proof.
  intros Hn. pose proof (absent_encodes _ _ Hn) as Hb.
  split; intros Hr; rewrite Hr in Hb; destruct r; cbn [record]; run_m; rewrite Hb;
    try reflexivity;
    do 3 (step_m; rewrite ?update_absent by exact Hn; rewrite ?Hb, ?Hn); reflexivity.
Qed.

Lemma record_unknown_id_witness :
  Sql.select_volunteer 7 (db (ann_world 2 "Active")) = None
  /\ in_int4 7 = true
  /\ Sql.select_volunteer 99999999999 (db (ann_world 2 "Active")) = None
  /\ in_int4 99999999999 = false
  /\ map in_int4 [-2147483649; -2147483648; 2147483647; 2147483648] = [false; true; true; false]
  /\ add_lateness 7 (ann_world 2 "Active")
     = (inr tt, mkWorld (db (ann_world 2 "Active")) (mkFSM None no_data)
                  [Answer "❌ Волонтёр не найден" None])
  /\ add_warning 99999999999 (ann_world 2 "Active")
     = (inl DataError, ann_world 2 "Active").
Proof.
  split; [reflexivity|]. split; [reflexivity|]. split; [reflexivity|]. split; [reflexivity|].
  split; [reflexivity|]. split.
  - exact (proj1 (record_unknown_id (ann_world 2 "Active") 7 Lateness eq_refl) eq_refl).
  - exact (proj2 (record_unknown_id (ann_world 2 "Active") 99999999999 Warning eq_refl) eq_refl).
Defined.

Lemma promote_if_due_select_other (i j : Z) (d : DB) :
  i <> j -> Sql.select_volunteer j (promote_if_due i d) = Sql.select_volunteer j d.
Proof.
  intros Hne. unfold promote_if_due.
  destruct (Sql.select_volunteer i d) as [row|]; [|reflexivity].
  destruct ((3 <=? _) && _)%bool; [|reflexivity].
  rewrite select_insert_blacklist. apply select_update_other; [reflexivity | exact Hne].
Qed.

Lemma record_select (i : Z) (r : Recording) (w : World) (v : Volunteer) :
  Sql.select_volunteer i (db w) = Some v ->
  Sql.select_volunteer i (db (exec (record i r) w)) = Some (recorded r v).
Proof.
  intros Hv. rewrite record_db.
  pose proof (select_update (bump r) i (db w) (bump_id r)) as Hsel.
  rewrite Hv in Hsel. cbn [fmap option_fmap option_map] in Hsel.
  unfold promote_if_due, recorded. rewrite Hsel.
  fold (total_violations_of (bump r v)).
  destruct ((3 <=? total_violations_of (bump r v))
            && negb (String.eqb (v_status (bump r v)) "Blacklisted"))%bool.
  - rewrite select_insert_blacklist, select_update by reflexivity.
    rewrite Hsel. reflexivity.
  - exact Hsel.
Qed.

Lemma record_volunteers (i : Z) (r : Recording) (w : World) :
  exists g : Volunteer -> Volunteer,
    volunteers (db (exec (record i r) w)) = map g (volunteers (db w))
    /\ forall v, v_id (g v) = v_id v /\ v_full_name (g v) = v_full_name v
                 /\ v_contacts (g v) = v_contacts v
                 /\ (v_status v = "Blacklisted" -> v_status (g v) = "Blacklisted")
                 /\ v_lateness_count v <= v_lateness_count (g v)
                 /\ v_warnings_count v <= v_warnings_count (g v).
Proof.
  rewrite record_db. unfold promote_if_due.
  set (d1 := Sql.update_where_id (bump r) i (db w)).
  assert (H1 : forall v, v_id (bump r v) = v_id v /\ v_full_name (bump r v) = v_full_name v
                 /\ v_contacts (bump r v) = v_contacts v
                 /\ (v_status v = "Blacklisted" -> v_status (bump r v) = "Blacklisted")
                 /\ v_lateness_count v <= v_lateness_count (bump r v)
                 /\ v_warnings_count v <= v_warnings_count (bump r v)).
  { intros v. destruct r; cbn; repeat split; auto; lia. }
  destruct (Sql.select_volunteer i d1) as [row|].
  - destruct ((3 <=? _) && _)%bool.
    + exists (fun v => if v_id v =? i then with_status "Blacklisted" (bump r v) else v). split.
      * cbn [volunteers Sql.insert_blacklist]. subst d1.
        rewrite update_twice by apply bump_id. reflexivity.
      * intros v. destruct (v_id v =? i); [|repeat split; auto; lia].
        destruct (H1 v) as (? & ? & ? & ? & ? & ?). cbn. repeat split; auto.
    + exists (fun v => if v_id v =? i then bump r v else v). split; [reflexivity|].
      intros v. destruct (v_id v =? i); [apply H1 | repeat split; auto; lia].
  - exists (fun v => if v_id v =? i then bump r v else v). split; [reflexivity|].
    intros v. destruct (v_id v =? i); [apply H1 | repeat split; auto; lia].
Qed.

(** X4. A recording against one volunteer leaves the others alone: every
    volunteer with another id is found exactly as before. Over the whole
    table, row by row, the id, full_name and contacts stay, no counter goes
    down, and no status leaves Blacklisted; no row is added or removed and the
    id sequence does not move. *)
Theorem record_frame (w : World) (volunteer_id : Z) (r : Recording) :
  let w' := exec (record volunteer_id r) w in
  (forall j, j <> volunteer_id ->
     Sql.select_volunteer j (db w') = Sql.select_volunteer j (db w))
  /\ map v_id (volunteers (db w')) = map v_id (volunteers (db w))
  /\ map v_full_name (volunteers (db w')) = map v_full_name (volunteers (db w))
  /\ map v_contacts (volunteers (db w')) = map v_contacts (volunteers (db w))
  /\ Forall2 (fun v v' => (v_status v = "Blacklisted" -> v_status v' = "Blacklisted")
                          /\ v_lateness_count v <= v_lateness_count v'
                          /\ v_warnings_count v <= v_warnings_count v')
             (volunteers (db w)) (volunteers (db w'))
  /\ volunteers_id_seq (db w') = volunteers_id_seq (db w).
Proof.
  intros w'. subst w'. split.
  { intros j Hj. rewrite record_db, promote_if_due_select_other by congruence.
    apply select_update_other; [apply bump_id | congruence]. }
  destruct (record_volunteers volunteer_id r w) as (g & Hg & Hprop). rewrite Hg.
  split; [rewrite map_map; apply map_ext; intros; apply Hprop|].
  split; [rewrite map_map; apply map_ext; intros; apply Hprop|].
  split; [rewrite map_map; apply map_ext; intros; apply Hprop|].
  split.
  - clear Hg. induction (volunteers (db w)) as [|a l IH]; cbn [map]; [constructor|].
    constructor; [|exact IH].
    destruct (Hprop a) as (_ & _ & _ & ? & ? & ?). auto.
  - rewrite record_db. unfold promote_if_due.
    destruct (Sql.select_volunteer _ _); [|reflexivity].
    destruct ((3 <=? _) && _)%bool; reflexivity.
Qed.

Lemma recorded_id (r : Recording) (v : Volunteer) : v_id (recorded r v) = v_id v.
Proof.
  unfold recorded. destruct ((3 <=? _) && _)%bool; cbn [with_status v_id]; apply bump_id.
Qed.

(** The row after a run of recordings, read off [recorded] step by step. *)
Lemma record_all_select (i : Z) (rs : list Recording) (w : World) (v : Volunteer) :
  Sql.select_volunteer i (db w) = Some v ->
  Sql.select_volunteer i (db (record_all i rs w)) = Some (fold_left (fun v r => recorded r v) rs v).
Proof.
  revert w v. induction rs as [|r rs IH]; intros w v Hv; [exact Hv|].
  cbn [record_all fold_left]. apply IH, record_select, Hv.
Qed.

Lemma recorded_run (rs : list Recording) (v : Volunteer) :
  fold_left (fun v r => recorded r v) rs v
  = mkVolunteer (v_id v) (v_full_name v) (v_contacts v)
      (if String.eqb (v_status v) "Blacklisted" then v_status v
       else match rs with
            | [] => v_status v
            | _ => if 3 <=? total_violations_of v + Z.of_nat (length rs)
                   then "Blacklisted" else v_status v
            end)
      (v_lateness_count v + latenesses rs) (v_warnings_count v + warnings rs).
Proof.
  revert v. induction rs as [|r rs IH]; intros v.
  - cbn [fold_left]. unfold latenesses, warnings. cbn [List.filter length Z.of_nat].
    rewrite !Z.add_0_r. destruct (String.eqb _ _); destruct v; reflexivity.
  - cbn [fold_left]. rewrite IH. clear IH.
    assert (Hl : v_lateness_count (recorded r v) + latenesses rs
                 = v_lateness_count v + latenesses (r :: rs)).
    { unfold recorded, latenesses. destruct ((3 <=? _) && _)%bool; destruct r;
        cbn [bump with_status incr_lateness incr_warnings v_lateness_count List.filter length];
        lia. }
    assert (Hw : v_warnings_count (recorded r v) + warnings rs
                 = v_warnings_count v + warnings (r :: rs)).
    { unfold recorded, warnings. destruct ((3 <=? _) && _)%bool; destruct r;
        cbn [bump with_status incr_lateness incr_warnings v_warnings_count List.filter length];
        lia. }
    rewrite Hl, Hw.
    assert (Hn : v_full_name (recorded r v) = v_full_name v
                 /\ v_contacts (recorded r v) = v_contacts v).
    { unfold recorded. destruct ((3 <=? _) && _)%bool; destruct r; split; reflexivity. }
    destruct Hn as [-> ->]. rewrite recorded_id. f_equal.
    assert (Ht : total_violations_of (recorded r v) = total_violations_of v + 1).
    { unfold recorded. destruct ((3 <=? _) && _)%bool;
        [change (total_violations_of (with_status "Blacklisted" (bump r v)))
           with (total_violations_of (bump r v))|]; apply bump_total. }
    rewrite Ht. unfold recorded. rewrite bump_total, bump_status.
    cbn [length]. rewrite Nat2Z.inj_succ.
    destruct (String.eqb_spec (v_status v) "Blacklisted") as [Hs|Hs].
    + rewrite andb_false_r, bump_status.
      destruct (String.eqb_spec (v_status v) "Blacklisted"); [reflexivity | contradiction].
    + rewrite andb_true_r.
      destruct (Z.leb_spec 3 (total_violations_of v + 1)) as [Hge|Hlt].
      * change (v_status (with_status "Blacklisted" (bump r v))) with "Blacklisted".
        change (String.eqb "Blacklisted" "Blacklisted") with true. cbv iota.
        destruct (Z.leb_spec 3 (total_violations_of v + Z.succ (Z.of_nat (length rs))));
          [reflexivity | lia].
      * rewrite bump_status.
        destruct (String.eqb_spec (v_status v) "Blacklisted"); [contradiction|].
        destruct rs as [|r' rs'].
        -- cbn [length]. change (Z.of_nat 0) with 0.
           destruct (Z.leb_spec 3 (total_violations_of v + Z.succ 0)); [lia | reflexivity].
        -- replace (total_violations_of v + 1 + Z.of_nat (length (r' :: rs')))
             with (total_violations_of v + Z.succ (Z.of_nat (length (r' :: rs')))) by lia.
           reflexivity.
Qed.

(** X5. The threshold over a run of recordings. After any run of lateness
    and warning recordings against an existing volunteer, its lateness count
    has grown by the number of latenesses and its warning count by the number
    of warnings, id, full_name and contacts are as before, and a status other
    than Blacklisted has become Blacklisted exactly when the run is not empty
    and the total has reached 3. *)
Theorem recordings_threshold (w : World) (volunteer_id : Z) (rs : list Recording) (v : Volunteer) :
  Sql.select_volunteer volunteer_id (db w) = Some v ->
  v_status v <> "Blacklisted" ->
  exists v',
    Sql.select_volunteer volunteer_id (db (record_all volunteer_id rs w)) = Some v'
    /\ v_id v' = v_id v /\ v_full_name v' = v_full_name v /\ v_contacts v' = v_contacts v
    /\ v_lateness_count v' = v_lateness_count v + latenesses rs
    /\ v_warnings_count v' = v_warnings_count v + warnings rs
    /\ (v_status v' = "Blacklisted"
        <-> rs <> [] /\ 3 <= total_violations_of v + Z.of_nat (length rs))
    /\ (v_status v' <> "Blacklisted" -> v_status v' = v_status v).
Proof.
  intros Hv Hs. eexists. split; [apply record_all_select, Hv|].
  rewrite recorded_run. cbn [v_id v_full_name v_contacts v_lateness_count v_warnings_count v_status].
  repeat (split; [reflexivity|]).
  destruct (String.eqb_spec (v_status v) "Blacklisted") as [E|_]; [contradiction|].
  destruct rs as [|r rs'].
  - split; [|reflexivity]. split; [contradiction | intros [H _]; contradiction].
  - destruct (Z.leb_spec 3 (total_violations_of v + Z.of_nat (length (r :: rs')))) as [Hge|Hlt].
    + split; [|intros Hn; contradiction]. split; [intros _; split; [discriminate | exact Hge]
                                                  | reflexivity].
    + split; [|reflexivity]. split; [contradiction | intros [_ Hge]; lia].
Qed.

Lemma recordings_threshold_witness :
  Sql.select_volunteer 1 (db (ann_world 1 "Active")) = Some (mkVolunteer 1 "Ann" "+1" "Active" 1 0)
  /\ "Active" <> "Blacklisted"
  /\ exists v',
       Sql.select_volunteer 1 (db (record_all 1 [Warning; Lateness] (ann_world 1 "Active")))
       = Some v'
       /\ v_lateness_count v' = 1 + 1 /\ v_warnings_count v' = 0 + 1
       /\ v_status v' = "Blacklisted".
Proof.
  assert (Hs : "Active" <> "Blacklisted") by discriminate.
  split; [reflexivity|]. split; [exact Hs|].
  destruct (recordings_threshold (ann_world 1 "Active") 1 [Warning; Lateness] _ eq_refl Hs)
    as (v' & Hv' & _ & _ & _ & Hl & Hw & Hbl & _).
  exists v'. split; [exact Hv'|]. split; [exact Hl|]. split; [exact Hw|].
  apply Hbl. split; [discriminate | apply Z.leb_le; reflexivity].
Defined.

(** * Further properties of the handlers *)

(** ** What the list handlers leave alone *)

Lemma format_rows_world (prefix : string) (rows : list Row) (body : string) (w : World) :
  snd (format_rows prefix rows body w) = w.
Proof.
  revert body. induction rows as [|r rows IH]; intros body; [reflexivity|].
  cbn [format_rows]. unfold mbind, M_bind.
  assert (Hr : snd (format_row prefix r w) = w).
  { unfold format_row. destruct (String.eqb prefix "volunteers");
      [destruct r; reflexivity|].
    destruct (String.eqb prefix "blacklist"); [destruct r; reflexivity | reflexivity]. }
  destruct (format_row prefix r w) as [[e|line] w1]; cbn [snd] in Hr; subst w1;
    [reflexivity | apply IH].
Qed.

Lemma show_records_frame (rows : list Row) (page : Z) (prefix title : string) (w : World) :
  db (exec (show_records rows page prefix title) w) = db w
  /\ fsm (exec (show_records rows page prefix title) w) = fsm w.
Proof.
  unfold show_records, exec. destruct rows as [|r0 rows0]; [split; reflexivity|].
  unfold mbind, M_bind.
  pose proof (format_rows_world prefix
                (py_slice (r0 :: rows0) (page * PAGE_SIZE) (page * PAGE_SIZE + PAGE_SIZE))
                (title +:+ ":
") w) as Hw.
  destruct (format_rows _ _ _ w) as [[e|body] w1]; cbn [snd] in *; subst w1;
    [split; reflexivity|].
  rewrite pagination_markup_raises. split; reflexivity.
Qed.

(** What a recording returns. When the id cannot be bound, the call raises
    DataError with the world as it was. Otherwise it returns after one
    answer, which is "not found" when no volunteer has the id. *)
Lemma record_outcome (i : Z) (r : Recording) (w : World) :
  (encodes_int4 i (db w) = false /\ record i r w = (inl DataError, w))
  \/ (encodes_int4 i (db w) = true
      /\ exists body,
           record i r w
           = (inr tt, mkWorld (db (exec (record i r) w)) (fsm w)
                        (sent w ++ [Answer body None])%list)
           /\ (Sql.select_volunteer i (db w) = None -> body = "❌ Волонтёр не найден")).
Proof.
  destruct (encodes_int4 i (db w)) eqn:Hb; [right | left]; (split; [reflexivity|]).
  - assert (Hgen : forall f, (forall v, v_id (f v) = v_id v) ->
              exists body,
                (execute_by_id i (Sql.update_where_id f i) ;; check_and_blacklist i) w
                = (inr tt,
                   mkWorld (db (exec (execute_by_id i (Sql.update_where_id f i) ;;
                                      check_and_blacklist i) w))
                           (fsm w) (sent w ++ [Answer body None])%list)
                /\ (Sql.select_volunteer i (db w) = None -> body = "❌ Волонтёр не найден")).
    { intros f Hf. unfold exec. rewrite execute_by_id_then, Hb.
      unfold check_and_blacklist. run_m. rewrite encodes_update, Hb by exact Hf. step_m.
      rewrite (select_update f i (db w) Hf).
      destruct (Sql.select_volunteer i (db w)) as [v|]; cbn [fmap option_fmap option_map].
      - destruct ((3 <=? _) && _)%bool; step_m.
        + rewrite encodes_update, Hb by exact Hf. step_m.
          eexists. split; [reflexivity | discriminate].
        + eexists. split; [reflexivity | discriminate].
      - eexists. split; [reflexivity | reflexivity]. }
    destruct r; cbn [record]; [apply (Hgen incr_lateness) | apply (Hgen incr_warnings)];
      reflexivity.
  - destruct r; cbn [record]; run_m; rewrite Hb; reflexivity.
Qed.

(** X6. In the lateness flow and in the warning flow every text ends the
    flow: the context is cleared and the last message is the main menu. A
    text that [int] rejects is answered with the request for a number and
    changes nothing in the database. A text that [int] reads as an id that
    can be bound (an int4 value) has been recorded against that id, with one
    answer, "not found" when no volunteer has the id; the handler returns. A
    text that [int] reads as an integer outside the range of int4 makes the
    UPDATE raise DataError, which [except ValueError] does not catch: the
    [finally] block still clears the context and shows the menu, nothing is
    recorded, and the handler raises. *)
Theorem recording_flow_always_ends `{Postgres} (w : World) (r : Recording) (t : string) :
  fsm_state (fsm w) = Some (match r with
                            | Lateness => Lateness_waiting_for_id
                            | Warning => Warning_waiting_for_id
                            end) ->
  let menu := Answer "📌 Главное меню:" (Some main_menu) in
  (PyStr.int t = None ->
   handle_messages t w
   = (inr tt, mkWorld (db w) (mkFSM None no_data)
                (sent w ++ [Answer "⚠ Введите число (ID)." None; menu])%list))
  /\ (forall i, PyStr.int t = Some i -> encodes_int4 i (db w) = true ->
        exists body,
          handle_messages t w
          = (inr tt, mkWorld (db (exec (record i r) w)) (mkFSM None no_data)
                       (sent w ++ [Answer body None; menu])%list)
          /\ (Sql.select_volunteer i (db w) = None -> body = "❌ Волонтёр не найден"))
  /\ (forall i, PyStr.int t = Some i -> encodes_int4 i (db w) = false ->
        handle_messages t w
        = (inl DataError,
           mkWorld (db w) (mkFSM None no_data) (sent w ++ [menu])%list)).
Proof.
  intros Hs menu.
  assert (Hflow : handle_messages t w
                  = try_finally
                      (try_except_ValueError
                         (volunteer_id ← py_int t; record volunteer_id r)
                         (fun _ => answer "⚠ Введите число (ID)."))
                      (clear ;; main_menu_prompt) w).
  { unfold handle_messages. unfold mbind at 1. unfold M_bind, get_state. rewrite Hs.
    destruct r; reflexivity. }
  rewrite Hflow. clear Hflow.
  unfold try_finally, try_except_ValueError, py_int.
  split; [|split].
  - intros ->. run_m. rewrite <- app_assoc. reflexivity.
  - intros i -> Hb. unfold mbind at 1. unfold M_bind at 1, mret at 1, M_ret at 1.
    cbv beta iota.
    destruct (record_outcome i r w) as [[Hb' _]|(_ & body & Hrec & Hnone)]; [congruence|].
    exists body. split; [|exact Hnone].
    unfold exec. rewrite Hrec. run_m. rewrite <- app_assoc. reflexivity.
  - intros i -> Hb. unfold mbind at 1. unfold M_bind at 1, mret at 1, M_ret at 1.
    cbv beta iota.
    destruct (record_outcome i r w) as [[_ Hrec]|(Hb' & _)]; [|congruence].
    rewrite Hrec. run_m. reflexivity.
Qed.

Lemma recording_flow_always_ends_witness :
  let w := ann_world_in 2 "Active" (Some Lateness_waiting_for_id) no_data in
  fsm_state (fsm w) = Some Lateness_waiting_for_id
  /\ PyStr.int "abc" = None
  /\ PyStr.int "١" = Some 1
  /\ encodes_int4 1 (db w) = true
  /\ PyStr.int "99999999999" = Some 99999999999
  /\ encodes_int4 99999999999 (db w) = false
  /\ @handle_messages sample_engine "abc" w
     = (inr tt,
        mkWorld (db w) (mkFSM None no_data)
                [Answer "⚠ Введите число (ID)." None;
                 Answer "📌 Главное меню:" (Some main_menu)])
  /\ (exists body,
        @handle_messages sample_engine "١" w
        = (inr tt,
           mkWorld (mkDB [mkVolunteer 1 "Ann" "+1" "Blacklisted" 3 0]
                         [mkBlacklistEntry 1 "Ann" "3 нарушений (опоздания + замечания)"] 2 2)
                   (mkFSM None no_data)
                   [Answer body None; Answer "📌 Главное меню:" (Some main_menu)]))
  /\ @handle_messages sample_engine "99999999999" w
     = (inl DataError,
        mkWorld (db w) (mkFSM None no_data)
                [Answer "📌 Главное меню:" (Some main_menu)]).
Proof.
  intros w.
  pose proof (@recording_flow_always_ends sample_engine w Lateness "abc" eq_refl)
    as (Hnone & _ & _).
  pose proof (@recording_flow_always_ends sample_engine w Lateness "١" eq_refl)
    as (_ & Hin & _).
  pose proof (@recording_flow_always_ends sample_engine w Lateness "99999999999" eq_refl)
    as (_ & _ & Hout).
  split; [reflexivity|]. split; [reflexivity|]. split; [reflexivity|].
  split; [reflexivity|]. split; [reflexivity|]. split; [reflexivity|].
  split; [exact (Hnone eq_refl)|]. split.
  - destruct (Hin 1 eq_refl eq_refl) as (body & Heq & _).
    exists body. rewrite Heq. reflexivity.
  - exact (Hout _ eq_refl eq_refl).
Defined.

Lemma invalid_id_reprompts_in_place_witness :
  let w := ann_world_in 0 "Active" (Some DeleteVolunteer_waiting_for_id)
                        (mkData (Some 1) None None) in
  (fsm_state (fsm w) = Some BlacklistDirect_waiting_for_id
   \/ fsm_state (fsm w) = Some EditVolunteer_waiting_for_id
   \/ fsm_state (fsm w) = Some DeleteVolunteer_waiting_for_id)
  /\ PyStr.int "abc" = None
  /\ PyStr.int "½" = None
  /\ @handle_messages sample_engine "abc" w
     = (inr tt, mkWorld (db w) (fsm w) [Answer "⚠ Введите число (ID)." None])
  /\ @handle_messages sample_engine "½" w
     = (inr tt, mkWorld (db w) (fsm w) [Answer "⚠ Введите число (ID)." None]).
Proof.
  intros w.
  assert (Hs : fsm_state (fsm w) = Some BlacklistDirect_waiting_for_id
               \/ fsm_state (fsm w) = Some EditVolunteer_waiting_for_id
               \/ fsm_state (fsm w) = Some DeleteVolunteer_waiting_for_id)
    by (right; right; reflexivity).
  split; [exact Hs|]. split; [reflexivity|]. split; [reflexivity|]. split.
  - exact (@invalid_id_reprompts_in_place sample_engine w "abc" Hs eq_refl).
  - exact (@invalid_id_reprompts_in_place sample_engine w "½" Hs eq_refl).
Defined.

(** X8. Whatever the token, [callbacks] never touches the blacklist table,
    never changes a row of volunteers and never adds one: the volunteers
    after the callback are the volunteers before it without the rows of one
    id at most, and a token other than "confirm_delete_yes" leaves the
    database as it is. *)
Theorem callbacks_database (w : World) (query_data : string) :
  let w' := exec (feed_callback_query query_data) w in
  blacklist (db w') = blacklist (db w)
  /\ volunteers_id_seq (db w') = volunteers_id_seq (db w)
  /\ (exists i, db w' = Sql.delete_volunteer i (db w))
  /\ (query_data <> "confirm_delete_yes" -> db w' = db w).
Proof.
  intros w'. subst w'.
  destruct (String.eqb_spec query_data "confirm_delete_yes") as [->|Hne].
  { unfold exec. rewrite confirm_delete_yes_result.
    destruct (data_volunteer_id (fsm_data (fsm w))) as [i|];
      [destruct (encodes_int4 i (db w))|]; cbn [snd db];
      (split; [reflexivity|]); (split; [reflexivity|]);
      (split; [|intros Hne; contradiction]);
      first [exists (Some i); reflexivity | exists None; reflexivity]. }
  unfold feed_callback_query, callback_query_handlers, trigger. cbn [filters handler_body].
  unfold callbacks.
  assert (Hshow : forall rows page prefix title w0,
             db (exec (show_records rows page prefix title) w0) = db w0)
    by (intros; apply show_records_frame).
  assert (Hsame : forall w1, db w1 = db w ->
             blacklist (db w1) = blacklist (db w)
             /\ volunteers_id_seq (db w1) = volunteers_id_seq (db w)
             /\ (exists i, db w1 = Sql.delete_volunteer i (db w))
             /\ (query_data <> "confirm_delete_yes" -> db w1 = db w)).
  { intros w1 ->. repeat split; auto. exists None. reflexivity. }
  repeat match goal with
         | |- context [if String.eqb query_data ?s then _ else _] =>
             destruct (String.eqb_spec query_data s)
         end;
    try (apply Hsame; reflexivity);
    try (apply Hsame; unfold exec, mbind, M_bind, get_volunteers, get_blacklist, fetch;
         apply Hshow).
  - contradiction.
  - destruct (PyStr.startswith query_data "edit_field_"); apply Hsame; reflexivity.
Qed.

(** ** Printing and reading integers *)












(** ** Pagination tokens, written and read *)









(** X10. [paginate_records] only reads: whatever the token, the database
    and the FSM context are as before. A token without "_page_" is ignored
    (nothing is sent); a token whose text after "_page_" [int] rejects raises
    ValueError before anything is sent. *)
Theorem paginate_records_reads_only (w : World) (query_data : string) :
  db (exec (paginate_records query_data) w) = db w
  /\ fsm (exec (paginate_records query_data) w) = fsm w
  /\ (PyStr.contains "_page_" query_data = false ->
      paginate_records query_data w = (inr tt, w))
  /\ (PyStr.contains "_page_" query_data = true ->
      PyStr.int (nth 1 (PyStr.split "_page_" query_data) "") = None ->
      exists msg, paginate_records query_data w = (inl (ValueError msg), w)).
Proof.
  unfold paginate_records.
  destruct (PyStr.contains "_page_" query_data); cbn [negb].
  - assert (Hframe : db (exec (page ← py_int (nth 1 (PyStr.split "_page_" query_data) "");
                               if String.eqb (nth 0 (PyStr.split "_page_" query_data) "")
                                             "volunteers"
                               then rows ← get_volunteers;
                                    show_records (map VolunteerRow rows) page "volunteers"
                                                 "Список волонтёров"
                               else if String.eqb (nth 0 (PyStr.split "_page_" query_data) "")
                                                  "blacklist"
                                    then rows ← get_blacklist;
                                         show_records (map BlacklistRow rows) page "blacklist"
                                                      "Черный список"
                                    else mret tt) w) = db w
                     /\ fsm (exec (page ← py_int (nth 1 (PyStr.split "_page_" query_data) "");
                               if String.eqb (nth 0 (PyStr.split "_page_" query_data) "")
                                             "volunteers"
                               then rows ← get_volunteers;
                                    show_records (map VolunteerRow rows) page "volunteers"
                                                 "Список волонтёров"
                               else if String.eqb (nth 0 (PyStr.split "_page_" query_data) "")
                                                  "blacklist"
                                    then rows ← get_blacklist;
                                         show_records (map BlacklistRow rows) page "blacklist"
                                                      "Черный список"
                                    else mret tt) w) = fsm w).
    { unfold exec, py_int, mbind, M_bind.
      destruct (PyStr.int _) as [page|]; [|split; reflexivity].
      unfold mret, M_ret. cbn iota.
      destruct (String.eqb _ "volunteers");
        [apply show_records_frame|].
      destruct (String.eqb _ "blacklist"); [apply show_records_frame | split; reflexivity]. }
    split; [apply Hframe|]. split; [apply Hframe|]. split; [discriminate|].
    intros _ Hint. unfold py_int, mbind, M_bind. rewrite Hint. eexists. reflexivity.
  - split; [reflexivity|]. split; [reflexivity|]. split; [reflexivity | discriminate].
Qed.

Lemma paginate_records_reads_only_witness :
  PyStr.contains "_page_" "menu_back" = false
  /\ paginate_records "menu_back" twelve_world = (inr tt, twelve_world)
  /\ PyStr.contains "_page_" "volunteers_page_two" = true
  /\ PyStr.int (nth 1 (PyStr.split "_page_" "volunteers_page_two") "") = None
  /\ PyStr.int (nth 1 (PyStr.split "_page_" "volunteers_page_١") "") = Some 1
  /\ exists msg, paginate_records "volunteers_page_two" twelve_world
                 = (inl (ValueError msg), twelve_world).
Proof.
  split; [reflexivity|]. split.
  - exact (proj1 (proj2 (proj2 (paginate_records_reads_only twelve_world "menu_back")))
                 eq_refl).
  - split; [reflexivity|]. split; [reflexivity|]. split; [reflexivity|].
    exact (proj2 (proj2 (proj2 (paginate_records_reads_only twelve_world "volunteers_page_two")))
                 eq_refl eq_refl).
Defined.

(** ** The list menus *)

(** X11. The list menus show the empty list only. "menu_volunteers" on a
    table with no volunteer sends the "empty" message with the main menu; on
    a table with a volunteer or more it raises TypeError, in
    [pagination_markup], and nothing is sent or changed. The same holds for
    "menu_blacklist" and the blacklist table. *)
Theorem list_menus_show_the_empty_list_only (w : World) :
  (volunteers (db w) = [] ->
   feed_callback_query "menu_volunteers" w
   = (inr tt, mkWorld (db w) (fsm w)
                (sent w ++ [EditText "Список волонтёров пуст." (Some main_menu)])%list))
  /\ (volunteers (db w) <> [] ->
      feed_callback_query "menu_volunteers" w = (inl TypeError, w))
  /\ (blacklist (db w) = [] ->
      feed_callback_query "menu_blacklist" w
      = (inr tt, mkWorld (db w) (fsm w)
                   (sent w ++ [EditText "Черный список пуст." (Some main_menu)])%list))
  /\ (blacklist (db w) <> [] ->
      feed_callback_query "menu_blacklist" w = (inl TypeError, w)).
Proof.
  assert (Hv : feed_callback_query "menu_volunteers" w
               = show_records (map VolunteerRow (volunteers (db w))) 0 "volunteers"
                              "Список волонтёров" w) by reflexivity.
  assert (Hb : feed_callback_query "menu_blacklist" w
               = show_records (map BlacklistRow (blacklist (db w))) 0 "blacklist"
                              "Черный список" w) by reflexivity.
  rewrite Hv, Hb. clear Hv Hb.
  split; [intros ->; reflexivity|]. split.
  - intros Hne. apply show_records_raises.
    + apply Forall_forall. intros r Hr.
      apply list_elem_of_In, in_map_iff in Hr as (v & <- & _). reflexivity.
    + destruct (volunteers (db w)); [contradiction | discriminate].
  - split; [intros ->; reflexivity|].
    intros Hne. apply show_records_raises.
    + apply Forall_forall. intros r Hr.
      apply list_elem_of_In, in_map_iff in Hr as (v & <- & _). reflexivity.
    + destruct (blacklist (db w)); [contradiction | discriminate].
Qed.

Lemma list_menus_show_the_empty_list_only_witness :
  volunteers (db twelve_world) <> []
  /\ blacklist (db twelve_world) = []
  /\ feed_callback_query "menu_volunteers" twelve_world = (inl TypeError, twelve_world)
  /\ feed_callback_query "menu_blacklist" twelve_world
     = (inr tt, mkWorld (db twelve_world) (fsm twelve_world)
                  [EditText "Черный список пуст." (Some main_menu)]).
Proof.
  assert (Hne : volunteers (db twelve_world) <> []) by discriminate.
  pose proof (list_menus_show_the_empty_list_only twelve_world) as (_ & Hv & Hb & _).
  split; [exact Hne|]. split; [reflexivity|]. split; [exact (Hv Hne) | exact (Hb eq_refl)].
Defined.

(** ** The flows, from the first text to the last *)

Section Flows.

Context `{Postgres}.

Lemma feed_cons (e : Event) (events : list Event) (w : World) :
  feed (e :: events) w = feed events (exec (handle e) w).
Proof. reflexivity. Qed.

(** X12. A session that enters the value step of the edit flow without an
    id is stuck there. The callback "edit_field_..." is accepted in every
    state; when the data holds no [volunteer_id], every text that follows
    raises KeyError and changes nothing, so no sequence of texts leaves the
    state. *)
Theorem edit_without_id_is_stuck (w : World) (s : string) (texts : list string) :
  data_volunteer_id (fsm_data (fsm w)) = None ->
  let w1 := exec (feed_callback_query ("edit_field_" +:+ s)) w in
  fsm_state (fsm w1) = Some EditVolunteer_waiting_for_new_value
  /\ (forall t, handle_messages t w1 = (inl (KeyError "volunteer_id"), w1))
  /\ feed (map Text texts) w1 = w1.
Proof.
  intros Hid w1.
  assert (Hfsm : fsm w1 = mkFSM (Some EditVolunteer_waiting_for_new_value)
                   (field_is (PyStr.remove "edit_field_" ("edit_field_" +:+ s))
                             (fsm_data (fsm w))))
    by apply edit_field_callback_stores.
  assert (Hraise : forall t, handle_messages t w1 = (inl (KeyError "volunteer_id"), w1)).
  { intros t. unfold handle_messages, mbind, M_bind, get_state. rewrite Hfsm.
    cbn [fsm_state]. unfold get_data, getitem. rewrite Hfsm.
    cbn [fsm_data field_is data_volunteer_id]. rewrite Hid. reflexivity. }
  split; [rewrite Hfsm; reflexivity|]. split; [exact Hraise|].
  induction texts as [|t texts IH]; [reflexivity|].
  cbn [map]. rewrite feed_cons. cbn [handle]. unfold exec. rewrite Hraise. exact IH.
Qed.

(** X13. The delete flow. In the id step the database is never touched.
    An integer outside the range of int4 makes the SELECT raise DataError,
    which [except ValueError] does not catch: nothing is sent and the step
    stays as it is. An int4 id that no volunteer has ends the flow at once.
    An id of a volunteer is stored and the confirmation is asked. From there
    "confirm_delete_yes" removes that volunteer and no other, and
    "confirm_delete_no" removes nothing; both clear the context. *)
Theorem delete_flow (w : World) (t : string) (i : Z) :
  fsm_state (fsm w) = Some DeleteVolunteer_waiting_for_id ->
  PyStr.int t = Some i ->
  let w1 := exec (handle_messages t) w in
  db w1 = db w
  /\ (encodes_int4 i (db w) = false -> handle_messages t w = (inl DataError, w))
  /\ (in_int4 i = true -> Sql.select_volunteer i (db w) = None ->
      fsm w1 = mkFSM None no_data
      /\ sent w1 = (sent w ++ [Answer "❌ Волонтёр не найден." (Some manage_menu)])%list)
  /\ (forall v, Sql.select_volunteer i (db w) = Some v ->
        fsm w1 = mkFSM (Some DeleteVolunteer_confirm_delete)
                       (volunteer_id_is i (fsm_data (fsm w)))
        /\ sent w1 = (sent w ++ [Answer ("Вы уверены, что хотите удалить "
                                         +:+ v_full_name v +:+ "?")
                                        (Some confirm_delete_keyboard)])%list
        /\ (let w2 := exec (feed_callback_query "confirm_delete_yes") w1 in
            Sql.select_volunteer i (db w2) = None
            /\ (forall j, j <> i ->
                  Sql.select_volunteer j (db w2) = Sql.select_volunteer j (db w))
            /\ fsm w2 = mkFSM None no_data)
        /\ (let w3 := exec (feed_callback_query "confirm_delete_no") w1 in
            db w3 = db w /\ fsm w3 = mkFSM None no_data)).
Proof.
  intros Hs Ht w1.
  assert (Hrun : handle_messages t w
                 = if encodes_int4 i (db w)
                   then match Sql.select_volunteer i (db w) with
                        | None => (inr tt,
                                   mkWorld (db w) (mkFSM None no_data)
                                     (sent w ++ [Answer "❌ Волонтёр не найден."
                                                        (Some manage_menu)])%list)
                        | Some v => (inr tt,
                                     mkWorld (db w)
                                       (mkFSM (Some DeleteVolunteer_confirm_delete)
                                              (volunteer_id_is i (fsm_data (fsm w))))
                                       (sent w ++ [Answer ("Вы уверены, что хотите удалить "
                                                           +:+ v_full_name v +:+ "?")
                                                          (Some confirm_delete_keyboard)])%list)
                        end
                   else (inl DataError, w)).
  { unfold handle_messages. run_m. rewrite Hs, Ht. step_m.
    destruct (encodes_int4 i (db w)); [|reflexivity].
    destruct (Sql.select_volunteer i (db w)); reflexivity. }
  subst w1. unfold exec. rewrite Hrun. clear Hrun.
  split; [destruct (encodes_int4 i (db w)); [destruct (Sql.select_volunteer i (db w))|];
          reflexivity|].
  split; [intros ->; reflexivity|].
  split.
  { intros Hr Hn. rewrite (encodes_in_range i (db w) Hr), Hn. split; reflexivity. }
  intros v Hv. rewrite (encodes_present i (db w) v Hv), Hv. cbn [snd db fsm sent].
  split; [reflexivity|]. split; [reflexivity|]. split.
  - rewrite confirm_delete_yes_result.
    cbn [db fsm fsm_data volunteer_id_is data_volunteer_id].
    rewrite (encodes_present i (db w) v Hv). cbn [snd db fsm].
    split; [apply select_delete_same|]. split; [|reflexivity].
    intros j Hj. apply select_delete_other. congruence.
  - split; reflexivity.
Qed.

(** X14. The add flow. From the name step, the two texts of a principal
    run [add_volunteer] with the first as full_name and the second as
    contacts, then clear the context: the handlers do not raise, and the
    database is the one [add_volunteer] leaves, so a pair that is stored
    already adds nothing. *)
Theorem add_flow (w : World) (name contacts : string) :
  fsm_state (fsm w) = Some AddVolunteer_waiting_for_full_name ->
  let w2 := feed [Text name; Text contacts] w in
  db w2 = db (exec (add_volunteer name contacts) w)
  /\ fsm w2 = mkFSM None no_data
  /\ exists msg,
       sent w2 = (sent w ++ [Answer "Введите номер телефона:" None; msg;
                             Answer "📌 Главное меню:" (Some main_menu)])%list
       /\ (Sql.select_by_name_contacts name contacts (db w) = None ->
           msg = Answer ("✅ Волонтёр " +:+ name +:+ " добавлен.") None)
       /\ (Sql.select_by_name_contacts name contacts (db w) <> None ->
           msg = Answer "⚠ Такой волонтёр уже существует!" None).
Proof.
  intros Hs w2. subst w2.
  assert (H1 : exec (handle_messages name) w
               = mkWorld (db w)
                   (mkFSM (Some AddVolunteer_waiting_for_contact)
                          (full_name_is name (fsm_data (fsm w))))
                   (sent w ++ [Answer "Введите номер телефона:" None])%list).
  { unfold handle_messages. run_m. rewrite Hs. reflexivity. }
  unfold feed. cbn [fold_left handle]. rewrite H1.
  unfold handle_messages. run_m. cbn [fsm_state fsm_data full_name_is data_full_name].
  cbn [fst snd db fsm sent].
  destruct (Sql.select_by_name_contacts name contacts (db w)) as [v|];
    cbn [fst snd db fsm sent]; (split; [reflexivity|]); (split; [reflexivity|]);
    eexists; (split; [rewrite <- !app_assoc; reflexivity|]);
    split; intros Hc; first [reflexivity | discriminate Hc | contradiction].
Qed.

(** What [add_direct_blacklist] returns: it raises when the id cannot be
    bound, with the world as it was, and otherwise returns after one
    answer. *)
Lemma add_direct_blacklist_outcome (i : Z) (reason : string) (w : World) :
  (encodes_int4 i (db w) = false
   /\ add_direct_blacklist i reason w = (inl DataError, w))
  \/ (encodes_int4 i (db w) = true
      /\ exists w', add_direct_blacklist i reason w = (inr tt, w') /\ fsm w' = fsm w).
Proof.
  destruct (encodes_int4 i (db w)) eqn:Hb; [right | left]; (split; [reflexivity|]).
  - run_m. rewrite Hb. step_m.
    destruct (Sql.select_volunteer i (db w)); step_m; [rewrite Hb|];
      eexists; split; reflexivity.
  - run_m. rewrite Hb. reflexivity.
Qed.

(** X15. The manual-blacklist flow. The id step stores the integer that
    [int] reads without looking it up, so an unknown id is reported only
    after the reason. The two texts leave the database that
    [add_direct_blacklist] leaves with that id and that reason. When the id
    can be bound (an int4 value) the reason step returns and clears the
    context; when it cannot, every text of the reason step raises DataError
    and changes nothing, so the session stays in the reason step. *)
Theorem manual_blacklist_flow (w : World) (t reason : string) (i : Z) :
  fsm_state (fsm w) = Some BlacklistDirect_waiting_for_id ->
  PyStr.int t = Some i ->
  let w1 := exec (handle_messages t) w in
  w1 = mkWorld (db w)
         (mkFSM (Some BlacklistDirect_waiting_for_reason)
                (volunteer_id_is i (fsm_data (fsm w))))
         (sent w ++ [Answer "Введите причину внесения в ЧС:" None])%list
  /\ db (feed [Text t; Text reason] w) = db (exec (add_direct_blacklist i reason) w)
  /\ (encodes_int4 i (db w) = true ->
      exists w2, handle_messages reason w1 = (inr tt, w2) /\ fsm w2 = mkFSM None no_data)
  /\ (encodes_int4 i (db w) = false ->
      handle_messages reason w1 = (inl DataError, w1)).
Proof.
  intros Hs Ht w1.
  assert (H1 : w1 = mkWorld (db w)
                      (mkFSM (Some BlacklistDirect_waiting_for_reason)
                             (volunteer_id_is i (fsm_data (fsm w))))
                      (sent w ++ [Answer "Введите причину внесения в ЧС:" None])%list).
  { subst w1. unfold handle_messages. run_m. rewrite Hs, Ht. reflexivity. }
  assert (H2 : handle_messages reason w1
               = (add_direct_blacklist i reason ;; clear ;; main_menu_prompt) w1).
  { rewrite H1. reflexivity. }
  assert (Hadd : forall w0 : World, db w0 = db w ->
            db (exec (add_direct_blacklist i reason) w0)
            = db (exec (add_direct_blacklist i reason) w)).
  { intros w0 Hw0. rewrite !add_direct_blacklist_db, Hw0. reflexivity. }
  assert (Hdb1 : db w1 = db w) by (rewrite H1; reflexivity).
  split; [exact H1|]. split; [|split].
  - unfold feed. cbn [fold_left handle]. fold w1. unfold exec at 1. rewrite H2.
    rewrite <- (Hadd w1 Hdb1). unfold exec.
    unfold mbind at 1. unfold M_bind at 1.
    destruct (add_direct_blacklist i reason w1) as [[e|[]] w2]; reflexivity.
  - intros Hb. rewrite H2.
    destruct (add_direct_blacklist_outcome i reason w1) as [[Hb' _]|(_ & w2 & Hrun & _)];
      [rewrite Hdb1 in Hb'; congruence|].
    unfold mbind at 1. unfold M_bind at 1. rewrite Hrun.
    eexists. split; reflexivity.
  - intros Hb. rewrite H2.
    destruct (add_direct_blacklist_outcome i reason w1) as [[_ Hrun]|(Hb' & _)];
      [|rewrite Hdb1 in Hb'; congruence].
    unfold mbind at 1. unfold M_bind at 1. rewrite Hrun. reflexivity.
Qed.

(** X16. The edit flow with the "full_name" button. The id step stores the
    integer that [int] reads without looking it up, and the button stores the
    field. When the id can be bound (an int4 value), the value step runs to
    its end: for an id of a volunteer the full_name of that volunteer becomes
    the text, its other columns, the other volunteers and the blacklist table
    staying as they are, so a blacklist row keeps the former full_name; for an
    id that no volunteer has nothing changes in the database and the answer
    still says that the field was updated. When the id cannot be bound, every
    text of the value step raises DataError and changes nothing. *)
Theorem edit_flow (w : World) (t value : string) (i : Z) :
  fsm_state (fsm w) = Some EditVolunteer_waiting_for_id ->
  PyStr.int t = Some i ->
  let w2 := feed [Text t; Callback "edit_field_full_name"] w in
  let w3 := exec (handle_messages value) w2 in
  w2 = mkWorld (db w)
         (mkFSM (Some EditVolunteer_waiting_for_new_value)
                (mkData (Some i) (data_full_name (fsm_data (fsm w))) (Some "full_name")))
         (sent w ++ [Answer "Выберите поле для редактирования:" (Some edit_field_keyboard);
                     Answer "Введите новое значение для full_name:" None;
                     AnswerCallback])%list
  /\ (encodes_int4 i (db w) = true ->
      fsm w3 = mkFSM None no_data
      /\ sent w3 = (sent w2 ++ [Answer ("✅ full_name обновлено: " +:+ value) None;
                               Answer "📌 Главное меню:" (Some main_menu)])%list
      /\ blacklist (db w3) = blacklist (db w)
      /\ (forall v, Sql.select_volunteer i (db w) = Some v ->
            Sql.select_volunteer i (db w3)
            = Some (mkVolunteer (v_id v) value (v_contacts v) (v_status v)
                                (v_lateness_count v) (v_warnings_count v)))
      /\ (forall j, j <> i -> Sql.select_volunteer j (db w3) = Sql.select_volunteer j (db w))
      /\ (Sql.select_volunteer i (db w) = None -> db w3 = db w))
  /\ (encodes_int4 i (db w) = false ->
      handle_messages value w2 = (inl DataError, w2)).
Proof.
  intros Hs Ht w2 w3.
  assert (H2 : w2 = mkWorld (db w)
                      (mkFSM (Some EditVolunteer_waiting_for_new_value)
                             (mkData (Some i) (data_full_name (fsm_data (fsm w)))
                                     (Some "full_name")))
                      (sent w ++ [Answer "Выберите поле для редактирования:"
                                         (Some edit_field_keyboard);
                                  Answer "Введите новое значение для full_name:" None;
                                  AnswerCallback])%list).
  { subst w2.
    assert (H1 : exec (handle_messages t) w
                 = mkWorld (db w)
                     (mkFSM (Some EditVolunteer_waiting_for_field)
                            (volunteer_id_is i (fsm_data (fsm w))))
                     (sent w ++ [Answer "Выберите поле для редактирования:"
                                        (Some edit_field_keyboard)])%list).
    { unfold handle_messages. run_m. rewrite Hs, Ht. reflexivity. }
    unfold feed. cbn [fold_left handle]. rewrite H1.
    transitivity
      (mkWorld (db w)
         (mkFSM (Some EditVolunteer_waiting_for_new_value)
                (mkData (Some i) (data_full_name (fsm_data (fsm w))) (Some "full_name")))
         (((sent w ++ [Answer "Выберите поле для редактирования:"
                              (Some edit_field_keyboard)])
           ++ [Answer "Введите новое значение для full_name:" None])
          ++ [AnswerCallback])%list); [reflexivity|].
    rewrite <- !app_assoc. reflexivity. }
  split; [exact H2|].
  assert (Hrun : handle_messages value w2
                 = if encodes_int4 i (db w)
                   then (inr tt,
                         mkWorld (Sql.update_where_id (with_full_name value) i (db w))
                                 (mkFSM None no_data)
                                 (sent w2 ++ [Answer ("✅ full_name обновлено: " +:+ value) None;
                                              Answer "📌 Главное меню:" (Some main_menu)])%list)
                   else (inl DataError, w2)).
  { rewrite H2. unfold handle_messages, execute_text. run_m.
    cbn [data_volunteer_id data_field]. step_m.
    change (id_parameter (Sql.edit_query "full_name")) with true. step_m.
    destruct (encodes_int4 i (db w)); [|reflexivity]. step_m.
    change (execute_dynamic (Sql.edit_query "full_name") value i (db w))
      with (Some (Sql.update_where_id (with_full_name value) i (db w))).
    step_m. rewrite <- ?app_assoc. reflexivity. }
  split.
  - intros Hb. subst w3. unfold exec. rewrite Hrun, Hb. cbn [snd db fsm sent].
    split; [reflexivity|]. split; [reflexivity|]. split; [reflexivity|].
    split; [|split].
    + intros v Hv. rewrite select_update by reflexivity. rewrite Hv. reflexivity.
    + intros j Hj. apply select_update_other; [reflexivity | congruence].
    + intros Hn. apply update_absent, Hn.
  - intros Hb. rewrite Hrun, Hb. reflexivity.
Qed.

End Flows.

Lemma edit_without_id_is_stuck_witness :
  data_volunteer_id (fsm_data (fsm new_world)) = None
  /\ @feed sample_engine [Callback "edit_field_contacts"; Text "1"; Text "+7"; Text "x"] new_world
     = exec (feed_callback_query "edit_field_contacts") new_world
  /\ fsm_state (fsm (exec (feed_callback_query "edit_field_contacts") new_world))
     = Some EditVolunteer_waiting_for_new_value.
Proof.
  split; [reflexivity|].
  pose proof (@edit_without_id_is_stuck sample_engine new_world "contacts" ["1"; "+7"; "x"]
                eq_refl) as (Hs & _ & Hfeed).
  split; [exact Hfeed | exact Hs].
Defined.

Lemma delete_flow_witness :
  let w := ann_world_in 0 "Active" (Some DeleteVolunteer_waiting_for_id) no_data in
  fsm_state (fsm w) = Some DeleteVolunteer_waiting_for_id
  /\ PyStr.int "1" = Some 1
  /\ Sql.select_volunteer 1 (db w) = Some (mkVolunteer 1 "Ann" "+1" "Active" 0 0)
  /\ PyStr.int "99999999999" = Some 99999999999
  /\ encodes_int4 99999999999 (db w) = false
  /\ Sql.select_volunteer 1
       (db (exec (feed_callback_query "confirm_delete_yes")
                 (exec (@handle_messages sample_engine "1") w))) = None
  /\ db (exec (feed_callback_query "confirm_delete_no")
              (exec (@handle_messages sample_engine "1") w)) = db w
  /\ @handle_messages sample_engine "99999999999" w
     = (inl DataError, w).
Proof.
  intros w.
  pose proof (@delete_flow sample_engine w "1" 1 eq_refl eq_refl) as (_ & _ & _ & Hv).
  destruct (Hv _ eq_refl) as (_ & _ & (Hyes & _) & (Hno & _)).
  pose proof (@delete_flow sample_engine w "99999999999" 99999999999 eq_refl eq_refl)
    as (_ & Hout & _).
  split; [reflexivity|]. split; [reflexivity|]. split; [reflexivity|].
  split; [reflexivity|]. split; [reflexivity|].
  split; [exact Hyes|]. split; [exact Hno | exact (Hout eq_refl)].
Defined.

Lemma add_flow_witness :
  let w := ann_world_in 0 "Active" (Some AddVolunteer_waiting_for_full_name) no_data in
  fsm_state (fsm w) = Some AddVolunteer_waiting_for_full_name
  /\ volunteers (db (@feed sample_engine [Text "Bob"; Text "+2"] w))
     = [mkVolunteer 1 "Ann" "+1" "Active" 0 0; mkVolunteer 2 "Bob" "+2" "Active" 0 0]
  /\ db (@feed sample_engine [Text "Ann"; Text "+1"] w) = db w.
Proof.
  intros w. split; [reflexivity|]. split.
  - exact (f_equal volunteers (proj1 (@add_flow sample_engine w "Bob" "+2" eq_refl))).
  - exact (proj1 (@add_flow sample_engine w "Ann" "+1" eq_refl)).
Defined.

Lemma manual_blacklist_flow_witness :
  let w := ann_world_in 0 "Active" (Some BlacklistDirect_waiting_for_id) no_data in
  let w1 := exec (@handle_messages sample_engine "99999999999") w in
  fsm_state (fsm w) = Some BlacklistDirect_waiting_for_id
  /\ PyStr.int " 1 " = Some 1
  /\ encodes_int4 1 (db w) = true
  /\ PyStr.int "99999999999" = Some 99999999999
  /\ encodes_int4 99999999999 (db w) = false
  /\ db (@feed sample_engine [Text " 1 "; Text "policy violation"] w)
     = mkDB [mkVolunteer 1 "Ann" "+1" "Blacklisted" 0 0]
            [mkBlacklistEntry 1 "Ann" "policy violation"] 2 2
  /\ fsm w1 = mkFSM (Some BlacklistDirect_waiting_for_reason)
                    (mkData (Some 99999999999) None None)
  /\ @handle_messages sample_engine "policy violation" w1
     = (inl DataError, w1).
Proof.
  intros w w1.
  pose proof (@manual_blacklist_flow sample_engine w " 1 " "policy violation" 1
                eq_refl eq_refl) as (_ & Hdb & _).
  pose proof (@manual_blacklist_flow sample_engine w "99999999999" "policy violation"
                99999999999 eq_refl eq_refl) as (Hw1 & _ & _ & Hout).
  split; [reflexivity|]. split; [reflexivity|]. split; [reflexivity|].
  split; [reflexivity|]. split; [reflexivity|].
  split; [exact (eq_trans Hdb eq_refl)|].
  split; [exact (f_equal fsm Hw1) | exact (Hout eq_refl)].
Defined.

Lemma edit_flow_witness :
  let w := ann_world_in 0 "Active" (Some EditVolunteer_waiting_for_id) no_data in
  fsm_state (fsm w) = Some EditVolunteer_waiting_for_id
  /\ PyStr.int "1" = Some 1
  /\ encodes_int4 1 (db w) = true
  /\ Sql.select_volunteer 1 (db w) = Some (mkVolunteer 1 "Ann" "+1" "Active" 0 0)
  /\ Sql.select_volunteer 1
       (db (@feed sample_engine [Text "1"; Callback "edit_field_full_name"; Text "Eve"] w))
     = Some (mkVolunteer 1 "Eve" "+1" "Active" 0 0)
  /\ PyStr.int "7" = Some 7
  /\ encodes_int4 7 (db w) = true
  /\ Sql.select_volunteer 7 (db w) = None
  /\ db (@feed sample_engine [Text "7"; Callback "edit_field_full_name"; Text "Eve"] w) = db w
  /\ PyStr.int "99999999999" = Some 99999999999
  /\ encodes_int4 99999999999 (db w) = false
  /\ @handle_messages sample_engine "Eve"
       (@feed sample_engine [Text "99999999999"; Callback "edit_field_full_name"] w)
     = (inl DataError,
        @feed sample_engine [Text "99999999999"; Callback "edit_field_full_name"] w).
Proof.
  intros w.
  pose proof (@edit_flow sample_engine w "1" "Eve" 1 eq_refl eq_refl) as (_ & Hone & _).
  destruct (Hone eq_refl) as (_ & _ & _ & Hrow & _).
  pose proof (@edit_flow sample_engine w "7" "Eve" 7 eq_refl eq_refl) as (_ & Hseven & _).
  destruct (Hseven eq_refl) as (_ & _ & _ & _ & _ & Hnone).
  pose proof (@edit_flow sample_engine w "99999999999" "Eve" 99999999999 eq_refl eq_refl)
    as (_ & _ & Hout).
  split; [reflexivity|]. split; [reflexivity|]. split; [reflexivity|].
  split; [reflexivity|]. split; [exact (Hrow _ eq_refl)|].
  split; [reflexivity|]. split; [reflexivity|]. split; [reflexivity|].
  split; [exact (Hnone eq_refl)|].
  split; [reflexivity|]. split; [reflexivity|]. exact (Hout eq_refl).
Defined.

(** ** Sessions over any sequence of events *)

Section Sessions.

Context `{Postgres}.

Lemma callbacks_consistent (w : World) (query_data : string) :
  consistent (fsm w) -> consistent (fsm (exec (feed_callback_query query_data) w)).
Proof.
  intros Hc.
  destruct (String.eqb_spec query_data "confirm_delete_yes") as [->|Hne].
  { unfold exec. rewrite confirm_delete_yes_result.
    destruct (data_volunteer_id (fsm_data (fsm w))) as [i|];
      [destruct (encodes_int4 i (db w))|]; cbn [snd fsm]; first [exact I | exact Hc]. }
  unfold feed_callback_query, callback_query_handlers, trigger. cbn [filters handler_body].
  unfold callbacks.
  assert (Hshow : forall rows page prefix title w0,
             fsm (exec (show_records rows page prefix title) w0) = fsm w0)
    by (intros; apply show_records_frame).
  assert (Hv : fsm (exec (rows ← get_volunteers;
                          show_records (map VolunteerRow rows) 0 "volunteers"
                                       "Список волонтёров") w) = fsm w)
    by apply Hshow.
  assert (Hb : fsm (exec (rows ← get_blacklist;
                          show_records (map BlacklistRow rows) 0 "blacklist"
                                       "Черный список") w) = fsm w)
    by apply Hshow.
  repeat match goal with
         | |- context [if String.eqb query_data ?s then _ else _] =>
             destruct (String.eqb_spec query_data s)
         end;
    try exact I;
    try exact Hc;
    try contradiction;
    try (rewrite Hv; exact Hc);
    try (rewrite Hb; exact Hc).
  destruct (PyStr.startswith query_data "edit_field_"); [exact I | exact Hc].
Qed.

Lemma handle_messages_consistent (w : World) (t : string) :
  consistent (fsm w) -> consistent (fsm (exec (handle_messages t) w)).
Proof.
  intros Hc. unfold handle_messages, execute_text, search_volunteers. run_m.
  destruct (fsm_state (fsm w)) as [[]|] eqn:Hs; try exact Hc;
    repeat match goal with
           | |- context [PyStr.int t] =>
               destruct (PyStr.int t) as [i|]; step_m
           | |- context [id_parameter ?q] =>
               destruct (id_parameter q); step_m
           | |- context [encodes_int4 ?i ?d] =>
               destruct (encodes_int4 i d); step_m
           | |- context [Sql.select_volunteer ?i ?d] =>
               destruct (Sql.select_volunteer i d) as [row|]; step_m
           | |- context [((3 <=? ?a) && ?b)%bool] =>
               destruct ((3 <=? a) && b)%bool; step_m
           | |- context [data_full_name (fsm_data (fsm w))] =>
               destruct (data_full_name (fsm_data (fsm w))) as [n|]; step_m
           | |- context [data_volunteer_id (fsm_data (fsm w))] =>
               destruct (data_volunteer_id (fsm_data (fsm w))) as [i|]; step_m
           | |- context [data_field (fsm_data (fsm w))] =>
               destruct (data_field (fsm_data (fsm w))) as [f|]; step_m
           | |- context [Sql.select_by_name_contacts ?n ?c ?d] =>
               destruct (Sql.select_by_name_contacts n c d); step_m
           | |- context [execute_dynamic ?q ?a ?b ?d] =>
               destruct (execute_dynamic q a b d); step_m
           end;
    try exact I; try exact Hc;
    try (unfold consistent; cbn [fsm fsm_state fsm_data volunteer_id_is full_name_is
                                 data_volunteer_id data_full_name]; discriminate).
  pose proof (format_rows_world "volunteers"
                (map VolunteerRow
                     (row_order (db w) (matching ("%" +:+ PyStr.strip t +:+ "%") (db w))))
                "🔍 Результаты поиска:
" w) as Hw.
  destruct (row_order (db w) (matching _ (db w))) as [|v0 vs]; [exact I|].
  destruct (format_rows _ _ _ w) as [[e|body] w1]; cbn [snd] in Hw; subst w1;
    cbn [fst snd db fsm sent]; [exact Hc | exact I].
Qed.

Lemma feed_consistent (events : list Event) (w : World) :
  consistent (fsm w) -> consistent (fsm (feed events w)).
Proof.
  revert w. induction events as [|e events IH]; intros w Hc; [exact Hc|].
  rewrite feed_cons. apply IH. destruct e; cbn [handle].
  - apply callbacks_consistent, Hc.
  - apply handle_messages_consistent, Hc.
Qed.

(** X17. Over every sequence of callback and text events of a principal,
    starting from the empty context, a step finds the data it reads: in the
    reason step of the manual-blacklist flow and in the confirmation step of
    the delete flow the data holds [volunteer_id], in the contact step of the
    add flow it holds [full_name]. So neither the contact step nor the reason
    step raises KeyError. Every text of the contact step is handled to the
    end and clears the context; so is every text of the reason step when the
    stored id can be bound (an int4 value), and when it cannot, every text
    of the reason step raises DataError and changes nothing. *)
Theorem reachable_sessions (events : list Event) (d : DB) :
  let w := feed events (mkWorld d (mkFSM None no_data) []) in
  consistent (fsm w)
  /\ (fsm_state (fsm w) = Some AddVolunteer_waiting_for_contact ->
      forall t, exists w', handle_messages t w = (inr tt, w') /\ fsm w' = mkFSM None no_data)
  /\ (fsm_state (fsm w) = Some BlacklistDirect_waiting_for_reason ->
      exists i, data_volunteer_id (fsm_data (fsm w)) = Some i
        /\ (encodes_int4 i (db w) = true ->
            forall t, exists w', handle_messages t w = (inr tt, w')
                                 /\ fsm w' = mkFSM None no_data)
        /\ (encodes_int4 i (db w) = false ->
            forall t, handle_messages t w = (inl DataError, w))).
Proof.
  intros w.
  assert (Hc : consistent (fsm w)) by (apply feed_consistent; exact I).
  split; [exact Hc|]. unfold consistent in Hc. split.
  - intros Hs t. rewrite Hs in Hc. unfold handle_messages. run_m. rewrite Hs.
    destruct (data_full_name (fsm_data (fsm w))) as [n|]; [|contradiction].
    cbn [fst snd db fsm sent].
    destruct (Sql.select_by_name_contacts n t (db w)); eexists; split; reflexivity.
  - intros Hs. rewrite Hs in Hc.
    destruct (data_volunteer_id (fsm_data (fsm w))) as [i|] eqn:Hi; [|contradiction].
    exists i. split; [reflexivity|].
    assert (Hrun : forall t, handle_messages t w
                             = (add_direct_blacklist i t ;; clear ;; main_menu_prompt) w).
    { intros t. unfold handle_messages. unfold mbind at 1. unfold M_bind, get_state. rewrite Hs.
      unfold mbind at 1. unfold M_bind, get_data. rewrite Hi. reflexivity. }
    split; intros Hb t; rewrite Hrun; unfold mbind at 1; unfold M_bind at 1.
    + destruct (add_direct_blacklist_outcome i t w) as [[Hb' _]|(_ & w2 & Hadd & _)];
        [congruence|].
      rewrite Hadd. eexists. split; reflexivity.
    + destruct (add_direct_blacklist_outcome i t w) as [[_ Hadd]|(Hb' & _)];
        [|congruence].
      rewrite Hadd. reflexivity.
Qed.

End Sessions.

Lemma reachable_sessions_witness :
  let w := @feed sample_engine [Callback "menu_blacklist_direct"; Text "1"]
                 (mkWorld (db (ann_world 0 "Active")) (mkFSM None no_data) []) in
  let o := @feed sample_engine [Callback "menu_blacklist_direct"; Text "99999999999"]
                 (mkWorld (db (ann_world 0 "Active")) (mkFSM None no_data) []) in
  fsm_state (fsm w) = Some BlacklistDirect_waiting_for_reason
  /\ data_volunteer_id (fsm_data (fsm w)) = Some 1
  /\ encodes_int4 1 (db w) = true
  /\ (exists w', @handle_messages sample_engine "policy violation" w = (inr tt, w')
                 /\ fsm w' = mkFSM None no_data)
  /\ fsm_state (fsm o) = Some BlacklistDirect_waiting_for_reason
  /\ data_volunteer_id (fsm_data (fsm o)) = Some 99999999999
  /\ encodes_int4 99999999999 (db o) = false
  /\ @handle_messages sample_engine "policy violation" o
     = (inl DataError, o).
Proof.
  intros w o.
  destruct (proj2 (proj2 (@reachable_sessions sample_engine
                            [Callback "menu_blacklist_direct"; Text "1"]
                            (db (ann_world 0 "Active")))) eq_refl)
    as (i & Hi & Hin & _).
  destruct (proj2 (proj2 (@reachable_sessions sample_engine
                            [Callback "menu_blacklist_direct"; Text "99999999999"]
                            (db (ann_world 0 "Active")))) eq_refl)
    as (j & Hj & _ & Hout).
  assert (Ei : i = 1) by (vm_compute in Hi; congruence). subst i.
  assert (Ej : j = 99999999999) by (vm_compute in Hj; congruence). subst j.
  split; [reflexivity|]. split; [reflexivity|]. split; [reflexivity|].
  split; [exact (Hin eq_refl "policy violation")|].
  split; [reflexivity|]. split; [reflexivity|]. split; [reflexivity|].
  exact (Hout eq_refl "policy violation").
Defined.

(** ** Searching *)

(** X18. The search step answers every text with one message and ends the
    flow: the handler does not raise, the database is not touched, the
    context is cleared. The pattern is the text, stripped of the white space
    around it, between two "%". The message lists the volunteers whose
    full_name or contacts match the pattern, each once, in the order in which
    the engine returns them (the SELECT has no ORDER BY), and says that
    nothing was found when there is none. *)
Theorem search_flow `{Postgres} (w : World) (t : string) :
  fsm_state (fsm w) = Some SearchVolunteer_waiting_for_query ->
  let pattern := "%" +:+ PyStr.strip t +:+ "%" in
  let found := search_volunteers pattern (db w) in
  Permutation found
    (List.filter (fun v => ilike (v_full_name v) pattern || ilike (v_contacts v) pattern)%bool
                 (volunteers (db w)))
  /\ handle_messages t w
     = (inr tt,
        mkWorld (db w) (mkFSM None no_data)
          (sent w ++ [Answer (match found with
                              | [] => "❌ Ничего не найдено."
                              | _ => "🔍 Результаты поиска:
" +:+ lines_of (map VolunteerRow found)
                              end) (Some manage_menu)])%list).
Proof.
  intros Hs pattern found. split; [apply row_order_permutation|].
  unfold handle_messages.
  unfold mbind at 1. unfold M_bind, get_state. rewrite Hs.
  unfold mbind at 1. unfold M_bind, fetch. fold pattern. fold found.
  destruct found as [|v0 vs] eqn:Hfound; [reflexivity|].
  unfold mbind, M_bind.
  rewrite format_rows_lines; [reflexivity|].
  apply Forall_forall. intros r Hr. apply list_elem_of_In, in_map_iff in Hr as (v & <- & _).
  reflexivity.
Qed.

Lemma search_flow_witness :
  let w := ann_world_in 0 "Active" (Some SearchVolunteer_waiting_for_query) no_data in
  fsm_state (fsm w) = Some SearchVolunteer_waiting_for_query
  /\ PyStr.strip " Ann　" = "Ann"
  /\ @handle_messages sample_engine " Ann　" w
     = (inr tt,
        mkWorld (db w) (mkFSM None no_data)
          [Answer "🔍 Результаты поиска:
1. Ann | Active | +1 | Опозданий: 0 | Замечаний: 0
" (Some manage_menu)]).
Proof.
  intros w. split; [reflexivity|]. split; [reflexivity|].
  exact (proj2 (@search_flow sample_engine w " Ann　" eq_refl)).
Defined.

(** ** Interleaved calls: the promotion is not missed *)

Module ConcurrentPromotion.
Import Concurrent ConcurrentFacts.

Lemma existsb_insert_pending (tasks : list Task) (k : nat) (t' : Task) :
  (k < length tasks)%nat -> check_pending t' = true ->
  existsb check_pending (<[k := t']> tasks) = true.
Proof.
  revert k. induction tasks as [|a tasks IH]; intros k Hk Ht'; [cbn in Hk; lia|].
  destruct k as [|k]; cbn [insert list_insert existsb].
  - rewrite Ht'. reflexivity.
  - change (list_insert k t' tasks) with (<[k := t']> tasks).
    rewrite IH by (cbn in Hk; lia || exact Ht'). apply orb_true_r.
Qed.

Lemma existsb_insert_other (tasks : list Task) (k : nat) (t t' : Task) :
  tasks !! k = Some t -> check_pending t = false ->
  existsb check_pending tasks = true ->
  existsb check_pending (<[k := t']> tasks) = true.
Proof.
  revert k. induction tasks as [|a tasks IH]; intros k Hk Ht Hex; [discriminate|].
  destruct k as [|k]; cbn [insert list_insert existsb] in *.
  - injection Hk as ->. rewrite Ht in Hex. cbn [orb] in Hex. rewrite Hex. apply orb_true_r.
  - change (list_insert k t' tasks) with (<[k := t']> tasks).
    destruct (check_pending a); [reflexivity|]. cbn [orb] in *.
    apply (IH k); assumption.
Qed.

Lemma resume_promotion (i : Z) (k : nat) (p : Pool) :
  promotion_on_its_way i p -> promotion_on_its_way i (resume k p).
Proof.
  destruct p as [tasks w]. intros (Hon & v & Hv & Hcase). cbn [fst snd] in *.
  unfold resume. destruct (tasks !! k) as [t|] eqn:Hk;
    [|split; [exact Hon | exists v; auto]].
  assert (Hlt : (k < length tasks)%nat) by (eapply lookup_lt_Some, Hk).
  assert (Ht : targets i t).
  { apply (proj1 (Forall_forall _ _) Hon). eapply list_elem_of_lookup_2, Hk. }
  assert (Hins : forall t', targets i t' -> Forall (targets i) (<[k := t']> tasks)).
  { intros t' Ht'. apply Forall_insert; assumption. }
  assert (Hb : encodes_int4 i (db w) = true) by (eapply encodes_present, Hv).
  destruct t as [j|j|j row tv|row tv|]; cbn [targets] in *.
  - subst j. rewrite step_increment, Hb. split; [apply Hins; reflexivity|]. cbn [fst snd db].
    exists (incr_lateness v). split.
    + rewrite select_update by reflexivity. rewrite Hv. reflexivity.
    + right. right. apply existsb_insert_pending; [exact Hlt | reflexivity].
  - subst j. cbn [step]. run_m. rewrite Hb. step_m. rewrite Hv. rewrite !or0_id.
    fold (total_violations_of v).
    destruct (Z.leb_spec 3 (total_violations_of v)) as [Hge|Hlt3];
      destruct (String.eqb_spec (v_status v) "Blacklisted") as [Hs|Hs]; cbn [andb negb];
      cbn [fst snd db].
    + split; [apply Hins; exact I|]. exists v. split; [exact Hv | left; exact Hs].
    + split; [apply Hins; reflexivity|]. exists v. split; [exact Hv|].
      right. right. apply existsb_insert_pending; [exact Hlt | reflexivity].
    + split; [apply Hins; exact I|]. exists v. split; [exact Hv | left; exact Hs].
    + split; [apply Hins; exact I|]. exists v. split; [exact Hv | right; left; exact Hlt3].
  - subst j. rewrite step_set_status, Hb. split; [apply Hins; exact I|]. cbn [fst snd db].
    exists (with_status "Blacklisted" v). split.
    + rewrite select_update by reflexivity. rewrite Hv. reflexivity.
    + left. reflexivity.
  - cbn [step]. run_m. split; [apply Hins; exact I|]. cbn [fst snd db].
    exists v. split; [rewrite select_insert_blacklist; exact Hv|].
    destruct Hcase as [Hc|[Hc|Hc]]; [left; exact Hc | right; left; exact Hc|].
    right. right. eapply existsb_insert_other; [exact Hk | reflexivity | exact Hc].
  - cbn [step]. run_m. split; [apply Hins; exact I|]. cbn [fst snd db].
    exists v. split; [exact Hv|].
    destruct Hcase as [Hc|[Hc|Hc]]; [left; exact Hc | right; left; exact Hc|].
    right. right. eapply existsb_insert_other; [exact Hk | reflexivity | exact Hc].
Qed.

Lemma run_promotion (i : Z) (schedule : list nat) (p : Pool) :
  promotion_on_its_way i p -> promotion_on_its_way i (run schedule p).
Proof.
  revert p. induction schedule as [|k ks IH]; intros p Hp; [exact Hp|].
  cbn [run fold_left]. apply IH, resume_promotion, Hp.
Qed.

Lemma all_done_no_pending (tasks : list Task) :
  forallb is_done tasks = true -> existsb check_pending tasks = false.
Proof.
  induction tasks as [|a tasks IH]; [reflexivity|]. cbn [forallb existsb]. intros Hd.
  apply andb_true_iff in Hd as [Ha Hd]. rewrite (IH Hd).
  destruct a; try discriminate. reflexivity.
Qed.

Lemma resume_unique (k : nat) (p : Pool) :
  unique_full_name (db (snd p)) -> unique_full_name (db (snd (resume k p))).
Proof.
  destruct p as [tasks w]. cbn [snd]. intros Hu. unfold resume.
  destruct (tasks !! k) as [t|]; [|exact Hu].
  destruct t as [j|j|j row tv|row tv|].
  - rewrite step_increment. destruct (encodes_int4 j (db w)); exact Hu.
  - cbn [step]. run_m. destruct (encodes_int4 j (db w)); step_m; [|exact Hu].
    destruct (Sql.select_volunteer j (db w)) as [row|]; [|exact Hu].
    destruct ((3 <=? _) && _)%bool; exact Hu.
  - rewrite step_set_status. destruct (encodes_int4 j (db w)); exact Hu.
  - cbn [step]. run_m. cbn [snd db]. apply insert_blacklist_unique, Hu.
  - exact Hu.
Qed.

End ConcurrentPromotion.

(** X19. No promotion is missed, whatever the interleaving. Take one call
    or more of [add_lateness] against an existing volunteer and any
    interleaving of their statements that runs every call to its end: if the
    volunteer then has three violations or more, its status is Blacklisted. *)
Theorem concurrent_promotion_not_missed (n : nat) (volunteer_id : Z) (w : World)
        (v : Volunteer) (schedule : list nat) :
  (0 < n)%nat ->
  Sql.select_volunteer volunteer_id (db w) = Some v ->
  Concurrent.all_done (Concurrent.run schedule (Concurrent.calls n volunteer_id w)) = true ->
  exists v',
    Sql.select_volunteer volunteer_id
      (db (snd (Concurrent.run schedule (Concurrent.calls n volunteer_id w)))) = Some v'
    /\ (3 <= total_violations_of v' -> v_status v' = "Blacklisted").
Proof.
  intros Hn Hv Hdone.
  assert (H0 : promotion_on_its_way volunteer_id (Concurrent.calls n volunteer_id w)).
  { split; cbn [fst snd Concurrent.calls].
    - apply Forall_forall. intros t Ht. apply list_elem_of_In, repeat_spec in Ht.
      subst t. reflexivity.
    - exists v. split; [exact Hv|]. right. right.
      destruct n as [|n]; [lia | reflexivity]. }
  destruct (ConcurrentPromotion.run_promotion _ schedule _ H0) as (_ & v' & Hv' & Hcase).
  exists v'. split; [exact Hv'|]. intros Hge.
  rewrite (ConcurrentPromotion.all_done_no_pending _ Hdone) in Hcase.
  destruct Hcase as [Hc|[Hc|Hc]]; [exact Hc | lia | discriminate Hc].
Qed.

Lemma concurrent_promotion_not_missed_witness :
  let w := ann_world 1 "Active" in
  let schedule := [0; 1; 1; 0; 1; 1; 0; 0]%nat in
  (0 < 2)%nat
  /\ Sql.select_volunteer 1 (db w) = Some (mkVolunteer 1 "Ann" "+1" "Active" 1 0)
  /\ Concurrent.all_done (Concurrent.run schedule (Concurrent.calls 2 1 w)) = true
  /\ Sql.select_volunteer 1 (db (snd (Concurrent.run schedule (Concurrent.calls 2 1 w))))
     = Some (mkVolunteer 1 "Ann" "+1" "Blacklisted" 3 0).
Proof.
  intros w schedule.
  assert (Hn : (0 < 2)%nat) by lia.
  split; [exact Hn|]. split; [reflexivity|]. split; [reflexivity|].
  destruct (concurrent_promotion_not_missed 2 1 w _ schedule Hn eq_refl eq_refl)
    as (v' & Hv' & _).
  rewrite Hv'. f_equal. vm_compute in Hv'. injection Hv' as <-. reflexivity.
Defined.

(** X20. No interleaving inserts a second blacklist row for a full_name:
    under UNIQUE(full_name), after any schedule of any calls in flight, run
    to the end or not, the blacklist still holds at most one row per
    full_name. *)
Theorem concurrent_blacklist_unique (schedule : list nat) (p : Concurrent.Pool) :
  unique_full_name (db (snd p)) ->
  unique_full_name (db (snd (Concurrent.run schedule p)))
  /\ forall n, (entries_for n (db (snd (Concurrent.run schedule p))) <= 1)%nat.
Proof.
  intros Hu.
  assert (Hrun : unique_full_name (db (snd (Concurrent.run schedule p)))).
  { revert p Hu. induction schedule as [|k ks IH]; intros p Hu; [exact Hu|].
    cbn [Concurrent.run fold_left]. apply IH, ConcurrentPromotion.resume_unique, Hu. }
  split; [exact Hrun|]. intros n. apply unique_entries_for, Hrun.
Qed.

Lemma concurrent_blacklist_unique_witness :
  let p := Concurrent.calls 3 1 (ann_world 2 "Active") in
  unique_full_name (db (snd p))
  /\ entries_for "Ann" (db (snd (Concurrent.run [0; 1; 2; 0; 1; 2; 0; 1; 2; 0; 1; 2]%nat p)))
     = 1%nat
  /\ (entries_for "Ann" (db (snd (Concurrent.run [0; 1; 2; 0; 1; 2; 0; 1; 2; 0; 1; 2]%nat p)))
      <= 1)%nat.
Proof.
  intros p.
  assert (Hu : unique_full_name (db (snd p))) by apply NoDup_nil_2.
  split; [exact Hu|]. split; [reflexivity|].
  exact (proj2 (concurrent_blacklist_unique
                  [0; 1; 2; 0; 1; 2; 0; 1; 2; 0; 1; 2]%nat p Hu) "Ann").
Defined.

Lemma invariant_with_offered_fields_witness :
  let ops := [OpAdd "Ann" "+1"; OpAdd "Bob" "+2"; OpRecordLateness 1; OpRecordWarning 1;
              OpRecordLateness 1; OpEdit 1 "full_name" "Anna";
              OpManualBlacklist 2 "policy violation"; OpEdit 2 "contacts" "+3";
              OpDelete 1] in
  Forall offered_op ops
  /\ volunteers (db (fst (@run_ops sample_engine ops (new_world, ∅))))
     = [mkVolunteer 2 "Bob" "+3" "Blacklisted" 0 0]
  /\ blacklist_invariant (@run_ops sample_engine ops (new_world, ∅)).
Proof.
  intros ops.
  assert (Hoff : Forall offered_op ops).
  { repeat (apply Forall_cons; split; [first [exact I | left; reflexivity | right; reflexivity]|]).
    apply Forall_nil_2. }
  split; [exact Hoff|]. split; [reflexivity|].
  exact (@invariant_with_offered_fields sample_engine ops Hoff).
Defined.
